(** * Learning-analytics dropout segmentation: SQL analysis and dashboard code

    A shallow embedding of

    - [backend/scripts/init_db.sql]: the views [v_course_summary] and
      [v_dropout_by_segment] and the PL/pgSQL function
      [analyze_course_dropout];
    - [frontend/src/pages/DropoutPage.tsx]: the derived values
      [reasonsWithPercentage], [maxDropoutRate] and the peak-segment label;
    - [frontend/src/services/api.ts]: the shared wrapper [fetchApi].

    Conventions.  A nullable SQL column is an [option]; SQL's three-valued
    conditions are [option bool] with [None] for UNKNOWN.  [numeric] and
    [double precision] values are rationals ([Q]): every value the CHECK
    constraints admit is a finite number, the comparisons against the integer
    segment bounds are exact, and PostgreSQL's [numeric] quotient carries at
    least sixteen significant digits, which is idealised here as the exact
    quotient; so is the division by 10 under FLOOR in the view.  A division
    by zero is an error of the statement, so queries that divide live in the
    error monad [exec].  JavaScript numbers are the rationals that the
    doubles stand for.  Where the value of a quotient or a product is itself
    shown (the percentages of the dropout reasons, the label beside a mini
    doughnut) every operation rounds to the nearest double, [Double.round];
    where a quotient is only compared with a threshold or scaled to a width,
    it is the exact quotient. *)

From Stdlib Require Import String Ascii List ZArith QArith Qround Qabs Qpower Bool Lia Lqa
  Permutation Sorted.
Import ListNotations.

Set Implicit Arguments.

Local Open Scope Z_scope.

(* ================================================================== *)
(** * Part I: definitions *)
(* ================================================================== *)

(** ** SQL values, conditions and errors *)

Module Sql.

Inductive sql_error : Type :=
| division_by_zero.

(** Outcome of evaluating a statement: its value, or the error raised. *)
Inductive exec (A : Type) : Type :=
| Ok (a : A)
| Raise (e : sql_error).

Arguments Ok {A} a.
Arguments Raise {A} e.

Definition bind {A B : Type} (m : exec A) (k : A -> exec B) : exec B :=
  match m with
  | Ok a => k a
  | Raise e => Raise e
  end.

Fixpoint mapM {A B : Type} (f : A -> exec B) (l : list A) : exec (list B) :=
  match l with
  | [] => Ok []
  | x :: t => bind (f x) (fun y => bind (mapM f t) (fun ys => Ok (y :: ys)))
  end.

(** A condition holds only when it is TRUE; UNKNOWN behaves like FALSE in
    WHERE, ON, FILTER and CASE WHEN. *)
Definition sql_true (c : option bool) : bool :=
  match c with
  | Some true => true
  | _ => false
  end.

Definition sql_and (a b : option bool) : option bool :=
  match a, b with
  | Some false, _ | _, Some false => Some false
  | Some true, Some true => Some true
  | _, _ => None
  end.

Definition sql_cmp {A : Type} (cmp : A -> A -> bool) (a b : option A) : option bool :=
  match a, b with
  | Some x, Some y => Some (cmp x y)
  | _, _ => None
  end.

Definition Qlt_bool (x y : Q) : bool := negb (Qle_bool y x).

(** [a >= b] and [a < b] on numbers, [a = b] on integers, booleans, text. *)
Definition sql_ge : option Q -> option Q -> option bool := sql_cmp (fun x y => Qle_bool y x).
Definition sql_lt : option Q -> option Q -> option bool := sql_cmp Qlt_bool.
Definition sql_eq_int : option Z -> option Z -> option bool := sql_cmp Z.eqb.
Definition sql_eq_bool : option bool -> option bool -> option bool := sql_cmp Bool.eqb.
Definition sql_eq_text : option string -> option string -> option bool := sql_cmp String.eqb.

(** [NULLIF(a, b)] *)
Definition NULLIF (a b : Z) : option Z := if a =? b then None else Some a.

(** [x::numeric] of a bigint. *)
Definition to_numeric (x : option Z) : option Q := option_map inject_Z x.

(** [a / b] on numeric: NULL when an operand is NULL, an error when the
    divisor is zero. *)
Definition numeric_div (a b : option Q) : exec (option Q) :=
  match a, b with
  | Some x, Some y => if Qeq_bool y 0 then Raise division_by_zero else Ok (Some (x / y)%Q)
  | _, _ => Ok None
  end.

Definition numeric_mul (a b : option Q) : option Q :=
  match a, b with
  | Some x, Some y => Some (x * y)%Q
  | _, _ => None
  end.

(** Nearest integer, ties away from zero. *)
Definition round_half_away (x : Q) : Z :=
  if Qle_bool 0 x then Qfloor (x + (1 # 2)) else - Qfloor (- x + (1 # 2)).

Definition pow10 (s : nat) : positive := Z.to_pos (10 ^ Z.of_nat s).

(** [ROUND(x, s)]: a numeric with [s] decimals, kept as unscaled / 10^s. *)
Definition ROUND (x : option Q) (s : nat) : option Q :=
  option_map (fun q => Qmake (round_half_away (q * inject_Z (Zpos (pow10 s)))) (pow10 s)) x.

(** [FLOOR(x)] *)
Definition FLOOR (x : Q) : Z := Qfloor x.

(** [MAX(x)] over the rows of a group: NULL for no row. *)
Fixpoint sql_max (l : list Q) : option Q :=
  match l with
  | [] => None
  | x :: t =>
      match sql_max t with
      | None => Some x
      | Some m => Some (if Qle_bool x m then m else x)
      end
  end.

(** The non-NULL values of a column. *)
Fixpoint non_null {A : Type} (l : list (option A)) : list A :=
  match l with
  | [] => []
  | Some x :: t => x :: non_null t
  | None :: t => non_null t
  end.

(** [COUNT(DISTINCT e)]: NULLs are not counted. *)
Definition count_distinct (l : list (option Z)) : Z :=
  Z.of_nat (length (nodup Z.eq_dec (non_null l))).

(** [generate_series(start, stop, step)] for a positive step. *)
Definition generate_series (start stop step : Z) : list Z :=
  map (fun i => start + Z.of_nat i * step) (seq 0 (Z.to_nat ((stop - start) / step + 1))).

Section Relational.

Variables A B K : Type.

(** [l LEFT JOIN r ON on]: a left row without a match is kept once, padded
    with NULLs. *)
Definition left_join (on : A -> B -> bool) (l : list A) (r : list B) : list (A * option B) :=
  flat_map (fun a => match filter (on a) r with
                     | [] => [(a, None)]
                     | m => map (fun b => (a, Some b)) m
                     end) l.

(** [l JOIN r ON on] *)
Definition inner_join (on : A -> B -> bool) (l : list A) (r : list B) : list (A * B) :=
  flat_map (fun a => map (fun b => (a, b)) (filter (on a) r)) l.

Variable K_eq_dec : forall x y : K, {x = y} + {x <> y}.

Definition key_is (key : A -> K) (k : K) (a : A) : bool :=
  if K_eq_dec (key a) k then true else false.

(** [GROUP BY key]: one group per distinct key, holding the rows with it. *)
Definition group_by (key : A -> K) (rows : list A) : list (K * list A) :=
  map (fun k => (k, filter (key_is key k) rows)) (nodup K_eq_dec (map key rows)).

(** [ORDER BY]: stable insertion sort along [leb]. *)
Fixpoint insert_by (leb : A -> A -> bool) (x : A) (l : list A) : list A :=
  match l with
  | [] => [x]
  | y :: t => if leb x y then x :: y :: t else y :: insert_by leb x t
  end.

Definition order_by (leb : A -> A -> bool) (l : list A) : list A :=
  fold_right (insert_by leb) [] l.

End Relational.

End Sql.

Import Sql.

(** ** The schema of init_db.sql (the columns the views and the function read) *)

Module Schema.

Record course : Type := {
  c_id : Z;
  course_code : string;
  title : string;
  category : string;
  difficulty : string;
  is_active : option bool
}.

Record enrollment : Type := {
  e_user_id : Z;
  e_course_id : Z;
  status : option string;
  e_progress_percent : option Q
}.

Record learning_log : Type := {
  l_user_id : Z;
  l_course_id : Z;
  progress_percent : Q;
  watch_duration_sec : Z;
  is_dropout : option bool;
  dropout_reason : option string
}.

Record database : Type := {
  courses : list course;
  enrollments : list enrollment;
  learning_logs : list learning_log
}.

(** The same courses and enrollments with other learning logs. *)
Definition with_logs (db : database) (logs : list learning_log) : database :=
  {| courses := courses db; enrollments := enrollments db; learning_logs := logs |}.

(** The constraint [unique_user_course]. *)
Definition unique_user_course (db : database) : Prop :=
  NoDup (map (fun e => (e_user_id e, e_course_id e)) (enrollments db)).

End Schema.

Import Schema.

(** ** analyze_course_dropout(p_course_id) *)

Module Dropout.

(** The rows of the CTE [user_max_progress]. *)
Record user_max_progress_row : Type := {
  user_id : Z;
  max_progress : option Q
}.

Definition user_max_progress (logs : list learning_log) (p_course_id : Z)
  : list user_max_progress_row :=
  map (fun g => {| user_id := fst g;
                   max_progress := sql_max (map progress_percent (snd g)) |})
      (group_by Z.eq_dec l_user_id
         (filter (fun l => l_course_id l =? p_course_id) logs)).

(** The CTE [segments]. *)
Definition segments : list Z := generate_series 0 90 10.

(** [ON u.max_progress >= s.seg_start] *)
Definition reached_on (s : Z) (u : user_max_progress_row) : bool :=
  sql_true (sql_ge (max_progress u) (Some (inject_Z s))).

(** [segments s LEFT JOIN user_max_progress u ON ...] *)
Definition reached_join (logs : list learning_log) (p_course_id : Z)
  : list (Z * option user_max_progress_row) :=
  left_join reached_on segments (user_max_progress logs p_course_id).

(** [ON l.user_id = u.user_id AND l.course_id = p_course_id]; the columns of
    [u] are NULL on a segment no user reached. *)
Definition log_on (p_course_id : Z) (su : Z * option user_max_progress_row)
           (l : learning_log) : bool :=
  sql_true (sql_and
    (sql_eq_int (Some (l_user_id l)) (option_map user_id (snd su)))
    (sql_eq_int (Some (l_course_id l)) (Some p_course_id))).

(** [... LEFT JOIN learning_logs l ON ...] *)
Definition log_join (logs : list learning_log) (p_course_id : Z)
  : list ((Z * option user_max_progress_row) * option learning_log) :=
  left_join (log_on p_course_id) (reached_join logs p_course_id) logs.

(** The rows of [log_join] that stem from one segment. *)
Definition rows_for (logs : list learning_log) (p_course_id : Z) (s : Z)
  : list ((Z * option user_max_progress_row) * option learning_log) :=
  left_join (log_on p_course_id)
    (left_join reached_on [s] (user_max_progress logs p_course_id)) logs.

(** [CASE WHEN l.is_dropout = TRUE AND l.progress_percent >= s.seg_start
              AND l.progress_percent < s.seg_start + 10 THEN l.user_id END] *)
Definition dropout_case (s : Z) (l : option learning_log) : option Z :=
  if sql_true (sql_and (sql_and
        (sql_eq_bool (match l with Some x => is_dropout x | None => None end) (Some true))
        (sql_ge (option_map progress_percent l) (Some (inject_Z s))))
        (sql_lt (option_map progress_percent l) (Some (inject_Z (s + 10)))))
  then option_map l_user_id l
  else None.

(** The rows of the CTE [segment_analysis]. *)
Record segment_analysis_row : Type := {
  seg_start : Z;
  seg_end : Z;
  sa_users_reached : Z;
  dropouts : Z
}.

Definition aggregate (g : Z * list ((Z * option user_max_progress_row) * option learning_log))
  : segment_analysis_row :=
  {| seg_start := fst g;
     seg_end := fst g + 10;
     sa_users_reached :=
       count_distinct (map (fun r => option_map user_id (snd (fst r))) (snd g));
     dropouts :=
       count_distinct (map (fun r => dropout_case (fst (fst r)) (snd r)) (snd g)) |}.

Definition segment_analysis (logs : list learning_log) (p_course_id : Z)
  : list segment_analysis_row :=
  map aggregate
      (group_by Z.eq_dec (fun r => fst (fst r)) (log_join logs p_course_id)).

(** [sa.dropouts::numeric / NULLIF(sa.users_reached, 0) * 100] *)
Definition rate_expr (sa : segment_analysis_row) : exec (option Q) :=
  bind (numeric_div (to_numeric (Some (dropouts sa)))
                    (to_numeric (NULLIF (sa_users_reached sa) 0)))
       (fun q => Ok (numeric_mul q (Some 100%Q))).

(** The CASE of the final SELECT, read on the value of its WHEN operand. *)
Definition risk_of_rate (rate : option Q) : string :=
  if sql_true (sql_ge rate (Some 20%Q)) then "critical"
  else if sql_true (sql_ge rate (Some 15%Q)) then "high"
  else if sql_true (sql_ge rate (Some 10%Q)) then "medium"
  else "low".

(** The CASE as written: each WHEN evaluates the rate expression again, and
    a later WHEN is evaluated only when the earlier ones did not hold. *)
Definition risk_case (sa : segment_analysis_row) : exec string :=
  bind (rate_expr sa) (fun r1 =>
  if sql_true (sql_ge r1 (Some 20%Q)) then Ok "critical"%string else
  bind (rate_expr sa) (fun r2 =>
  if sql_true (sql_ge r2 (Some 15%Q)) then Ok "high"%string else
  bind (rate_expr sa) (fun r3 =>
  if sql_true (sql_ge r3 (Some 10%Q)) then Ok "medium"%string else
  Ok "low"%string))).

(** The rows of RETURNS TABLE. *)
Record row : Type := {
  segment_start : Z;
  segment_end : Z;
  users_reached : Z;
  dropout_count : Z;
  dropout_rate : option Q;
  risk_level : string
}.

Definition select_row (sa : segment_analysis_row) : exec row :=
  bind (rate_expr sa) (fun rate =>
  bind (risk_case sa) (fun risk =>
  Ok {| segment_start := seg_start sa;
        segment_end := seg_end sa;
        users_reached := sa_users_reached sa;
        dropout_count := dropouts sa;
        dropout_rate := ROUND rate 2;
        risk_level := risk |})).

Definition analyze_course_dropout (logs : list learning_log) (p_course_id : Z)
  : exec (list row) :=
  bind (mapM select_row (segment_analysis logs p_course_id)) (fun rows =>
  Ok (order_by (fun a b => segment_start a <=? segment_start b) rows)).

(** *** The analysis in the words of its description

    Steps 1 to 5 of the segmentation analysis, stated on the logs directly:
    a user's maximum progress in the course, the distinct users whose maximum
    is at least a segment's start, and the distinct users with a
    dropout-flagged log inside the segment.  The properties below relate the
    query to these. *)

Definition course_logs (logs : list learning_log) (p_course_id : Z) : list learning_log :=
  filter (fun l => l_course_id l =? p_course_id) logs.

Definition max_progress_of (logs : list learning_log) (p_course_id uid : Z) : option Q :=
  sql_max (map progress_percent
             (filter (fun l => l_user_id l =? uid) (course_logs logs p_course_id))).

Definition reached (logs : list learning_log) (p_course_id s uid : Z) : bool :=
  match max_progress_of logs p_course_id uid with
  | Some m => Qle_bool (inject_Z s) m
  | None => false
  end.

Definition reached_users (logs : list learning_log) (p_course_id s : Z) : list Z :=
  nodup Z.eq_dec
    (filter (reached logs p_course_id s) (map l_user_id (course_logs logs p_course_id))).

Definition dropped_in (s : Z) (l : learning_log) : bool :=
  match is_dropout l with
  | Some true =>
      Qle_bool (inject_Z s) (progress_percent l)
      && Qlt_bool (progress_percent l) (inject_Z (s + 10))
  | _ => false
  end.

Definition dropout_users (logs : list learning_log) (p_course_id s : Z) : list Z :=
  nodup Z.eq_dec (map l_user_id (filter (dropped_in s) (course_logs logs p_course_id))).

(** The unrounded rate: NULL when nobody reached the segment. *)
Definition exact_rate (reached_count dropped_count : Z) : option Q :=
  if reached_count =? 0 then None
  else Some (inject_Z dropped_count / inject_Z reached_count * 100)%Q.

Definition segment_row (logs : list learning_log) (p_course_id s : Z) : row :=
  let u := Z.of_nat (length (reached_users logs p_course_id s)) in
  let d := Z.of_nat (length (dropout_users logs p_course_id s)) in
  {| segment_start := s;
     segment_end := s + 10;
     users_reached := u;
     dropout_count := d;
     dropout_rate := ROUND (exact_rate u d) 2;
     risk_level := risk_of_rate (exact_rate u d) |}.

(** A sequence that never increases from one element to the next. *)
Fixpoint non_increasing (l : list Z) : Prop :=
  match l with
  | x :: ((y :: _) as t) => y <= x /\ non_increasing t
  | _ => True
  end.

End Dropout.

(** ** v_course_summary *)

Module CourseSummary.

(** [GROUP BY c.id, c.course_code, c.title, c.category, c.difficulty] *)
Definition key : Type := (Z * string * string * string * string)%type.

Definition key_eq_dec (x y : key) : {x = y} + {x <> y}.
Proof.
  repeat decide equality.
Defined.

Definition key_of (c : course) : key :=
  (c_id c, Schema.course_code c, Schema.title c, Schema.category c, Schema.difficulty c).

(** [CASE WHEN e.status = st THEN e.user_id END] *)
Definition status_case (st : string) (e : option enrollment) : option Z :=
  if sql_true (sql_eq_text (match e with Some x => status x | None => None end) (Some st))
  then option_map e_user_id e
  else None.

(** [ROUND(n::numeric / NULLIF(total, 0) * 100, 2)] *)
Definition rate_of (n total : Z) : exec (option Q) :=
  bind (numeric_div (to_numeric (Some n)) (to_numeric (NULLIF total 0)))
       (fun q => Ok (ROUND (numeric_mul q (Some 100%Q)) 2)).

Record row : Type := {
  course_id : Z;
  course_code : string;
  title : string;
  category : string;
  difficulty : string;
  total_enrollments : Z;
  completions : Z;
  dropouts : Z;
  active_learners : Z;
  completion_rate : option Q;
  dropout_rate : option Q
}.

Definition count_status (st : string) (g : list (course * option enrollment)) : Z :=
  count_distinct (map (fun ce => status_case st (snd ce)) g).

Definition count_users (g : list (course * option enrollment)) : Z :=
  count_distinct (map (fun ce => option_map e_user_id (snd ce)) g).

Definition select_row (g : key * list (course * option enrollment)) : exec row :=
  let '(id, code, ttl, cat, diff) := fst g in
  bind (rate_of (count_status "completed" (snd g)) (count_users (snd g))) (fun cr =>
  bind (rate_of (count_status "dropped" (snd g)) (count_users (snd g))) (fun dr =>
  Ok {| course_id := id;
        course_code := code;
        title := ttl;
        category := cat;
        difficulty := diff;
        total_enrollments := count_users (snd g);
        completions := count_status "completed" (snd g);
        dropouts := count_status "dropped" (snd g);
        active_learners := count_status "active" (snd g);
        completion_rate := cr;
        dropout_rate := dr |})).

(** [FROM courses c LEFT JOIN enrollments e ON c.id = e.course_id
     WHERE c.is_active = TRUE] *)
Definition active_join (db : database) : list (course * option enrollment) :=
  filter (fun ce => sql_true (sql_eq_bool (is_active (fst ce)) (Some true)))
    (left_join (fun c e => c_id c =? e_course_id e) (courses db) (enrollments db)).

Definition v_course_summary (db : database) : exec (list row) :=
  mapM select_row (group_by key_eq_dec (fun ce => key_of (fst ce)) (active_join db)).

(** *** The summary in the words of its description

    The counts are taken over the Enrollment records of the course: the
    distinct users enrolled, and those among them whose enrollment has a given
    status.  A rate is the share of the enrolled users, times 100, to two
    decimals, and NULL when nobody is enrolled. *)

Definition course_enrollments (db : database) (cid : Z) : list enrollment :=
  filter (fun e => e_course_id e =? cid) (enrollments db).

Definition has_status (st : string) (e : enrollment) : bool :=
  match status e with
  | Some x => String.eqb x st
  | None => false
  end.

Definition enrolled_users (db : database) (cid : Z) : list Z :=
  nodup Z.eq_dec (map e_user_id (course_enrollments db cid)).

Definition users_with_status (db : database) (cid : Z) (st : string) : list Z :=
  nodup Z.eq_dec (map e_user_id (filter (has_status st) (course_enrollments db cid))).

Definition percentage (n total : Z) : option Q :=
  if total =? 0 then None
  else ROUND (Some (inject_Z n / inject_Z total * 100)%Q) 2.

Definition summary_row (db : database) (k : key) : row :=
  let '(id, code, ttl, cat, diff) := k in
  let total := Z.of_nat (length (enrolled_users db id)) in
  let count st := Z.of_nat (length (users_with_status db id st)) in
  {| course_id := id;
     course_code := code;
     title := ttl;
     category := cat;
     difficulty := diff;
     total_enrollments := total;
     completions := count "completed"%string;
     dropouts := count "dropped"%string;
     active_learners := count "active"%string;
     completion_rate := percentage (count "completed"%string) total;
     dropout_rate := percentage (count "dropped"%string) total |}.

End CourseSummary.

(** ** v_dropout_by_segment *)

Module SegmentView.

(** [GROUP BY c.course_code, c.title, FLOOR(l.progress_percent / 10)] *)
Definition key : Type := (string * string * Z)%type.

Definition key_eq_dec (x y : key) : {x = y} + {x <> y}.
Proof.
  repeat decide equality.
Defined.

Definition key_of (cl : course * learning_log) : key :=
  (Schema.course_code (fst cl), Schema.title (fst cl),
   FLOOR (progress_percent (snd cl) / 10)).

Record row : Type := {
  course_code : string;
  title : string;
  segment_start : Z;
  segment_end : Z;
  total_logs : Z;
  dropout_count : Z;
  dropout_rate : option Q
}.

(** [FROM courses c JOIN learning_logs l ON c.id = l.course_id] *)
Definition view_join (db : database) : list (course * learning_log) :=
  inner_join (fun c l => c_id c =? l_course_id l) (courses db) (learning_logs db).

(** [COUNT( * ) FILTER (WHERE l.is_dropout = TRUE)] *)
Definition count_dropout (g : list (course * learning_log)) : Z :=
  Z.of_nat (length (filter (fun cl => sql_true (sql_eq_bool (is_dropout (snd cl)) (Some true))) g)).

Definition select_row (g : key * list (course * learning_log)) : exec row :=
  let '(code, ttl, band) := fst g in
  bind (numeric_div (to_numeric (Some (count_dropout (snd g))))
                    (to_numeric (Some (Z.of_nat (length (snd g)))))) (fun q =>
  Ok {| course_code := code;
        title := ttl;
        segment_start := band * 10;
        segment_end := band * 10 + 10;
        total_logs := Z.of_nat (length (snd g));
        dropout_count := count_dropout (snd g);
        dropout_rate := ROUND (numeric_mul q (Some 100%Q)) 2 |}).

(** The row of a group, when the division goes through. *)
Definition band_row (g : key * list (course * learning_log)) : row :=
  let '(code, ttl, band) := fst g in
  {| course_code := code;
     title := ttl;
     segment_start := band * 10;
     segment_end := band * 10 + 10;
     total_logs := Z.of_nat (length (snd g));
     dropout_count := count_dropout (snd g);
     dropout_rate :=
       ROUND (Some (inject_Z (count_dropout (snd g))
                    / inject_Z (Z.of_nat (length (snd g))) * 100)%Q) 2 |}.

Section Collation.

(** The ordering of text under the database's collation. *)
Variable text_leb : string -> string -> bool.

(** [ORDER BY c.course_code, segment_start] *)
Definition row_leb (a b : row) : bool :=
  if String.eqb (course_code a) (course_code b)
  then segment_start a <=? segment_start b
  else text_leb (course_code a) (course_code b).

Definition v_dropout_by_segment (db : database) : exec (list row) :=
  bind (mapM select_row (group_by key_eq_dec key_of (view_join db)))
       (fun rows => Ok (order_by row_leb rows)).

End Collation.

End SegmentView.

(** ** IEEE 754 doubles *)

Module Double.

(** The numbers of JavaScript are binary64 doubles.  A finite double is the
    rational it stands for, and an operation returns the double nearest to
    the exact result (ties to the even significand).  Overflow and the
    subnormal range are not modelled: [round] is what the machine computes
    for every result whose magnitude lies in [2^-1022, 2^1024), and for 0. *)

(** The unit roundoff: half the gap between 1 and the next double. *)
Definition unit_roundoff : Q := 1 # (2 ^ 53).

(** The integer nearest to [x], a tie going to the even one. *)
Definition nearest_even (x : Q) : Z :=
  let f := Qfloor x in
  match (x - inject_Z f ?= 1 # 2)%Q with
  | Lt => f
  | Gt => f + 1
  | Eq => if Z.even f then f else f + 1
  end.

(** The exponent [e] of the last place of [x]: 2^52 <= |x| / 2^e < 2^53. *)
Definition exponent (x : Q) : Z :=
  let e0 := Z.log2 (Z.abs (Qnum x)) - Z.log2 (Zpos (Qden x)) - 53 in
  if Qle_bool (2 ^ 53) (Qabs x / 2 ^ e0) then e0 + 1 else e0.

(** The double nearest to [x]: 53 significant bits. *)
Definition round (x : Q) : Q :=
  let y := Qred x in
  let e := exponent y in
  Qred (inject_Z (nearest_even (y / 2 ^ e)) * 2 ^ e).

(** [x + y], [x * y] and [x / y] (for a [y] other than 0) on doubles. *)
Definition add (x y : Q) : Q := round (x + y).
Definition mul (x y : Q) : Q := round (x * y).
Definition div (x y : Q) : Q := round (x / y).

End Double.

(** ** DropoutPage.tsx *)

Module DropoutPage.

Record DropoutReason : Type := {
  reason : string;
  count : Q;
  percentage : option Q
}.

Record ChartDataset : Type := {
  label : string;
  data : list Q;
  backgroundColor : list string;
  borderColor : list string
}.

Record ChartData : Type := {
  labels : list string;
  datasets : list ChartDataset;
  dropout_counts : list Q
}.

(** [Math.round]: the nearest integer, ties towards +Infinity. *)
Definition Math_round (x : Q) : Z := Qfloor (x + (1 # 2)).

(** [Math.max(...l)]; [None] is -Infinity, the maximum of no argument. *)
Fixpoint Math_max (l : list Z) : option Z :=
  match l with
  | [] => None
  | x :: t =>
      match Math_max t with
      | None => Some x
      | Some m => Some (Z.max x m)
      end
  end.

(** [l.indexOf(x)]: the first index holding [x], or -1. *)
Fixpoint indexOf_from (i : Z) (l : list Z) (x : option Z) : Z :=
  match l with
  | [] => -1
  | y :: t =>
      if match x with Some v => y =? v | None => false end
      then i
      else indexOf_from (i + 1) t x
  end.

Definition indexOf (l : list Z) (x : option Z) : Z := indexOf_from 0 l x.

(** [l[i]]: [None] is undefined. *)
Definition at_index {A : Type} (l : list A) (i : Z) : option A :=
  if i <? 0 then None else nth_error l (Z.to_nat i).

Definition is_digit (c : ascii) : bool :=
  ((48 <=? nat_of_ascii c) && (nat_of_ascii c <=? 57))%nat.

(** The group captured by [/^(\d+)/], empty when there is no match. *)
Fixpoint leading_digits (s : string) : string :=
  match s with
  | String c t => if is_digit c then String c (leading_digits t) else EmptyString
  | EmptyString => EmptyString
  end.

Definition simpleLabel (label : string) : string :=
  match leading_digits label with
  | EmptyString => label
  | digits => (digits ++ "%")%string
  end.

Section Component.

(** The state [chartData] (null until loaded) and [reasons]. *)
Variable chartData : option ChartData.
Variable reasons : list DropoutReason.

(** [chartData?.datasets?.[0]?.data ?? []] *)
Definition rawDropoutRates : list Q :=
  match chartData with
  | Some cd => match datasets cd with
               | d :: _ => data d
               | [] => []
               end
  | None => []
  end.

Definition dropoutRates : list Z := map Math_round rawDropoutRates.

(** [chartData?.labels?.length && dropoutRates.length], as a truth value. *)
Definition isChartDataReady : bool :=
  match chartData with
  | Some cd => negb (length (labels cd) =? 0)%nat && negb (length dropoutRates =? 0)%nat
  | None => false
  end.

Definition maxDropoutRate : option Z :=
  if isChartDataReady then Math_max dropoutRates else Some 1.

Definition simpleLabels : list string :=
  match chartData with
  | Some cd => map simpleLabel (labels cd)
  | None => []
  end.

(** The peak block: rendered only when the chart data is ready, showing
    [simpleLabels[dropoutRates.indexOf(maxDropoutRate)]] and the maximum. *)
Definition peakIndex : Z := indexOf dropoutRates maxDropoutRate.

Definition peakInfo : option (option string * option Z) :=
  if isChartDataReady
  then Some (at_index simpleLabels peakIndex, maxDropoutRate)
  else None.

Definition totalReasonCount : Q :=
  fold_left (fun sum r => Double.add sum (count r)) reasons 0%Q.

Definition reasonsWithPercentage : list DropoutReason :=
  map (fun r => {| reason := reason r;
                   count := count r;
                   percentage :=
                     Some (if Qlt_bool 0 totalReasonCount
                           then Double.mul (Double.div (count r) totalReasonCount) 100
                           else 0%Q) |}) reasons.

End Component.

(** [r.percentage ?? 0] *)
Definition percentage_or_zero (r : DropoutReason) : Q :=
  match percentage r with
  | Some x => x
  | None => 0%Q
  end.

(** The sum of a list of numbers. *)
Definition Qsum (l : list Q) : Q := fold_right Qplus 0%Q l.

End DropoutPage.

(** ** services/api.ts *)

Module Api.

Section FetchApi.

(** The parsed body, the request options, and what [fetch] or
    [response.json()] reject with (a TypeError, a SyntaxError, ...). *)
Variables JSON RequestInit Rejection : Type.

Inductive thrown : Type :=
| ApiError (message : string) (status : Z) (statusText : string)
| Other (e : Rejection).

(** A settled promise. *)
Inductive promise (A : Type) : Type :=
| Fulfilled (a : A)
| Rejected (e : thrown).

Arguments Fulfilled {A} a.
Arguments Rejected {A} e.

(** [await m; k] *)
Definition await {A B : Type} (m : promise A) (k : A -> promise B) : promise B :=
  match m with
  | Fulfilled a => k a
  | Rejected e => Rejected e
  end.

Definition settle {A : Type} (m : Rejection + A) : promise A :=
  match m with
  | inl e => Rejected (Other e)
  | inr a => Fulfilled a
  end.

(** A response: [json] is the outcome of [response.json()]. *)
Record Response : Type := {
  ok : bool;
  status : Z;
  statusText : string;
  json : Rejection + JSON
}.

Variable fetch : string -> option RequestInit -> Rejection + Response.

Definition fetchApi (url : string) (options : option RequestInit) : promise JSON :=
  await (settle (fetch url options)) (fun response =>
  if negb (ok response)
  then Rejected (ApiError ("API 요청 실패: " ++ statusText response)
                          (status response) (statusText response))
  else await (settle (json response)) (fun data => Fulfilled data)).

End FetchApi.

Arguments ApiError {Rejection} message status statusText.
Arguments Other {Rejection} e.
Arguments Fulfilled {Rejection A} a.
Arguments Rejected {Rejection A} e.

End Api.

(** ** Sample data *)

Module Sample.

Definition log (user course : Z) (progress : Q) (dropout : bool) : learning_log :=
  {| l_user_id := user;
     l_course_id := course;
     progress_percent := progress;
     watch_duration_sec := 60;
     is_dropout := Some dropout;
     dropout_reason := if dropout then Some "too hard"%string else None |}.

(** Course 1 with a single learner, who left at 35%. *)
Definition one_learner : list learning_log :=
  [log 1 1 12 false; log 1 1 35 true].

(** Course 7 with 100 learners: 40 stop at 35%, 12 leave at 45%, and 48 go
    on to 80%; so 60 reach the segment 40-50 and 12 of them drop out in it. *)
Definition cohort : list learning_log :=
  map (fun u => log (Z.of_nat u) 7 35 false) (seq 1 40)
  ++ map (fun u => log (Z.of_nat u) 7 45 true) (seq 41 12)
  ++ map (fun u => log (Z.of_nat u) 7 80 false) (seq 53 48).

(** Course 1 with five learners: two finish, three leave between 40% and 50%;
    and a log of another course. *)
Definition five_learners : list learning_log :=
  [log 1 1 5 false; log 1 1 45 true; log 2 1 100 false; log 3 1 42 true;
   log 4 1 48 true; log 5 1 60 false; log 5 1 100 false; log 6 2 99 true].

Definition enrolled (user course : Z) (st : string) : enrollment :=
  {| e_user_id := user; e_course_id := course; status := Some st;
     e_progress_percent := Some 0%Q |}.

Definition python_course : course :=
  {| c_id := 1; course_code := "PY101"; title := "Python basics";
     category := "programming"; difficulty := "beginner"; is_active := Some true |}.

Definition sql_course : course :=
  {| c_id := 2; course_code := "SQL201"; title := "SQL in depth";
     category := "data"; difficulty := "intermediate"; is_active := Some true |}.

Definition retired_course : course :=
  {| c_id := 3; course_code := "OLD001"; title := "Retired";
     category := "data"; difficulty := "beginner"; is_active := Some false |}.

(** One active course that nobody has enrolled in yet. *)
Definition new_course_db : database :=
  {| courses := [python_course]; enrollments := []; learning_logs := [] |}.

(** The new course once its first learner has left at 35%. *)
Definition first_learner_db : database :=
  {| courses := [python_course]; enrollments := [enrolled 1 1 "dropped"];
     learning_logs := one_learner |}.

(** Two active courses, the first with three enrollments, and a retired one. *)
Definition small_db : database :=
  {| courses := [python_course; sql_course; retired_course];
     enrollments := [enrolled 1 1 "completed"; enrolled 2 1 "dropped";
                     enrolled 3 1 "active"; enrolled 4 3 "active"];
     learning_logs := five_learners |}.

(** Chart data of a course: 10 of 100 learners leave in the first segment,
    5 of the remaining 10 in the second. *)
Definition chart : DropoutPage.ChartData :=
  {| DropoutPage.labels := ["0-10%"; "10-20%"; "20-30%"]%string;
     DropoutPage.datasets :=
       [ {| DropoutPage.label := "dropout rate"%string;
            DropoutPage.data := [10; 50; 0]%Q;
            DropoutPage.backgroundColor := [];
            DropoutPage.borderColor := [] |} ];
     DropoutPage.dropout_counts := [10; 5; 0]%Q |}.

Definition reasons : list DropoutPage.DropoutReason :=
  [ {| DropoutPage.reason := "too hard"%string; DropoutPage.count := 3;
       DropoutPage.percentage := None |};
    {| DropoutPage.reason := "no time"%string; DropoutPage.count := 1;
       DropoutPage.percentage := None |} ].

(** A server answering 204 No Content: the response is ok and its body is
    not JSON, so [response.json()] rejects. *)
Definition fetch_no_content (url : string) (options : option unit)
  : string + Api.Response string string :=
  inr {| Api.ok := true; Api.status := 204; Api.statusText := "No Content";
         Api.json := inl "SyntaxError: Unexpected end of JSON input"%string |}.

(** A server answering 404 with a JSON error body. *)
Definition fetch_not_found (url : string) (options : option unit)
  : string + Api.Response string string :=
  inr {| Api.ok := false; Api.status := 404; Api.statusText := "Not Found";
         Api.json := inr "{}"%string |}.

End Sample.

(** ** JavaScript numbers beyond the finite ones *)

Module Js.

(** A number: finite, NaN or an infinity.  The sign of a zero is not
    represented: [x / 0] with [x] other than 0 is given the sign of [x], which
    is what JavaScript computes unless the zero is negative. *)
Inductive number : Type :=
| Finite (q : Q)
| NaN
| PosInfinity
| NegInfinity.

(** [x / y] for finite [x] and [y]. *)
Definition div (x y : Q) : number :=
  if Qeq_bool y 0
  then if Qeq_bool x 0 then NaN
       else if Qlt_bool 0 x then PosInfinity else NegInfinity
  else Finite (x / y).

(** [x * k] for a finite [k]. *)
Definition mul (x : number) (k : Q) : number :=
  match x with
  | Finite a => Finite (a * k)
  | NaN => NaN
  | PosInfinity =>
      if Qeq_bool k 0 then NaN else if Qlt_bool 0 k then PosInfinity else NegInfinity
  | NegInfinity =>
      if Qeq_bool k 0 then NaN else if Qlt_bool 0 k then NegInfinity else PosInfinity
  end.

(** [x < q] for a finite [q]: false on NaN. *)
Definition lt (x : number) (q : Q) : bool :=
  match x with
  | Finite a => Qlt_bool a q
  | NaN => false
  | PosInfinity => false
  | NegInfinity => true
  end.

(** [x / y] and [x * k] as the machine computes them: the double nearest to
    the exact result. *)
Definition nearest (x : number) : number :=
  match x with
  | Finite a => Finite (Double.round a)
  | other => other
  end.

Definition divide (x y : Q) : number := nearest (div x y).

Definition times (x : number) (k : Q) : number := nearest (mul x k).

(** [Math.round(x)]: an integer, or [x] itself when it is not finite. *)
Definition round (x : number) : number :=
  match x with
  | Finite a => Finite (inject_Z (Qfloor (a + (1 # 2))))
  | other => other
  end.

End Js.

(** ** DropoutPage.tsx: the charts *)

Module DropoutCharts.

Import DropoutPage.

(** [rate / maxDropoutRate]; a maximum of -Infinity gives a zero. *)
Definition normalized (maxDropoutRate : option Z) (rate : Z) : Js.number :=
  match maxDropoutRate with
  | Some m => Js.div (inject_Z rate) (inject_Z m)
  | None => Js.Finite 0
  end.

(** The callback of [pointBackgroundColor]. *)
Definition pointColor (maxDropoutRate : option Z) (rate : Z) : string :=
  if Js.lt (normalized maxDropoutRate rate) 0.3 then "#28a745"
  else if Js.lt (normalized maxDropoutRate rate) 0.6 then "#ffc107"
  else if Js.lt (normalized maxDropoutRate rate) 0.8 then "#fd7e14"
  else "#dc3545".

(** The fields of the area chart's dataset that depend on the data (the
    fixed styling is left out). *)
Record AreaDataset : Type := {
  area_label : string;
  area_data : list Z;
  pointBackgroundColor : list string
}.

Record AreaChartData : Type := {
  area_labels : list string;
  area_datasets : list AreaDataset
}.

Definition getAreaChartData (chartData : option ChartData) : AreaChartData :=
  if negb (isChartDataReady chartData)
  then {| area_labels := []; area_datasets := [] |}
  else {| area_labels := simpleLabels chartData;
          area_datasets :=
            [ {| area_label := "이탈률";
                 area_data := dropoutRates chartData;
                 pointBackgroundColor :=
                   map (pointColor (maxDropoutRate chartData))
                       (dropoutRates chartData) |} ] |}.

Definition doughnutColors : list string :=
  ["#E8F1FA"; "#C6DBEF"; "#9ECAE1"; "#6BAED6"; "#3182BD"; "#08519C"]%string.

(** [l.slice(0, n)] *)
Definition slice0 {A : Type} (n : nat) (l : list A) : list A := firstn n l.

Record DoughnutData : Type := {
  doughnut_labels : list string;
  doughnut_data : list Q;
  doughnut_backgroundColor : list string
}.

Definition getDoughnutData (reasons : list DropoutReason) : DoughnutData :=
  let topReasons := slice0 6 (reasonsWithPercentage reasons) in
  {| doughnut_labels := map reason topReasons;
     doughnut_data := map count topReasons;
     doughnut_backgroundColor := doughnutColors |}.

(** The legend: the first six reasons with [Math.round(reason.percentage)]. *)
Definition doughnutLegend (reasons : list DropoutReason) : list (string * Z) :=
  map (fun r => (reason r, Math_round (percentage_or_zero r)))
      (slice0 6 (reasonsWithPercentage reasons)).





End DropoutCharts.

(** ** LevelTestPage.tsx *)

Module LevelTestPage.

Record LevelTestRequest : Type := {
  education : string;
  daily_study_hours : Q;
  known_concepts : list string;
  desired_role : string;
  has_project_experience : bool;
  coding_months : Z
}.

(** The updater that [handleConceptChange] passes to [setFormData]. *)
Definition handleConceptChange (concept : string) (checked : bool)
           (prev : LevelTestRequest) : LevelTestRequest :=
  {| education := education prev;
     daily_study_hours := daily_study_hours prev;
     known_concepts :=
       if checked
       then (known_concepts prev ++ [concept])%list
       else filter (fun c => negb (String.eqb c concept)) (known_concepts prev);
     desired_role := desired_role prev;
     has_project_experience := has_project_experience prev;
     coding_months := coding_months prev |}.

(** [checked] of a checkbox: [formData.known_concepts.includes(concept)]. *)
Definition includes (l : list string) (concept : string) : bool :=
  existsb (String.eqb concept) l.

End LevelTestPage.

(** ** CoursesPage.tsx *)

Module CoursesPage.

Record FunnelStep : Type := {
  stage : string;
  count : Q;
  rate : Q
}.

(** [getColorByPercent]: the main and the background colour. *)
Definition getColorByPercent (percent : Q) : string * string :=
  if Qle_bool 50 percent then ("#28a745", "rgba(40, 167, 69, 0.2)")%string
  else if Qle_bool 20 percent then ("#ffc107", "rgba(255, 193, 7, 0.2)")%string
  else ("#dc3545", "rgba(220, 53, 69, 0.2)")%string.

Record MiniDoughnut : Type := {
  mini_data : list Q;
  mini_backgroundColor : list string
}.

Definition createMiniDoughnutData (value total : Q) : MiniDoughnut :=
  let percent := if Qlt_bool 0 total then (value / total * 100)%Q else 0%Q in
  let colors := getColorByPercent percent in
  {| mini_data := [value; (total - value)%Q];
     mini_backgroundColor := [fst colors; snd colors] |}.

(** The label beside a mini doughnut: [Math.round((value / total) * 100)]. *)
Definition miniDoughnutLabel (value total : Q) : Js.number :=
  Js.round (Js.times (Js.divide value total) 100).

(** [detail?.funnel_data[0]?.count || 1] *)
Definition funnelMax (funnel_data : option (list FunnelStep)) : Q :=
  match funnel_data with
  | Some (step :: _) => if Qeq_bool (count step) 0 then 1%Q else count step
  | _ => 1%Q
  end.

(** [(step.count / funnelMax) * 100] for every step. *)
Definition widthPercents (funnel_data : list FunnelStep) : list Js.number :=
  map (fun step => Js.mul (Js.div (count step) (funnelMax (Some funnel_data))) 100)
      funnel_data.

End CoursesPage.

(** ** Severity of a risk level, and more sample data *)

Module Risk.

(** The rank of a level on the ladder low, medium, high, critical. *)
Definition severity (level : string) : nat :=
  if String.eqb level "critical" then 3
  else if String.eqb level "high" then 2
  else if String.eqb level "medium" then 1
  else 0.

End Risk.

Module MoreSamples.

(** The only learner of course 1 is flagged as dropping out at 100%. *)
Definition dropout_at_full_progress : list learning_log :=
  [Sample.log 1 1 40 false; Sample.log 1 1 100 true].

(** The logs of [Sample.one_learner] in another order, among logs of course 2. *)
Definition one_learner_shuffled : list learning_log :=
  [Sample.log 9 2 50 true; Sample.log 1 1 35 true; Sample.log 1 1 12 false;
   Sample.log 8 2 10 false].

(** A course where nobody drops out. *)
Definition calm_chart : DropoutPage.ChartData :=
  {| DropoutPage.labels := ["0-10%"; "10-20%"]%string;
     DropoutPage.datasets :=
       [ {| DropoutPage.label := "dropout rate"%string;
            DropoutPage.data := [0; 0.3]%Q;
            DropoutPage.backgroundColor := [];
            DropoutPage.borderColor := [] |} ];
     DropoutPage.dropout_counts := [0; 0]%Q |}.

Definition reason (name : string) (n : Q) : DropoutPage.DropoutReason :=
  {| DropoutPage.reason := name; DropoutPage.count := n;
     DropoutPage.percentage := None |}.




Definition form : LevelTestPage.LevelTestRequest :=
  {| LevelTestPage.education := "bootcamp";
     LevelTestPage.daily_study_hours := 3;
     LevelTestPage.known_concepts := ["variable"; "loop"]%string;
     LevelTestPage.desired_role := "backend";
     LevelTestPage.has_project_experience := false;
     LevelTestPage.coding_months := 4 |}.

Definition funnel : list CoursesPage.FunnelStep :=
  [ {| CoursesPage.stage := "enrolled"; CoursesPage.count := 200; CoursesPage.rate := 100 |};
    {| CoursesPage.stage := "watched"; CoursesPage.count := 150; CoursesPage.rate := 75 |};
    {| CoursesPage.stage := "completed"; CoursesPage.count := 40; CoursesPage.rate := 20 |} ].

End MoreSamples.

(* ================================================================== *)
(** * Part II: properties *)
(* ================================================================== *)

(** ** The relational toolkit *)

Section ToolkitFacts.

Variables A B K : Type.
Variable K_eq_dec : forall x y : K, {x = y} + {x <> y}.

Lemma mapM_ok (f : A -> exec B) (g : A -> B) (l : list A) :
  (forall x, In x l -> f x = Ok (g x)) -> mapM f l = Ok (map g l).
Proof.
  induction l as [|x t IH]; intros H; simpl.
  - reflexivity.
  - rewrite (H x (or_introl eq_refl)). simpl.
    rewrite IH by (intros y Hy; apply H; now right).
    reflexivity.
Qed.

Lemma left_join_app (on : A -> B -> bool) (l1 l2 : list A) (r : list B) :
  left_join on (l1 ++ l2) r = left_join on l1 r ++ left_join on l2 r.
Proof. unfold left_join. apply flat_map_app. Qed.

Lemma left_join_flat_map (X : Type) (on : A -> B -> bool) (G : X -> list A)
      (l : list X) (r : list B) :
  left_join on (flat_map G l) r = flat_map (fun x => left_join on (G x) r) l.
Proof.
  induction l as [|x t IH]; simpl.
  - reflexivity.
  - rewrite left_join_app, IH. reflexivity.
Qed.

Lemma left_join_singletons (on : A -> B -> bool) (l : list A) (r : list B) :
  left_join on l r = flat_map (fun a => left_join on [a] r) l.
Proof.
  unfold left_join. apply flat_map_ext. intros a. simpl. now rewrite app_nil_r.
Qed.

(** Which rows a left join holds. *)
Lemma in_left_join (on : A -> B -> bool) (l : list A) (r : list B) (a : A) (ob : option B) :
  In (a, ob) (left_join on l r) <->
  In a l /\ match ob with
            | Some b => In b r /\ on a b = true
            | None => forall b, In b r -> on a b = false
            end.
Proof.
  unfold left_join. rewrite in_flat_map. split.
  - intros (a' & Ha' & Hin).
    destruct (filter (on a') r) as [|b0 m] eqn:E.
    + destruct Hin as [Heq|[]]. inversion Heq; subst. split; [assumption|].
      intros b Hb. destruct (on a b) eqn:Hon; [|reflexivity].
      assert (Hf : In b (filter (on a) r)) by (apply filter_In; now split).
      rewrite E in Hf. destruct Hf.
    + apply in_map_iff in Hin. destruct Hin as (b & Heq & Hb).
      inversion Heq; subst. rewrite <- E in Hb. apply filter_In in Hb.
      split; [assumption|exact Hb].
  - intros (Ha & Hob). exists a. split; [assumption|].
    destruct ob as [b|].
    + destruct Hob as (Hb & Hon).
      assert (Hf : In b (filter (on a) r)) by (apply filter_In; now split).
      destruct (filter (on a) r) as [|b0 m]; [destruct Hf|].
      apply in_map_iff. exists b. now split.
    + destruct (filter (on a) r) as [|b0 m] eqn:E; [now left|].
      assert (Hf : In b0 (filter (on a) r)) by (rewrite E; now left).
      apply filter_In in Hf. destruct Hf as (Hb & Hon).
      rewrite (Hob b0 Hb) in Hon. discriminate.
Qed.

(** Every left row survives a left join. *)
Lemma left_join_keeps (on : A -> B -> bool) (l : list A) (r : list B) (a : A) :
  In a l -> exists ob, In (a, ob) (left_join on l r).
Proof.
  intros Ha. destruct (filter (on a) r) as [|b m] eqn:E.
  - exists None. apply in_left_join. split; [assumption|].
    intros b Hb. destruct (on a b) eqn:Hon; [|reflexivity].
    assert (Hf : In b (filter (on a) r)) by (apply filter_In; now split).
    rewrite E in Hf. destruct Hf.
  - exists (Some b). apply in_left_join. split; [assumption|].
    assert (Hf : In b (filter (on a) r)) by (rewrite E; now left).
    apply filter_In in Hf. exact Hf.
Qed.

Lemma left_join_nonempty (on : A -> B -> bool) (l : list A) (r : list B) :
  l <> [] -> left_join on l r <> [].
Proof.
  destruct l as [|a t]; [congruence|]. intros _ E.
  destruct (left_join_keeps on (a :: t) r a (or_introl eq_refl)) as (ob & Hin).
  rewrite E in Hin. destruct Hin.
Qed.

Lemma in_inner_join (on : A -> B -> bool) (l : list A) (r : list B) (a : A) (b : B) :
  In (a, b) (inner_join on l r) <-> In a l /\ In b r /\ on a b = true.
Proof.
  unfold inner_join. rewrite in_flat_map. split.
  - intros (a' & Ha' & Hin). apply in_map_iff in Hin.
    destruct Hin as (b' & Heq & Hb). inversion Heq; subst.
    apply filter_In in Hb. tauto.
  - intros (Ha & Hb & Hon). exists a. split; [assumption|].
    apply in_map_iff. exists b. split; [reflexivity|]. apply filter_In. now split.
Qed.

Lemma key_is_true (key : A -> K) (k : K) (a : A) :
  key_is K_eq_dec key k a = true <-> key a = k.
Proof. unfold key_is. destruct (K_eq_dec (key a) k); split; congruence. Qed.

(** Which groups GROUP BY forms: one per key that occurs, with all its rows. *)
Lemma in_group_by (key : A -> K) (rows : list A) (k : K) (g : list A) :
  In (k, g) (group_by K_eq_dec key rows) <->
  In k (map key rows) /\ g = filter (key_is K_eq_dec key k) rows.
Proof.
  unfold group_by. rewrite in_map_iff. split.
  - intros (k' & Heq & Hk'). inversion Heq; subst.
    apply nodup_In in Hk'. now split.
  - intros (Hk & ->). exists k. split; [reflexivity|]. now apply nodup_In.
Qed.

Lemma group_by_nonempty (key : A -> K) (rows : list A) (k : K) (g : list A) :
  In (k, g) (group_by K_eq_dec key rows) -> exists a, In a g.
Proof.
  intros H. apply in_group_by in H. destruct H as (Hk & ->).
  apply in_map_iff in Hk. destruct Hk as (a & Ha & Hin).
  exists a. apply filter_In. split; [assumption|]. now apply key_is_true.
Qed.

Lemma filter_all (keep : A -> bool) (rows : list A) :
  (forall r, In r rows -> keep r = true) -> filter keep rows = rows.
Proof.
  induction rows as [|x t IH]; intros H; simpl; [reflexivity|].
  rewrite (H x (or_introl eq_refl)), IH; [reflexivity|].
  intros a Ha. apply H. now right.
Qed.

Lemma filter_none (keep : A -> bool) (rows : list A) :
  (forall r, In r rows -> keep r = false) -> filter keep rows = [].
Proof.
  induction rows as [|x t IH]; intros H; simpl; [reflexivity|].
  rewrite (H x (or_introl eq_refl)). apply IH.
  intros a Ha. apply H. now right.
Qed.

Lemma nodup_block (k : K) (l1 l2 : list K) :
  l1 <> [] -> (forall x, In x l1 -> x = k) -> ~ In k l2 ->
  nodup K_eq_dec (l1 ++ l2) = k :: nodup K_eq_dec l2.
Proof.
  induction l1 as [|x t IH]; intros Hne Hall Hnot; [congruence|].
  assert (x = k) by (apply Hall; now left). subst x. simpl.
  destruct t as [|y t'].
  - simpl. destruct (in_dec K_eq_dec k l2); [contradiction|reflexivity].
  - destruct (in_dec K_eq_dec k ((y :: t') ++ l2)) as [_|Hn].
    + apply IH; [congruence| |assumption]. intros z Hz. apply Hall. now right.
    + exfalso. apply Hn. left. apply Hall. right. now left.
Qed.

(** Grouping rows that come block by block, one non-empty block per key. *)
Lemma group_by_blocks (key : A -> K) (f : K -> list A) (ks : list K) :
  NoDup ks ->
  (forall k, In k ks -> f k <> [] /\ forall a, In a (f k) -> key a = k) ->
  group_by K_eq_dec key (flat_map f ks) = map (fun k => (k, f k)) ks.
Proof.
  unfold group_by. induction ks as [|k t IH]; intros Hnd Hf; [reflexivity|].
  inversion Hnd as [|? ? Hk Ht]; subst.
  destruct (Hf k (or_introl eq_refl)) as (Hne & Hkey).
  assert (Hrest : forall a, In a (flat_map f t) -> In (key a) t).
  { intros a Ha. apply in_flat_map in Ha. destruct Ha as (k' & Hk' & Ha).
    destruct (Hf k' (or_intror Hk')) as (_ & Hkey').
    rewrite (Hkey' a Ha). assumption. }
  simpl flat_map. rewrite map_app.
  rewrite nodup_block with (k := k).
  - simpl. f_equal.
    + f_equal. rewrite filter_app.
      rewrite filter_all by (intros a Ha; apply key_is_true; now apply Hkey).
      rewrite filter_none; [now rewrite app_nil_r|].
      intros a Ha. destruct (key_is K_eq_dec key k a) eqn:E; [|reflexivity].
      apply key_is_true in E. apply Hrest in Ha. congruence.
    + rewrite <- IH; [|assumption|intros k' Hk'; apply Hf; now right].
      apply map_ext_in. intros k' Hk'. f_equal. rewrite filter_app.
      rewrite filter_none; [reflexivity|].
      intros a Ha. destruct (key_is K_eq_dec key k' a) eqn:E; [|reflexivity].
      apply key_is_true in E. rewrite (Hkey a Ha) in E. subst k'.
      apply nodup_In in Hk'. apply in_map_iff in Hk'.
      destruct Hk' as (a' & Ha' & Hin). apply Hrest in Hin. congruence.
  - intros E. apply map_eq_nil in E. contradiction.
  - intros x Hx. apply in_map_iff in Hx. destruct Hx as (a & <- & Ha). now apply Hkey.
  - intros Hin. apply in_map_iff in Hin. destruct Hin as (a & Ha & Hin).
    apply Hrest in Hin. congruence.
Qed.

Lemma insert_by_perm (leb : A -> A -> bool) (x : A) (l : list A) :
  Permutation (insert_by leb x l) (x :: l).
Proof.
  induction l as [|y t IH]; simpl.
  - apply Permutation_refl.
  - destruct (leb x y).
    + apply Permutation_refl.
    + eapply Permutation_trans; [apply perm_skip, IH|apply perm_swap].
Qed.

(** ORDER BY only rearranges rows. *)
Lemma order_by_perm (leb : A -> A -> bool) (l : list A) :
  Permutation (order_by leb l) l.
Proof.
  induction l as [|x t IH]; simpl.
  - apply Permutation_refl.
  - eapply Permutation_trans; [apply insert_by_perm|now apply perm_skip].
Qed.

Lemma in_order_by (leb : A -> A -> bool) (l : list A) (x : A) :
  In x (order_by leb l) <-> In x l.
Proof.
  split; apply Permutation_in; [|apply Permutation_sym]; apply order_by_perm.
Qed.

(** Rows already in order stay as they are. *)
Lemma order_by_sorted (leb : A -> A -> bool) (l : list A) :
  StronglySorted (fun a b => leb a b = true) l -> order_by leb l = l.
Proof.
  induction 1 as [|x t Hs IH Hall]; simpl; [reflexivity|].
  rewrite IH. destruct t as [|y t']; simpl; [reflexivity|].
  inversion Hall as [|? ? Hxy _]; subst. now rewrite Hxy.
Qed.

End ToolkitFacts.

(** ** The relational toolkit: counting *)

Lemma in_non_null (A : Type) (l : list (option A)) (x : A) :
  In x (non_null l) <-> In (Some x) l.
Proof.
  induction l as [|[y|] t IH]; simpl.
  - tauto.
  - rewrite IH. split; intros [H|H]; auto; left; congruence.
  - rewrite IH. split; [auto|]. intros [H|H]; [discriminate|assumption].
Qed.

Lemma nodup_length_incl (l1 l2 : list Z) :
  incl l1 l2 -> (length (nodup Z.eq_dec l1) <= length (nodup Z.eq_dec l2))%nat.
Proof.
  intros H. apply NoDup_incl_length; [apply NoDup_nodup|].
  intros x Hx. apply nodup_In. apply H. now apply nodup_In in Hx.
Qed.

Lemma nodup_length_same (l1 l2 : list Z) :
  (forall x, In x l1 <-> In x l2) ->
  length (nodup Z.eq_dec l1) = length (nodup Z.eq_dec l2).
Proof.
  intros H. apply Nat.le_antisymm; apply nodup_length_incl; intros x Hx; now apply H.
Qed.

(** COUNT(DISTINCT e) is the number of distinct non-NULL values of e. *)
Lemma count_distinct_same (l : list (option Z)) (l' : list Z) :
  (forall x, In (Some x) l <-> In x l') ->
  count_distinct l = Z.of_nat (length (nodup Z.eq_dec l')).
Proof.
  intros H. unfold count_distinct. f_equal. apply nodup_length_same.
  intros x. rewrite in_non_null. apply H.
Qed.

Lemma sql_true_Some (b : bool) : sql_true (Some b) = b.
Proof. now destruct b. Qed.

Lemma sql_max_ge (l : list Q) (x : Q) :
  In x l -> exists m, sql_max l = Some m /\ (x <= m)%Q.
Proof.
  induction l as [|y t IH]; intros Hin; [destruct Hin|].
  simpl. destruct Hin as [->|Hin].
  - destruct (sql_max t) as [m|].
    + destruct (Qle_bool x m) eqn:E.
      * exists m. split; [reflexivity|]. now apply Qle_bool_iff.
      * exists x. split; [reflexivity|]. apply Qle_refl.
    + exists x. split; [reflexivity|]. apply Qle_refl.
  - destruct (IH Hin) as (m & -> & Hle).
    destruct (Qle_bool y m) eqn:E.
    + exists m. now split.
    + exists y. split; [reflexivity|].
      apply Qle_trans with m; [assumption|].
      apply Qlt_le_weak. apply Qnot_le_lt. intros Hc.
      apply Qle_bool_iff in Hc. congruence.
Qed.

(** ** analyze_course_dropout: the query computes the described analysis *)

Section AnalyzeCourseDropout.

Import Dropout.

Variable logs : list learning_log.
Variable p_course_id : Z.

Local Abbreviation rows_for := (Dropout.rows_for logs p_course_id).

Lemma segments_eq : segments = [0; 10; 20; 30; 40; 50; 60; 70; 80; 90].
Proof. reflexivity. Qed.

Lemma segments_NoDup : NoDup segments.
Proof.
  rewrite segments_eq.
  repeat (constructor; [simpl; intuition discriminate|]). constructor.
Qed.

Lemma in_course_logs (l : learning_log) :
  In l (course_logs logs p_course_id) <-> In l logs /\ l_course_id l = p_course_id.
Proof.
  unfold course_logs. rewrite filter_In, Z.eqb_eq. tauto.
Qed.

(** [user_max_progress] holds one row per user with a log in the course,
    carrying that user's maximum progress. *)
Lemma in_user_max_progress (u : user_max_progress_row) :
  In u (user_max_progress logs p_course_id) <->
  In (user_id u) (map l_user_id (course_logs logs p_course_id))
  /\ max_progress u = max_progress_of logs p_course_id (user_id u).
Proof.
  assert (Hfilter : forall k,
    filter (key_is Z.eq_dec l_user_id k) (course_logs logs p_course_id)
    = filter (fun l => l_user_id l =? k) (course_logs logs p_course_id)).
  { intros k. apply filter_ext. intros l. unfold key_is.
    destruct (Z.eq_dec (l_user_id l) k) as [E|E].
    - symmetry. now apply Z.eqb_eq.
    - symmetry. now apply Z.eqb_neq. }
  unfold user_max_progress. fold (course_logs logs p_course_id).
  rewrite in_map_iff. split.
  - intros ((k & g) & <- & Hin). apply in_group_by in Hin.
    destruct Hin as (Hk & ->). simpl. split; [assumption|].
    unfold max_progress_of. now rewrite Hfilter.
  - intros (Hk & Hmax).
    exists (user_id u, filter (key_is Z.eq_dec l_user_id (user_id u))
                         (course_logs logs p_course_id)).
    split.
    + destruct u as [uid m]. simpl in *. rewrite Hmax.
      unfold max_progress_of. now rewrite Hfilter.
    + apply in_group_by. now split.
Qed.

Lemma reached_on_reached (s : Z) (u : user_max_progress_row) :
  In u (user_max_progress logs p_course_id) ->
  reached_on s u = reached logs p_course_id s (user_id u).
Proof.
  intros Hu. apply in_user_max_progress in Hu. destruct Hu as (_ & Hmax).
  unfold reached_on, reached, sql_ge, sql_cmp. rewrite Hmax.
  destruct (max_progress_of logs p_course_id (user_id u)) as [m|];
    [apply sql_true_Some|reflexivity].
Qed.

(** A user with a log in the course at progress [x] has a row in
    [user_max_progress] whose maximum is at least [x]. *)
Lemma user_max_progress_covers (l : learning_log) :
  In l (course_logs logs p_course_id) ->
  exists u m, In u (user_max_progress logs p_course_id)
              /\ user_id u = l_user_id l
              /\ max_progress u = Some m
              /\ (progress_percent l <= m)%Q.
Proof.
  intros Hl.
  destruct (sql_max_ge
              (map progress_percent
                 (filter (fun x => l_user_id x =? l_user_id l)
                         (course_logs logs p_course_id)))
              (progress_percent l)) as (m & Hm & Hle).
  { apply in_map. apply filter_In. split; [assumption|apply Z.eqb_refl]. }
  exists {| user_id := l_user_id l; max_progress := Some m |}, m.
  repeat split; try assumption.
  apply in_user_max_progress. simpl. split.
  - now apply in_map.
  - unfold max_progress_of. now rewrite Hm.
Qed.

Lemma log_join_blocks : log_join logs p_course_id = flat_map rows_for segments.
Proof.
  unfold log_join, reached_join, Dropout.rows_for.
  rewrite (left_join_singletons reached_on segments).
  apply left_join_flat_map.
Qed.

Lemma in_rows_for (s s' : Z) (ou : option user_max_progress_row)
      (ol : option learning_log) :
  In ((s', ou), ol) (rows_for s) ->
  s' = s
  /\ match ou with
     | Some u => In u (user_max_progress logs p_course_id) /\ reached_on s u = true
     | None => True
     end
  /\ match ol with
     | Some l => In l logs /\ log_on p_course_id (s, ou) l = true
     | None => True
     end.
Proof.
  unfold Dropout.rows_for. intros H. apply in_left_join in H. destruct H as (Hsu & Hl).
  apply in_left_join in Hsu. destruct Hsu as ([<-|[]] & Hu).
  split; [reflexivity|]. split.
  - destruct ou; [exact Hu|exact I].
  - destruct ol; [exact Hl|exact I].
Qed.

Lemma rows_for_nonempty (s : Z) : rows_for s <> [].
Proof.
  unfold Dropout.rows_for. apply left_join_nonempty. apply left_join_nonempty. discriminate.
Qed.

Lemma segment_analysis_blocks :
  segment_analysis logs p_course_id = map (fun s => aggregate (s, rows_for s)) segments.
Proof.
  unfold segment_analysis. rewrite log_join_blocks.
  rewrite group_by_blocks.
  - now rewrite map_map.
  - apply segments_NoDup.
  - intros s _. split; [apply rows_for_nonempty|].
    intros [[s' ou] ol] Hin. apply in_rows_for in Hin. simpl. tauto.
Qed.

Lemma log_on_true (s : Z) (ou : option user_max_progress_row) (l : learning_log) :
  log_on p_course_id (s, ou) l = true <->
  exists u, ou = Some u /\ l_user_id l = user_id u /\ l_course_id l = p_course_id.
Proof.
  unfold log_on, sql_eq_int, sql_cmp. simpl. split.
  - destruct ou as [u|]; simpl.
    + destruct (l_user_id l =? user_id u) eqn:E1;
        destruct (l_course_id l =? p_course_id) eqn:E2; simpl; try discriminate.
      intros _. exists u. apply Z.eqb_eq in E1, E2. auto.
    + destruct (l_course_id l =? p_course_id); discriminate.
  - intros (u & -> & E1 & E2). simpl.
    apply Z.eqb_eq in E1, E2. now rewrite E1, E2.
Qed.

Lemma dropout_case_some (s : Z) (ol : option learning_log) (uid : Z) :
  dropout_case s ol = Some uid <->
  exists l, ol = Some l /\ dropped_in s l = true /\ l_user_id l = uid.
Proof.
  unfold dropout_case, dropped_in, sql_eq_bool, sql_ge, sql_lt, sql_cmp. split.
  - destruct ol as [l|]; simpl; [|discriminate].
    destruct (is_dropout l) as [[|]|] eqn:Hd; simpl;
      destruct (Qle_bool (inject_Z s) (progress_percent l)) eqn:Hge;
      destruct (Qlt_bool (progress_percent l) (inject_Z (s + 10))) eqn:Hlt;
      simpl; try discriminate.
    intros E. exists l. inversion E. rewrite Hd, Hge, Hlt. auto.
  - intros (l & -> & Hd & <-). simpl.
    destruct (is_dropout l) as [[|]|]; try discriminate.
    apply andb_true_iff in Hd. destruct Hd as (-> & ->). reflexivity.
Qed.

(** The number of users the query counts as having reached a segment. *)
Lemma users_reached_count (s : Z) :
  sa_users_reached (aggregate (s, rows_for s))
  = Z.of_nat (length (reached_users logs p_course_id s)).
Proof.
  unfold aggregate, reached_users. simpl. apply count_distinct_same. intros uid.
  rewrite in_map_iff, filter_In. split.
  - intros ([[s' ou] ol] & Heq & Hin). simpl in Heq.
    apply in_rows_for in Hin. destruct Hin as (-> & Hu & _).
    destruct ou as [u|]; [|discriminate]. inversion Heq; subst.
    destruct Hu as (Hu & Hon). rewrite (reached_on_reached s u Hu) in Hon.
    apply in_user_max_progress in Hu. tauto.
  - intros (Hin & Hr).
    set (u := {| user_id := uid;
                 max_progress := max_progress_of logs p_course_id uid |}).
    assert (Hu : In u (user_max_progress logs p_course_id))
      by (apply in_user_max_progress; now split).
    assert (Hsu : In (s, Some u)
                     (left_join reached_on [s] (user_max_progress logs p_course_id))).
    { apply in_left_join. split; [now left|]. split; [assumption|].
      now rewrite (reached_on_reached s u Hu). }
    destruct (left_join_keeps (log_on p_course_id) _ logs _ Hsu) as (ol & Hrow).
    exists ((s, Some u), ol). now split.
Qed.

(** The number of users the query counts as dropping out inside a segment. *)
Lemma dropouts_count (s : Z) :
  dropouts (aggregate (s, rows_for s))
  = Z.of_nat (length (dropout_users logs p_course_id s)).
Proof.
  unfold aggregate, dropout_users. simpl. apply count_distinct_same. intros uid.
  rewrite !in_map_iff. split.
  - intros ([[s' ou] ol] & Heq & Hin). simpl in Heq.
    apply in_rows_for in Hin. destruct Hin as (-> & _ & Hl).
    apply dropout_case_some in Heq. destruct Heq as (l & -> & Hd & Huid).
    destruct Hl as (Hl & Hon). apply log_on_true in Hon.
    destruct Hon as (u & _ & _ & Hc).
    exists l. split; [assumption|]. apply filter_In. split; [|assumption].
    now apply in_course_logs.
  - intros (l & Huid & Hin). apply filter_In in Hin. destruct Hin as (Hl & Hd).
    destruct (user_max_progress_covers l Hl) as (u & m & Hu & Hid & Hmax & Hle).
    assert (Hs : (inject_Z s <= progress_percent l)%Q).
    { unfold dropped_in in Hd. destruct (is_dropout l) as [[|]|]; try discriminate.
      apply andb_true_iff in Hd. now apply Qle_bool_iff. }
    assert (Hsu : In (s, Some u)
                     (left_join reached_on [s] (user_max_progress logs p_course_id))).
    { apply in_left_join. split; [now left|]. split; [assumption|].
      unfold reached_on, sql_ge, sql_cmp. rewrite Hmax, sql_true_Some.
      apply Qle_bool_iff.
      now apply Qle_trans with (progress_percent l). }
    apply in_course_logs in Hl. destruct Hl as (Hl & Hc).
    exists ((s, Some u), Some l). split.
    + simpl. apply dropout_case_some. exists l. auto.
    + unfold Dropout.rows_for. apply in_left_join. split; [assumption|].
      split; [assumption|]. apply log_on_true. exists u. auto.
Qed.

Lemma rate_expr_exact (sa : segment_analysis_row) :
  rate_expr sa = Ok (exact_rate (sa_users_reached sa) (dropouts sa)).
Proof.
  unfold rate_expr, exact_rate, NULLIF.
  destruct (sa_users_reached sa =? 0) eqn:E; simpl; [reflexivity|].
  assert (Hq : Qeq_bool (inject_Z (sa_users_reached sa)) 0 = false).
  { destruct (Qeq_bool (inject_Z (sa_users_reached sa)) 0) eqn:Hq; [|reflexivity].
    apply Qeq_bool_eq in Hq. unfold Qeq in Hq. simpl in Hq.
    apply Z.eqb_neq in E. lia. }
  rewrite Hq. reflexivity.
Qed.

Lemma risk_case_of_rate (sa : segment_analysis_row) :
  risk_case sa = Ok (risk_of_rate (exact_rate (sa_users_reached sa) (dropouts sa))).
Proof.
  unfold risk_case, risk_of_rate. rewrite rate_expr_exact. simpl.
  destruct (sql_true (sql_ge _ (Some 20%Q))); [reflexivity|].
  destruct (sql_true (sql_ge _ (Some 15%Q))); [reflexivity|].
  destruct (sql_true (sql_ge _ (Some 10%Q))); reflexivity.
Qed.

Lemma select_row_segment (s : Z) :
  select_row (aggregate (s, rows_for s)) = Ok (segment_row logs p_course_id s).
Proof.
  unfold select_row. rewrite rate_expr_exact, risk_case_of_rate.
  rewrite users_reached_count, dropouts_count. reflexivity.
Qed.

(** The function never raises, and returns one row per fixed segment, in
    order, holding the counts and rates of the described analysis. *)
Lemma analyze_course_dropout_rows :
  analyze_course_dropout logs p_course_id
  = Ok (map (segment_row logs p_course_id) segments).
Proof.
  unfold analyze_course_dropout. rewrite segment_analysis_blocks.
  rewrite (mapM_ok select_row (fun sa => segment_row logs p_course_id (seg_start sa))).
  - rewrite map_map. unfold bind. apply f_equal.
    apply order_by_sorted. rewrite segments_eq. simpl.
    repeat constructor.
  - intros sa Hin. apply in_map_iff in Hin. destruct Hin as (s & <- & _).
    apply select_row_segment.
Qed.

End AnalyzeCourseDropout.

(** ** analyze_course_dropout: funnel, counts, rates and risk levels *)

Section SegmentProperties.

Import Dropout.

Variable logs : list learning_log.
Variable p_course_id : Z.

Lemma reached_antitone (s s' uid : Z) :
  s <= s' -> reached logs p_course_id s' uid = true ->
  reached logs p_course_id s uid = true.
Proof.
  unfold reached. intros Hss.
  destruct (max_progress_of logs p_course_id uid) as [m|]; [|discriminate].
  rewrite !Qle_bool_iff. intros H.
  apply Qle_trans with (inject_Z s'); [|assumption].
  now rewrite <- Zle_Qle.
Qed.

(** A later segment is reached by no more users than an earlier one. *)
Lemma reached_users_antitone (s s' : Z) :
  s <= s' ->
  Z.of_nat (length (reached_users logs p_course_id s'))
  <= Z.of_nat (length (reached_users logs p_course_id s)).
Proof.
  intros Hss. apply inj_le. unfold reached_users. apply nodup_length_incl.
  intros uid Hin. apply filter_In in Hin. apply filter_In.
  split; [tauto|]. apply reached_antitone with s'; tauto.
Qed.

(** Whoever drops out inside a segment has reached it. *)
Lemma dropout_users_reached (s : Z) :
  Z.of_nat (length (dropout_users logs p_course_id s))
  <= Z.of_nat (length (reached_users logs p_course_id s)).
Proof.
  apply inj_le. unfold dropout_users, reached_users. apply nodup_length_incl.
  intros uid Hin. apply in_map_iff in Hin. destruct Hin as (l & <- & Hin).
  apply filter_In in Hin. destruct Hin as (Hl & Hd).
  apply filter_In. split; [now apply in_map|].
  destruct (sql_max_ge
              (map progress_percent
                 (filter (fun x => l_user_id x =? l_user_id l)
                         (course_logs logs p_course_id)))
              (progress_percent l)) as (m & Hm & Hle).
  { apply in_map. apply filter_In. split; [assumption|apply Z.eqb_refl]. }
  unfold reached, max_progress_of. rewrite Hm. apply Qle_bool_iff.
  apply Qle_trans with (progress_percent l); [|assumption].
  unfold dropped_in in Hd. destruct (is_dropout l) as [[|]|]; try discriminate.
  apply andb_true_iff in Hd. now apply Qle_bool_iff.
Qed.

End SegmentProperties.

(** *** Rounding *)

Lemma round_half_away_bounds (x : Q) (n : Z) :
  (0 <= x)%Q -> (x <= inject_Z n)%Q -> 0 <= round_half_away x <= n.
Proof.
  intros H0 Hn. unfold round_half_away.
  assert (E : Qle_bool 0 x = true) by now apply Qle_bool_iff.
  rewrite E. split.
  - change 0 with (Qfloor 0). apply Qfloor_resp_le.
    apply Qle_trans with x; [assumption|].
    rewrite <- (Qplus_0_r x) at 1. apply Qplus_le_compat; [apply Qle_refl|discriminate].
  - assert (Hlt : (inject_Z (Qfloor (x + (1 # 2))) < inject_Z (n + 1))%Q).
    { apply Qle_lt_trans with (x + (1 # 2))%Q; [apply Qfloor_le|].
      apply Qle_lt_trans with (inject_Z n + (1 # 2))%Q.
      - apply Qplus_le_compat; [assumption|apply Qle_refl].
      - rewrite inject_Z_plus. apply Qplus_lt_r. reflexivity. }
    rewrite <- Zlt_Qlt in Hlt. lia.
Qed.

(** A percentage stays a percentage when rounded to two decimals. *)
Lemma ROUND_percentage (q : Q) :
  (0 <= q)%Q -> (q <= 100)%Q ->
  exists q', ROUND (Some q) 2 = Some q' /\ (0 <= q')%Q /\ (q' <= 100)%Q.
Proof.
  intros H0 H100. unfold ROUND. simpl option_map.
  eexists. split; [reflexivity|].
  change (pow10 2) with 100%positive.
  destruct (@round_half_away_bounds (q * inject_Z 100)%Q 10000) as (Hlo & Hhi).
  - apply Qmult_le_0_compat; [assumption|discriminate].
  - change (inject_Z 10000) with (100 * inject_Z 100)%Q.
    apply Qmult_le_compat_r; [assumption|discriminate].
  - unfold Qle. simpl. split; lia.
Qed.

Lemma exact_rate_percentage (u d : Z) :
  0 <= d <= u -> u <> 0 ->
  exists q, Dropout.exact_rate u d = Some q /\ (0 <= q)%Q /\ (q <= 100)%Q.
Proof.
  intros Hd Hu. unfold Dropout.exact_rate.
  assert (E : (u =? 0) = false) by now apply Z.eqb_neq.
  rewrite E. eexists. split; [reflexivity|].
  assert (Hpos : (0 < inject_Z u)%Q) by (rewrite <- (Zlt_Qlt 0); lia).
  split.
  - apply Qmult_le_0_compat; [|discriminate].
    apply Qle_shift_div_l; [assumption|].
    rewrite Qmult_0_l. rewrite <- (Zle_Qle 0). lia.
  - change 100%Q with (1 * 100)%Q at 2.
    apply Qmult_le_compat_r; [|discriminate].
    apply Qle_shift_div_r; [assumption|].
    rewrite Qmult_1_l. rewrite <- Zle_Qle. lia.
Qed.

(** *** The claims on the segment analysis *)

(** C2: for every course, the users_reached values the segment analysis
    returns for the segments starting at 0, 10, ..., 90, in that order, never
    increase from one segment to the next. *)
Theorem users_reached_non_increasing (logs : list learning_log) (p_course_id : Z) :
  exists rows,
    Dropout.analyze_course_dropout logs p_course_id = Ok rows
    /\ map Dropout.segment_start rows = [0; 10; 20; 30; 40; 50; 60; 70; 80; 90]
    /\ Dropout.non_increasing (map Dropout.users_reached rows).
Proof.
  eexists. split; [apply analyze_course_dropout_rows|].
  rewrite !map_map, segments_eq. split; [reflexivity|].
  simpl. repeat split; apply reached_users_antitone; lia.
Qed.

(** C9: for every course and every segment, the users_reached value the
    segment analysis returns is at least the dropout_count of that segment. *)
Theorem users_reached_ge_dropout_count (logs : list learning_log) (p_course_id : Z) :
  exists rows,
    Dropout.analyze_course_dropout logs p_course_id = Ok rows
    /\ Forall (fun r => Dropout.dropout_count r <= Dropout.users_reached r) rows.
Proof.
  eexists. split; [apply analyze_course_dropout_rows|].
  apply Forall_forall. intros r Hin. apply in_map_iff in Hin.
  destruct Hin as (s & <- & _). simpl. apply dropout_users_reached.
Qed.

(** C1, as the code has it: for every course the segment analysis never
    raises; the dropout_rate it returns for a segment is NULL whenever
    users_reached of that segment is 0 (the divisor is guarded by NULLIF), and
    for every segment with users_reached other than 0 it is a number in
    [0, 100]. *)
Theorem dropout_rate_null_or_percentage (logs : list learning_log) (p_course_id : Z) :
  exists rows,
    Dropout.analyze_course_dropout logs p_course_id = Ok rows
    /\ Forall (fun r =>
                if Dropout.users_reached r =? 0
                then Dropout.dropout_rate r = None
                else exists q, Dropout.dropout_rate r = Some q
                               /\ (0 <= q)%Q /\ (q <= 100)%Q) rows.
Proof.
  eexists. split; [apply analyze_course_dropout_rows|].
  apply Forall_forall. intros r Hin. apply in_map_iff in Hin.
  destruct Hin as (s & <- & _). simpl.
  destruct (Z.of_nat (length (Dropout.reached_users logs p_course_id s)) =? 0) eqn:E.
  - unfold Dropout.exact_rate. now rewrite E.
  - destruct (@exact_rate_percentage
                (Z.of_nat (length (Dropout.reached_users logs p_course_id s)))
                (Z.of_nat (length (Dropout.dropout_users logs p_course_id s))))
      as (q & Hq & H0 & H100).
    + split; [lia|apply dropout_users_reached].
    + now apply Z.eqb_neq.
    + rewrite Hq. destruct (ROUND_percentage H0 H100) as (q' & Hq' & Hb).
      exists q'. now split.
Qed.

(** C1 as stated fails: in a course whose only learner left at 35%, the
    segment starting at 40 has users_reached 0 and its dropout_rate is NULL,
    not 0. *)
Lemma dropout_rate_null_past_last_learner :
  exists rows r,
    Dropout.analyze_course_dropout Sample.one_learner 1 = Ok rows
    /\ In r rows
    /\ Dropout.segment_start r = 40
    /\ Dropout.users_reached r = 0
    /\ Dropout.dropout_rate r = None
    /\ Dropout.dropout_rate r <> Some 0%Q.
Proof.
  eexists. eexists. split; [vm_compute; reflexivity|].
  split; [do 4 right; left; reflexivity|].
  simpl. repeat split. discriminate.
Qed.

Lemma Qle_bool_false (x y : Q) : Qle_bool x y = false <-> (y < x)%Q.
Proof.
  split.
  - intros E. apply Qnot_le_lt. intros H. apply Qle_bool_iff in H. congruence.
  - intros H. destruct (Qle_bool x y) eqn:E; [|reflexivity].
    apply Qle_bool_iff in E. exfalso. now apply (Qlt_not_le y x).
Qed.

(** C3: the risk level of a segment is a function of its dropout rate, the
    thresholds read top-down with the first match winning: a rate of at least
    20 is critical, else at least 15 is high, else at least 10 is medium, and
    any other rate is low; so 20 is critical, 14.9 is medium and 9.99 is low.
    The level in every row of the segment analysis is this function of the
    row's rate dropout_count / users_reached * 100. *)
Theorem risk_level_thresholds (logs : list learning_log) (p_course_id : Z) :
  (forall rate : Q,
      ((20 <= rate)%Q -> Dropout.risk_of_rate (Some rate) = "critical"%string)
      /\ ((15 <= rate)%Q /\ (rate < 20)%Q -> Dropout.risk_of_rate (Some rate) = "high"%string)
      /\ ((10 <= rate)%Q /\ (rate < 15)%Q -> Dropout.risk_of_rate (Some rate) = "medium"%string)
      /\ ((rate < 10)%Q -> Dropout.risk_of_rate (Some rate) = "low"%string))
  /\ (forall rate rate' : Q,
        (rate == rate')%Q ->
        Dropout.risk_of_rate (Some rate) = Dropout.risk_of_rate (Some rate'))
  /\ Dropout.risk_of_rate (Some 20%Q) = "critical"%string
  /\ Dropout.risk_of_rate (Some 14.9%Q) = "medium"%string
  /\ Dropout.risk_of_rate (Some 9.99%Q) = "low"%string
  /\ exists rows,
       Dropout.analyze_course_dropout logs p_course_id = Ok rows
       /\ Forall (fun r =>
                   Dropout.risk_level r
                   = Dropout.risk_of_rate
                       (Dropout.exact_rate (Dropout.users_reached r)
                                           (Dropout.dropout_count r))) rows.
Proof.
  split; [|split; [|repeat split]].
  - intros rate. unfold Dropout.risk_of_rate, sql_ge, sql_cmp.
    rewrite !sql_true_Some. repeat split.
    + intros H. apply Qle_bool_iff in H. now rewrite H.
    + intros (H15 & H20). apply Qle_bool_iff in H15. apply Qle_bool_false in H20.
      now rewrite H20, H15.
    + intros (H10 & H15). apply Qle_bool_iff in H10. apply Qle_bool_false in H15.
      assert (H20 : Qle_bool 20 rate = false).
      { apply Qle_bool_false. apply Qle_bool_false in H15.
        apply Qlt_trans with 15%Q; [assumption|reflexivity]. }
      now rewrite H20, H15, H10.
    + intros H10.
      assert (H15 : Qle_bool 15 rate = false).
      { apply Qle_bool_false. apply Qlt_trans with 10%Q; [assumption|reflexivity]. }
      assert (H20 : Qle_bool 20 rate = false).
      { apply Qle_bool_false. apply Qlt_trans with 10%Q; [assumption|reflexivity]. }
      apply Qle_bool_false in H10. now rewrite H20, H15, H10.
  - intros rate rate' E. unfold Dropout.risk_of_rate, sql_ge, sql_cmp.
    assert (H : forall k, Qle_bool k rate = Qle_bool k rate')
      by (intros k; now rewrite E).
    now rewrite !H.
  - eexists. split; [apply analyze_course_dropout_rows|].
    apply Forall_forall. intros r Hin. apply in_map_iff in Hin.
    destruct Hin as (s & <- & _). reflexivity.
Qed.

(** ** v_course_summary: one row per active course, counted on enrollments *)

Section CourseSummaryFacts.

Import CourseSummary.

Variable db : database.

Lemma is_active_true (c : course) :
  sql_true (sql_eq_bool (is_active c) (Some true)) = true <-> is_active c = Some true.
Proof.
  unfold sql_eq_bool, sql_cmp. destruct (is_active c) as [[|]|]; simpl;
    split; congruence.
Qed.

Lemma in_active_join (c : course) (oe : option enrollment) :
  In (c, oe) (active_join db) <->
  is_active c = Some true /\ In c (courses db)
  /\ match oe with
     | Some e => In e (enrollments db) /\ c_id c = e_course_id e
     | None => forall e, In e (enrollments db) -> c_id c <> e_course_id e
     end.
Proof.
  unfold active_join. rewrite filter_In, in_left_join. simpl.
  rewrite is_active_true. destruct oe as [e|].
  - rewrite Z.eqb_eq. tauto.
  - split.
    + intros ((Hc & Hn) & Ha). repeat split; try assumption.
      intros e He. apply Z.eqb_neq. now apply Hn.
    + intros (Ha & Hc & Hn). repeat split; try assumption.
      intros e He. apply Z.eqb_neq. now apply Hn.
Qed.

Lemma status_case_some (st : string) (oe : option enrollment) (uid : Z) :
  status_case st oe = Some uid <->
  exists e, oe = Some e /\ has_status st e = true /\ e_user_id e = uid.
Proof.
  unfold status_case, has_status, sql_eq_text, sql_cmp. split.
  - destruct oe as [e|]; [|discriminate].
    destruct (status e) as [x|] eqn:Hs; [|discriminate].
    rewrite sql_true_Some. destruct (String.eqb x st) eqn:E; [|discriminate].
    simpl. intros H. exists e. rewrite Hs, E. inversion H. auto.
  - intros (e & -> & Hs & <-). destruct (status e) as [x|]; [|discriminate].
    rewrite sql_true_Some, Hs. reflexivity.
Qed.

(** The rows grouped under the key of a course. *)
Lemma in_summary_group (k : key) (g : list (course * option enrollment))
      (c : course) (oe : option enrollment) :
  In (k, g) (group_by key_eq_dec (fun ce => key_of (fst ce)) (active_join db)) ->
  (In (c, oe) g <-> In (c, oe) (active_join db) /\ key_of c = k).
Proof.
  intros H. apply in_group_by in H. destruct H as (_ & ->).
  rewrite filter_In, key_is_true. reflexivity.
Qed.

Lemma summary_group_course (k : key) (g : list (course * option enrollment)) :
  In (k, g) (group_by key_eq_dec (fun ce => key_of (fst ce)) (active_join db)) ->
  exists c, In c (courses db) /\ is_active c = Some true /\ key_of c = k.
Proof.
  intros H. apply in_group_by in H. destruct H as (Hk & _).
  apply in_map_iff in Hk. destruct Hk as ((c & oe) & Hkey & Hin).
  apply in_active_join in Hin. exists c. simpl in Hkey. tauto.
Qed.

Lemma key_of_id (c : course) (id : Z) (code ttl cat diff : string) :
  key_of c = (id, code, ttl, cat, diff) -> c_id c = id.
Proof. unfold key_of. congruence. Qed.

Section Group.

Variables (id : Z) (code ttl cat diff : string).
Variable g : list (course * option enrollment).
Hypothesis Hg :
  In ((id, code, ttl, cat, diff), g)
     (group_by key_eq_dec (fun ce => key_of (fst ce)) (active_join db)).

Lemma group_enrollment (e : enrollment) :
  (exists c, In (c, Some e) g) <-> In e (course_enrollments db id).
Proof.
  unfold course_enrollments. rewrite filter_In, Z.eqb_eq. split.
  - intros (c & Hin). apply (@in_summary_group _ _ c (Some e) Hg) in Hin.
    destruct Hin as (Hin & Hk). apply in_active_join in Hin.
    apply key_of_id in Hk. destruct Hin as (_ & _ & He & Hid). split; congruence.
  - intros (He & Hid).
    destruct (@summary_group_course _ _ Hg) as (c & Hc & Ha & Hk).
    exists c. apply (@in_summary_group _ _ c (Some e) Hg). split; [|assumption].
    apply in_active_join. apply key_of_id in Hk. repeat split; try assumption.
    congruence.
Qed.

Lemma count_users_enrolled :
  count_users g = Z.of_nat (length (enrolled_users db id)).
Proof.
  unfold count_users, enrolled_users. apply count_distinct_same. intros uid.
  rewrite !in_map_iff. split.
  - intros ((c & oe) & Heq & Hin). simpl in Heq.
    destruct oe as [e|]; [|discriminate]. inversion Heq; subst.
    exists e. split; [reflexivity|]. apply group_enrollment. now exists c.
  - intros (e & <- & He). apply group_enrollment in He. destruct He as (c & Hin).
    now exists (c, Some e).
Qed.

Lemma count_status_users (st : string) :
  count_status st g = Z.of_nat (length (users_with_status db id st)).
Proof.
  unfold count_status, users_with_status. apply count_distinct_same. intros uid.
  rewrite !in_map_iff. split.
  - intros ((c & oe) & Heq & Hin). simpl in Heq.
    apply status_case_some in Heq. destruct Heq as (e & -> & Hs & <-).
    exists e. split; [reflexivity|]. apply filter_In. split; [|assumption].
    apply group_enrollment. now exists c.
  - intros (e & <- & He). apply filter_In in He. destruct He as (He & Hs).
    apply group_enrollment in He. destruct He as (c & Hin).
    exists (c, Some e). split; [|assumption].
    simpl. apply status_case_some. exists e. auto.
Qed.

End Group.

Lemma rate_of_percentage (n total : Z) : rate_of n total = Ok (percentage n total).
Proof.
  unfold rate_of, percentage, NULLIF.
  destruct (total =? 0) eqn:E; simpl; [reflexivity|].
  assert (Hq : Qeq_bool (inject_Z total) 0 = false).
  { destruct (Qeq_bool (inject_Z total) 0) eqn:Hq; [|reflexivity].
    apply Qeq_bool_eq in Hq. unfold Qeq in Hq. simpl in Hq.
    apply Z.eqb_neq in E. lia. }
  rewrite Hq. reflexivity.
Qed.

Lemma select_row_summary (k : key) (g : list (course * option enrollment)) :
  In (k, g) (group_by key_eq_dec (fun ce => key_of (fst ce)) (active_join db)) ->
  select_row (k, g) = Ok (summary_row db k).
Proof.
  destruct k as [[[[id code] ttl] cat] diff]. intros Hg.
  unfold select_row, summary_row. simpl fst. simpl snd.
  rewrite !rate_of_percentage.
  rewrite (@count_users_enrolled _ _ _ _ _ _ Hg).
  rewrite !(@count_status_users _ _ _ _ _ _ Hg). reflexivity.
Qed.

(** The view never raises, and its rows are the summaries of the active
    courses. *)
Lemma v_course_summary_rows :
  exists rows,
    v_course_summary db = Ok rows
    /\ forall r, In r rows <->
                 exists c, In c (courses db) /\ is_active c = Some true
                           /\ r = summary_row db (key_of c).
Proof.
  exists (map (fun kg => summary_row db (fst kg))
              (group_by key_eq_dec (fun ce => key_of (fst ce)) (active_join db))).
  split.
  - unfold v_course_summary. apply mapM_ok. intros (k & g) Hin.
    now apply select_row_summary.
  - intros r. rewrite in_map_iff. split.
    + intros ((k & g) & <- & Hin). destruct (@summary_group_course _ _ Hin) as (c & Hc & Ha & <-).
      exists c. auto.
    + intros (c & Hc & Ha & ->).
      destruct (left_join_keeps (fun c e => c_id c =? e_course_id e)
                                (courses db) (enrollments db) c Hc) as (oe & Hj).
      assert (Hin : In (c, oe) (active_join db)).
      { unfold active_join. apply filter_In. split; [assumption|].
        now apply is_active_true. }
      exists (key_of c, filter (key_is key_eq_dec (fun ce => key_of (fst ce)) (key_of c))
                               (active_join db)).
      split; [reflexivity|]. apply in_group_by. split; [|reflexivity].
      apply in_map_iff. now exists (c, oe).
Qed.

End CourseSummaryFacts.

(** The level is decided on the rate as computed, the returned rate is
    rounded afterwards: 800 dropouts among 4001 users are 19.995...%, returned
    as 20.00 with level high. *)
Remark risk_level_precedes_rounding :
  Dropout.select_row {| Dropout.seg_start := 40; Dropout.seg_end := 50;
                        Dropout.sa_users_reached := 4001; Dropout.dropouts := 800 |}
  = Ok {| Dropout.segment_start := 40; Dropout.segment_end := 50;
          Dropout.users_reached := 4001; Dropout.dropout_count := 800;
          Dropout.dropout_rate := Some (2000 # 100);
          Dropout.risk_level := "high" |}.
Proof. vm_compute. reflexivity. Qed.

(** 100 learners, 60 of whom reach the segment 40-50 and 12 of those leave
    inside it: users_reached 60, dropout_count 12, rate 20.00, critical. *)
Example cohort_segment_40 :
  exists rows,
    Dropout.analyze_course_dropout Sample.cohort 7 = Ok rows
    /\ nth_error rows 4
       = Some {| Dropout.segment_start := 40; Dropout.segment_end := 50;
                 Dropout.users_reached := 60; Dropout.dropout_count := 12;
                 Dropout.dropout_rate := Some (2000 # 100);
                 Dropout.risk_level := "critical" |}
    /\ map Dropout.users_reached rows = [100; 100; 100; 100; 60; 48; 48; 48; 48; 0].
Proof.
  eexists. split; [vm_compute; reflexivity|]. split; reflexivity.
Qed.

(** A WHERE clause keeps a column free of duplicates. *)
Lemma NoDup_map_filter (X Y : Type) (column : X -> Y) (keep : X -> bool)
      (rows : list X) (Hrows : NoDup (map column rows)) :
  NoDup (map column (filter keep rows)).
Proof.
  induction rows as [|x t IH]; simpl; [constructor|].
  simpl in Hrows. inversion Hrows as [|? ? Hx Ht]; subst.
  destruct (keep x); simpl; [|now apply IH].
  constructor; [|now apply IH].
  intros Hin. apply Hx. apply in_map_iff in Hin. destruct Hin as (y & Hy & Hin).
  apply filter_In in Hin. apply in_map_iff. exists y. tauto.
Qed.

(** Under [unique_user_course] a course has one enrollment per user, so the
    distinct users are as many as the enrollment records. *)
Lemma unique_enrollment_users (db : database) (cid : Z) :
  unique_user_course db ->
  NoDup (map e_user_id (CourseSummary.course_enrollments db cid)).
Proof.
  unfold unique_user_course, CourseSummary.course_enrollments.
  induction (enrollments db) as [|e t IH]; simpl; intros H; [constructor|].
  inversion H as [|? ? He Ht]; subst.
  destruct (e_course_id e =? cid) eqn:E; simpl; [|now apply IH].
  constructor; [|now apply IH].
  intros Hin. apply He. apply in_map_iff in Hin. destruct Hin as (e' & Hu & Hin).
  apply filter_In in Hin. destruct Hin as (Hin & Hc).
  apply in_map_iff. exists e'. split; [|assumption].
  apply Z.eqb_eq in E, Hc. congruence.
Qed.

Lemma nodup_length_unique (l : list Z) :
  NoDup l -> length (nodup Z.eq_dec l) = length l.
Proof. intros H. now rewrite nodup_fixed_point. Qed.

(** C6: for every course in the summary, overall dropout_rate is the count of
    dropped enrollments over the count of all enrollments of the course, times
    100 (to two decimals), and completion_rate likewise with completed
    enrollments; both are counted on the Enrollment records, as distinct users
    of the course, and the learning logs play no part. *)
Theorem summary_rates_from_enrollments (db : database) (other_logs : list learning_log) :
  exists rows,
    CourseSummary.v_course_summary db = Ok rows
    /\ CourseSummary.v_course_summary (with_logs db other_logs) = Ok rows
    /\ Forall (fun r =>
         let cid := CourseSummary.course_id r in
         let total := Z.of_nat (length (CourseSummary.enrolled_users db cid)) in
         let dropped :=
           Z.of_nat (length (CourseSummary.users_with_status db cid "dropped")) in
         let completed :=
           Z.of_nat (length (CourseSummary.users_with_status db cid "completed")) in
         CourseSummary.total_enrollments r = total
         /\ CourseSummary.dropouts r = dropped
         /\ CourseSummary.completions r = completed
         /\ (total <> 0 ->
             CourseSummary.dropout_rate r
             = ROUND (Some (inject_Z dropped / inject_Z total * 100)%Q) 2
             /\ CourseSummary.completion_rate r
                = ROUND (Some (inject_Z completed / inject_Z total * 100)%Q) 2)
         /\ (unique_user_course db ->
             total = Z.of_nat (length (CourseSummary.course_enrollments db cid))
             /\ dropped
                = Z.of_nat (length (filter (CourseSummary.has_status "dropped")
                                           (CourseSummary.course_enrollments db cid)))
             /\ completed
                = Z.of_nat (length (filter (CourseSummary.has_status "completed")
                                           (CourseSummary.course_enrollments db cid)))))
        rows.
Proof.
  destruct (v_course_summary_rows db) as (rows & Hrows & Hin).
  exists rows. split; [assumption|]. split; [exact Hrows|].
  apply Forall_forall. intros r Hr. apply Hin in Hr.
  destruct Hr as (c & _ & _ & ->).
  unfold CourseSummary.key_of, CourseSummary.summary_row. simpl.
  repeat split.
  - unfold CourseSummary.percentage. apply Z.eqb_neq in H. now rewrite H.
  - unfold CourseSummary.percentage. apply Z.eqb_neq in H. now rewrite H.
  - unfold CourseSummary.enrolled_users. f_equal.
    rewrite nodup_length_unique, length_map; [reflexivity|].
    now apply unique_enrollment_users.
  - unfold CourseSummary.users_with_status. f_equal.
    rewrite nodup_length_unique, length_map; [reflexivity|].
    apply NoDup_map_filter. now apply unique_enrollment_users.
  - unfold CourseSummary.users_with_status. f_equal.
    rewrite nodup_length_unique, length_map; [reflexivity|].
    apply NoDup_map_filter. now apply unique_enrollment_users.
Qed.

Lemma summary_rates_from_enrollments_witness :
  exists rows r,
    CourseSummary.v_course_summary Sample.small_db = Ok rows
    /\ In r rows
    /\ CourseSummary.course_id r = 1
    /\ CourseSummary.total_enrollments r = 3
    /\ CourseSummary.dropouts r = 1
    /\ CourseSummary.dropout_rate r = Some (3333 # 100)
    /\ CourseSummary.completion_rate r = Some (3333 # 100)
    /\ 3 = Z.of_nat (length (CourseSummary.course_enrollments Sample.small_db 1)).
Proof.
  destruct (summary_rates_from_enrollments Sample.small_db [])
    as (rows & Hok & _ & Hall).
  vm_compute in Hok. injection Hok as <-.
  apply Forall_inv in Hall. cbv zeta in Hall.
  destruct Hall as (_ & _ & _ & Hrates & Hunique).
  destruct Hrates as (Hd & Hc); [discriminate|].
  destruct Hunique as (Hcount & _).
  { unfold unique_user_course. simpl.
    repeat (constructor; [simpl; intuition discriminate|]). constructor. }
  eexists. eexists. split; [vm_compute; reflexivity|].
  split; [left; reflexivity|]. split; [reflexivity|]. split; [reflexivity|].
  split; [reflexivity|].
  split; [eapply eq_trans; [exact Hd|vm_compute; reflexivity]|].
  split; [eapply eq_trans; [exact Hc|vm_compute; reflexivity]|].
  exact Hcount.
Defined.

(** C5, as the code has it: an active course with zero enrollments yields a
    summary row, without an error being raised, whose counts are all 0 and
    whose completion_rate and dropout_rate are NULL; and so is every row of
    the summary whose total_enrollments is 0. *)
Theorem summary_of_course_without_enrollments (db : database) (c : course) :
  In c (courses db) ->
  is_active c = Some true ->
  (forall e, In e (enrollments db) -> e_course_id e <> c_id c) ->
  exists rows r,
    CourseSummary.v_course_summary db = Ok rows
    /\ In r rows
    /\ CourseSummary.course_id r = c_id c
    /\ CourseSummary.total_enrollments r = 0
    /\ CourseSummary.completions r = 0
    /\ CourseSummary.dropouts r = 0
    /\ CourseSummary.active_learners r = 0
    /\ CourseSummary.completion_rate r = None
    /\ CourseSummary.dropout_rate r = None
    /\ forall r', In r' rows -> CourseSummary.total_enrollments r' = 0 ->
                  CourseSummary.completion_rate r' = None
                  /\ CourseSummary.dropout_rate r' = None.
Proof.
  intros Hc Ha Hnone.
  destruct (v_course_summary_rows db) as (rows & Hrows & Hin).
  exists rows, (CourseSummary.summary_row db (CourseSummary.key_of c)).
  split; [assumption|]. split; [apply Hin; now exists c|].
  assert (Hempty : CourseSummary.course_enrollments db (c_id c) = []).
  { unfold CourseSummary.course_enrollments. apply filter_none.
    intros e He. apply Z.eqb_neq. now apply Hnone. }
  unfold CourseSummary.key_of, CourseSummary.summary_row. simpl.
  unfold CourseSummary.enrolled_users, CourseSummary.users_with_status.
  rewrite Hempty. simpl. do 7 (split; [reflexivity|]).
  intros r' Hr' Htotal. apply Hin in Hr'. destruct Hr' as (c' & _ & _ & ->).
  revert Htotal. unfold CourseSummary.key_of, CourseSummary.summary_row. simpl.
  unfold CourseSummary.percentage. intros ->. simpl. now split.
Qed.

Lemma summary_of_course_without_enrollments_witness :
  exists rows r,
    CourseSummary.v_course_summary Sample.small_db = Ok rows
    /\ In r rows
    /\ CourseSummary.course_id r = 2
    /\ CourseSummary.total_enrollments r = 0
    /\ CourseSummary.completions r = 0
    /\ CourseSummary.dropouts r = 0
    /\ CourseSummary.active_learners r = 0
    /\ CourseSummary.completion_rate r = None
    /\ CourseSummary.dropout_rate r = None
    /\ forall r', In r' rows -> CourseSummary.total_enrollments r' = 0 ->
                  CourseSummary.completion_rate r' = None
                  /\ CourseSummary.dropout_rate r' = None.
Proof.
  apply (@summary_of_course_without_enrollments Sample.small_db Sample.sql_course).
  - simpl. auto.
  - reflexivity.
  - intros e He. simpl in He.
    destruct He as [<-|[<-|[<-|[<-|[]]]]]; discriminate.
Defined.

(** C5 as stated fails: the summary of an active course without enrollments
    has NULL rates, not 0. *)
Lemma summary_rates_null_for_new_course :
  exists r,
    CourseSummary.v_course_summary Sample.new_course_db = Ok [r]
    /\ CourseSummary.total_enrollments r = 0
    /\ CourseSummary.completion_rate r = None
    /\ CourseSummary.dropout_rate r = None
    /\ CourseSummary.completion_rate r <> Some 0%Q
    /\ CourseSummary.dropout_rate r <> Some 0%Q.
Proof.
  eexists. split; [vm_compute; reflexivity|].
  simpl. repeat split; discriminate.
Qed.

(** ** v_dropout_by_segment: one row per band that holds a log *)

Section SegmentViewFacts.

Import SegmentView.

Variable text_leb : string -> string -> bool.
Variable db : database.

Lemma select_row_band (k : key) (g : list (course * learning_log)) :
  In (k, g) (group_by key_eq_dec key_of (view_join db)) ->
  select_row (k, g) = Ok (band_row (k, g)).
Proof.
  intros Hin. destruct (group_by_nonempty _ _ _ _ _ Hin) as (a & Ha).
  destruct k as [[code ttl] band]. unfold select_row, band_row. simpl.
  assert (Hq : Qeq_bool (inject_Z (Z.of_nat (length g))) 0 = false).
  { destruct (Qeq_bool (inject_Z (Z.of_nat (length g))) 0) eqn:Hq; [|reflexivity].
    apply Qeq_bool_eq in Hq. unfold Qeq in Hq. simpl in Hq.
    destruct g; [destruct Ha|simpl in Hq; lia]. }
  rewrite Hq. reflexivity.
Qed.

(** The view never raises, and lists exactly the bands of the joined logs. *)
Lemma v_dropout_by_segment_rows :
  exists rows,
    v_dropout_by_segment text_leb db = Ok rows
    /\ forall r, In r rows <->
                 exists k g, In (k, g) (group_by key_eq_dec key_of (view_join db))
                             /\ r = band_row (k, g).
Proof.
  exists (order_by (row_leb text_leb)
            (map band_row (group_by key_eq_dec key_of (view_join db)))).
  split.
  - unfold v_dropout_by_segment.
    rewrite (mapM_ok select_row band_row); [reflexivity|].
    intros (k & g) Hin. now apply select_row_band.
  - intros r. rewrite in_order_by, in_map_iff. split.
    + intros ((k & g) & <- & Hin). now exists k, g.
    + intros (k & g & Hin & ->). now exists (k, g).
Qed.

End SegmentViewFacts.

Lemma reached_at_full_progress (logs : list learning_log) (p_course_id uid s : Z) (m : Q) :
  Dropout.max_progress_of logs p_course_id uid = Some m ->
  (m == 100)%Q -> s <= 100 ->
  In uid (Dropout.reached_users logs p_course_id s).
Proof.
  intros Hm H100 Hs. unfold Dropout.reached_users.
  apply nodup_In. apply filter_In. split.
  - unfold Dropout.max_progress_of in Hm.
    destruct (filter (fun l => l_user_id l =? uid)
                     (Dropout.course_logs logs p_course_id)) as [|l t] eqn:E;
      [discriminate|].
    assert (Hl : In l (filter (fun l => l_user_id l =? uid)
                              (Dropout.course_logs logs p_course_id)))
      by (rewrite E; now left).
    apply filter_In in Hl. destruct Hl as (Hl & Hu). apply Z.eqb_eq in Hu.
    apply in_map_iff. now exists l.
  - unfold Dropout.reached. rewrite Hm. apply Qle_bool_iff. rewrite H100.
    change 100%Q with (inject_Z 100). now rewrite <- Zle_Qle.
Qed.

(** The band of a progress value holds it, and for a progress below 100 it
    is one of the ten fixed segments. *)
Lemma floor_band (p : Q) :
  (inject_Z (FLOOR (p / 10) * 10) <= p)%Q
  /\ (p < inject_Z (FLOOR (p / 10) * 10 + 10))%Q.
Proof.
  unfold FLOOR.
  assert (E : (p / 10 * 10 == p)%Q) by (field; discriminate).
  split.
  - rewrite inject_Z_mult. rewrite <- E at 2.
    apply Qmult_le_compat_r; [apply Qfloor_le|discriminate].
  - replace (Qfloor (p / 10) * 10 + 10) with ((Qfloor (p / 10) + 1) * 10) by ring.
    rewrite inject_Z_mult. rewrite <- E at 1.
    apply Qmult_lt_compat_r; [reflexivity|apply Qlt_floor].
Qed.

Lemma floor_band_fixed (p : Q) :
  (0 <= p)%Q -> (p < 100)%Q -> In (FLOOR (p / 10) * 10) Dropout.segments.
Proof.
  intros H0 H100. destruct (floor_band p) as (Hlo & Hhi).
  assert (Hlt : (inject_Z (FLOOR (p / 10) * 10) < inject_Z 100)%Q)
    by (apply Qle_lt_trans with p; assumption).
  assert (Hgt : (inject_Z 0 < inject_Z (FLOOR (p / 10) * 10 + 10))%Q)
    by (apply Qle_lt_trans with p; assumption).
  rewrite <- Zlt_Qlt in Hlt, Hgt. rewrite segments_eq.
  assert (Hk : 0 <= FLOOR (p / 10) <= 9) by lia.
  assert (Hcases : FLOOR (p / 10) = 0 \/ FLOOR (p / 10) = 1 \/ FLOOR (p / 10) = 2
                   \/ FLOOR (p / 10) = 3 \/ FLOOR (p / 10) = 4 \/ FLOOR (p / 10) = 5
                   \/ FLOOR (p / 10) = 6 \/ FLOOR (p / 10) = 7 \/ FLOOR (p / 10) = 8
                   \/ FLOOR (p / 10) = 9) by lia.
  repeat (destruct Hcases as [->|Hcases]; [simpl; tauto|]).
  rewrite Hcases. simpl. tauto.
Qed.

(** C4, as the code has it: for every course, analyze_course_dropout returns
    exactly the ten fixed segments [0,10), [10,20), ..., [90,100), and a user
    whose maximum progress is 100 is counted among the users who reached each
    of them, the last included.  The view v_dropout_by_segment lists a
    segment only where the course has a log: every band it lists that starts
    in [0, 100) is one of the ten fixed segments and holds a log of the
    course, and every log with a progress in [0, 100) has its fixed segment
    listed.  What the view lists for a log at a progress of 100 is left
    out. *)
Theorem fixed_segments_and_view_bands
        (text_leb : string -> string -> bool) (db : database) (p_course_id : Z) :
  (exists rows,
      Dropout.analyze_course_dropout (learning_logs db) p_course_id = Ok rows
      /\ map (fun r => (Dropout.segment_start r, Dropout.segment_end r)) rows
         = [(0, 10); (10, 20); (20, 30); (30, 40); (40, 50);
            (50, 60); (60, 70); (70, 80); (80, 90); (90, 100)]
      /\ forall uid m,
           Dropout.max_progress_of (learning_logs db) p_course_id uid = Some m ->
           (m == 100)%Q ->
           Forall (fun r =>
                     In uid (Dropout.reached_users (learning_logs db) p_course_id
                                                   (Dropout.segment_start r))
                     /\ Dropout.users_reached r
                        = Z.of_nat (length (Dropout.reached_users
                                              (learning_logs db) p_course_id
                                              (Dropout.segment_start r)))) rows)
  /\ (exists bands,
         SegmentView.v_dropout_by_segment text_leb db = Ok bands
         /\ (forall b, In b bands ->
               0 <= SegmentView.segment_start b < 100 ->
               In (SegmentView.segment_start b) Dropout.segments
               /\ SegmentView.segment_end b = SegmentView.segment_start b + 10
               /\ exists c l,
                    In c (courses db) /\ In l (learning_logs db)
                    /\ c_id c = l_course_id l
                    /\ SegmentView.course_code b = course_code c
                    /\ (inject_Z (SegmentView.segment_start b) <= progress_percent l)%Q
                    /\ (progress_percent l < inject_Z (SegmentView.segment_end b))%Q)
         /\ (forall c l,
               In c (courses db) -> In l (learning_logs db) ->
               c_id c = l_course_id l ->
               (0 <= progress_percent l)%Q -> (progress_percent l < 100)%Q ->
               exists b,
                 In b bands
                 /\ SegmentView.course_code b = course_code c
                 /\ In (SegmentView.segment_start b) Dropout.segments
                 /\ SegmentView.segment_end b = SegmentView.segment_start b + 10
                 /\ (inject_Z (SegmentView.segment_start b) <= progress_percent l)%Q
                 /\ (progress_percent l < inject_Z (SegmentView.segment_end b))%Q)).
Proof.
  split.
  - eexists. split; [apply analyze_course_dropout_rows|].
    rewrite map_map, segments_eq. split; [reflexivity|].
    intros uid m Hm H100. apply Forall_forall. intros r Hin.
    apply in_map_iff in Hin. destruct Hin as (s & <- & Hs). simpl.
    split; [|reflexivity].
    apply reached_at_full_progress with m; try assumption.
    simpl in Hs. intuition lia.
  - destruct (v_dropout_by_segment_rows text_leb db) as (bands & Hok & Hin).
    exists bands. split; [assumption|]. split.
    + intros b Hb Hrange. apply Hin in Hb. destruct Hb as (k & g & Hg & ->).
      pose proof Hg as Hkey. apply in_group_by in Hkey. destruct Hkey as (Hk & _).
      apply in_map_iff in Hk. destruct Hk as ((c & l) & <- & Hcl).
      apply in_inner_join in Hcl. destruct Hcl as (Hc & Hl & Hon).
      apply Z.eqb_eq in Hon.
      destruct (floor_band (progress_percent l)) as (Hlo & Hhi).
      assert (Hband : 0 <= FLOOR (progress_percent l / 10) * 10 < 100) by exact Hrange.
      clear Hrange. simpl.
      assert (H0 : (0 <= progress_percent l)%Q).
      { apply Qle_trans with (inject_Z (FLOOR (progress_percent l / 10) * 10));
          [|assumption].
        rewrite <- (Zle_Qle 0). lia. }
      assert (H100 : (progress_percent l < 100)%Q).
      { apply Qlt_le_trans with (inject_Z (FLOOR (progress_percent l / 10) * 10 + 10));
          [assumption|].
        change 100%Q with (inject_Z 100). rewrite <- Zle_Qle. lia. }
      split; [now apply floor_band_fixed|]. split; [reflexivity|].
      exists c, l. auto 10.
    + intros c l Hc Hl Hon H0 H100.
      exists (SegmentView.band_row
                (SegmentView.key_of (c, l),
                 filter (key_is SegmentView.key_eq_dec SegmentView.key_of
                                (SegmentView.key_of (c, l)))
                        (SegmentView.view_join db))).
      destruct (floor_band (progress_percent l)) as (Hlo & Hhi).
      split; [|simpl; repeat split; try assumption; now apply floor_band_fixed].
      apply Hin. eexists. eexists. split; [|reflexivity].
      apply in_group_by. split; [|reflexivity].
      apply in_map. apply in_inner_join. repeat split; try assumption.
      now apply Z.eqb_eq.
Qed.

Lemma fixed_segments_and_view_bands_witness :
  exists rows,
    Dropout.analyze_course_dropout (learning_logs Sample.small_db) 1 = Ok rows
    /\ length rows = 10%nat
    /\ Forall (fun r =>
                 In 2 (Dropout.reached_users (learning_logs Sample.small_db) 1
                                             (Dropout.segment_start r))) rows.
Proof.
  destruct (fixed_segments_and_view_bands String.leb Sample.small_db 1)
    as ((rows & Hok & Hsegs & Hfull) & _).
  exists rows. split; [exact Hok|]. split.
  - rewrite <- (length_map (fun r => (Dropout.segment_start r, Dropout.segment_end r))).
    rewrite Hsegs. reflexivity.
  - specialize (Hfull 2 100%Q eq_refl (Qeq_refl 100)).
    eapply Forall_impl; [|exact Hfull]. intros r (Hin & _). exact Hin.
Defined.

(** C4 as stated fails on the view: for the course whose only learner logged
    12% and 35%, v_dropout_by_segment lists two segments, not ten. *)
Lemma view_lists_only_bands_with_logs :
  exists bands,
    SegmentView.v_dropout_by_segment String.leb Sample.first_learner_db = Ok bands
    /\ map (fun b => (SegmentView.segment_start b, SegmentView.segment_end b)) bands
       = [(10, 20); (30, 40)].
Proof.
  eexists. split; vm_compute; reflexivity.
Qed.

(** The band of a log at full progress in the view, next to the last segment
    of the function. *)
Remark view_band_at_full_progress :
  exists bands,
    SegmentView.v_dropout_by_segment String.leb Sample.small_db = Ok bands
    /\ map (fun b => (SegmentView.course_code b,
                      SegmentView.segment_start b, SegmentView.segment_end b)) bands
       = [("PY101", 0, 10); ("PY101", 40, 50); ("PY101", 60, 70);
          ("PY101", 100, 110); ("SQL201", 90, 100)]%string.
Proof.
  eexists. split; vm_compute; reflexivity.
Qed.

(** ** Doubles: the error of a rounding, and whole numbers *)

Section DoubleFacts.

Import Double.

Lemma nearest_even_comp (x y : Q) : (x == y)%Q -> nearest_even x = nearest_even y.
Proof.
  intros E. unfold nearest_even. rewrite (Qfloor_comp _ _ E).
  assert (Hc : (x - inject_Z (Qfloor y) ?= 1 # 2)%Q = (y - inject_Z (Qfloor y) ?= 1 # 2)%Q)
    by (apply Qcompare_comp; [rewrite E|]; reflexivity).
  now rewrite Hc.
Qed.

Lemma nearest_even_error (x : Q) :
  (x - (1 # 2) <= inject_Z (nearest_even x))%Q
  /\ (inject_Z (nearest_even x) <= x + (1 # 2))%Q.
Proof.
  unfold nearest_even.
  pose proof (Qfloor_le x) as Hlo. pose proof (Qlt_floor x) as Hhi.
  rewrite inject_Z_plus in Hhi. change (inject_Z 1) with 1%Q in Hhi.
  assert (Hup : (inject_Z (Qfloor x + 1) == inject_Z (Qfloor x) + 1)%Q)
    by (rewrite inject_Z_plus; reflexivity).
  destruct (x - inject_Z (Qfloor x) ?= 1 # 2)%Q eqn:C.
  - apply Qeq_alt in C.
    destruct (Z.even (Qfloor x)); rewrite ?Hup; split; lra.
  - apply Qlt_alt in C. split; lra.
  - apply Qgt_alt in C. rewrite Hup. split; lra.
Qed.

Lemma nearest_even_Z (k : Z) : nearest_even (inject_Z k) = k.
Proof.
  unfold nearest_even. rewrite Qfloor_Z.
  assert (C : (inject_Z k - inject_Z k ?= 1 # 2)%Q = Lt)
    by (apply Qlt_alt; setoid_replace (inject_Z k - inject_Z k)%Q with 0%Q by ring;
        reflexivity).
  now rewrite C.
Qed.

Lemma pow2_pos (e : Z) : (0 < 2 ^ e)%Q.
Proof. apply Qpower_0_lt. reflexivity. Qed.

Lemma pow2_Z (k : Z) : 0 <= k -> (inject_Z (2 ^ k) == 2 ^ k)%Q.
Proof. intros Hk. now apply (Zpower_Qpower 2 k). Qed.

Lemma pow2_succ (e : Z) : (2 ^ (e + 1) == 2 ^ e * 2)%Q.
Proof. rewrite Qpower_plus by discriminate. reflexivity. Qed.


(** Before the last adjustment the scaled value lies between 2^52 and 2^54. *)
Lemma first_exponent_range (n : Z) (d : positive) :
  0 < n ->
  let e0 := Z.log2 n - Z.log2 (Zpos d) - 53 in
  (2 ^ 52 < (n # d) / 2 ^ e0)%Q /\ ((n # d) / 2 ^ e0 < 2 ^ 54)%Q.
Proof.
  intros Hn e0.
  destruct (Z.log2_spec n Hn) as (Ha & Ha').
  destruct (Z.log2_spec (Zpos d) (Pos2Z.is_pos d)) as (Hb & Hb').
  pose proof (Z.log2_nonneg n) as Ha0. pose proof (Z.log2_nonneg (Zpos d)) as Hb0.
  set (a := Z.log2 n) in *. set (b := Z.log2 (Zpos d)) in *.
  assert (HE : (0 < 2 ^ e0)%Q) by apply pow2_pos.
  assert (Hsplit : (2 ^ e0 * 2 ^ b * 2 ^ 53 == 2 ^ a)%Q).
  { rewrite <- !Qpower_plus by discriminate. replace (e0 + b + 53) with a by (unfold e0; lia).
    reflexivity. }
  rewrite <- (@pow2_Z a Ha0), <- (@pow2_Z b Hb0) in Hsplit.
  assert (HN : (inject_Z (2 ^ a) <= inject_Z n)%Q) by (rewrite <- Zle_Qle; lia).
  assert (HN' : (inject_Z n < 2 * inject_Z (2 ^ a))%Q).
  { change 2%Q with (inject_Z 2). rewrite <- inject_Z_mult, <- Zlt_Qlt.
    replace (Z.succ a) with (a + 1) in Ha' by lia.
    rewrite Z.pow_add_r in Ha' by lia. lia. }
  assert (HD : (inject_Z (2 ^ b) <= inject_Z (Zpos d))%Q) by (rewrite <- Zle_Qle; lia).
  assert (HD' : (inject_Z (Zpos d) < 2 * inject_Z (2 ^ b))%Q).
  { change 2%Q with (inject_Z 2). rewrite <- inject_Z_mult, <- Zlt_Qlt.
    replace (Z.succ b) with (b + 1) in Hb' by lia.
    rewrite Z.pow_add_r in Hb' by lia. lia. }
  set (N := inject_Z n) in *. set (D := inject_Z (Zpos d)) in *.
  set (PA := inject_Z (2 ^ a)) in *. set (PB := inject_Z (2 ^ b)) in *.
  set (E := (2 ^ e0)%Q) in *.
  assert (HDpos : (0 < D)%Q) by (unfold D; rewrite <- (Zlt_Qlt 0); lia).
  assert (Hu : (E * PB <= E * D)%Q) by (apply Qmult_le_l; assumption).
  assert (Hu' : (E * D < E * (2 * PB))%Q) by (apply Qmult_lt_l; assumption).
  assert (Hpos : (0 < E * D)%Q) by (apply Qmult_lt_0_compat; assumption).
  assert (H52 : (2 ^ 52 == 4503599627370496)%Q) by reflexivity.
  assert (H53 : (2 ^ 53 == 9007199254740992)%Q) by reflexivity.
  assert (H54 : (2 ^ 54 == 18014398509481984)%Q) by reflexivity.
  assert (Hx : ((n # d) / E == N / (E * D))%Q).
  { rewrite (Qmake_Qdiv n d). fold N D. field. split; intros H0; rewrite H0 in *.
    - now apply Qlt_irrefl in HDpos.
    - now apply Qlt_irrefl in HE. }
  rewrite Hx, H52, H54. rewrite H53 in Hsplit. split.
  - apply Qlt_shift_div_l; [assumption|]. lra.
  - apply Qlt_shift_div_r; [assumption|]. lra.
Qed.

(** The significand has exactly 53 bits. *)
Lemma exponent_spec (x : Q) :
  (0 < x)%Q ->
  (2 ^ 52 <= x / 2 ^ exponent x)%Q /\ (x / 2 ^ exponent x < 2 ^ 53)%Q.
Proof.
  intros Hx. destruct x as [n d].
  assert (Hn : 0 < n) by (unfold Qlt in Hx; simpl in Hx; lia).
  destruct (@first_exponent_range n d Hn) as (Hlow & Hhigh).
  unfold exponent. cbn [Qnum Qden]. rewrite (Z.abs_eq n) by lia.
  set (e0 := Z.log2 n - Z.log2 (Zpos d) - 53) in *.
  assert (Habs : (Qabs (n # d) / 2 ^ e0 == (n # d) / 2 ^ e0)%Q)
    by (rewrite Qabs_pos; [reflexivity|now apply Qlt_le_weak]).
  assert (Htest : Qle_bool (2 ^ 53) (Qabs (n # d) / 2 ^ e0)
                  = Qle_bool (2 ^ 53) ((n # d) / 2 ^ e0)).
  { destruct (Qle_bool (2 ^ 53) ((n # d) / 2 ^ e0)) eqn:E.
    - apply Qle_bool_iff. rewrite Habs. now apply Qle_bool_iff.
    - destruct (Qle_bool (2 ^ 53) (Qabs (n # d) / 2 ^ e0)) eqn:E'; [|reflexivity].
      apply Qle_bool_iff in E'. rewrite Habs in E'. apply Qle_bool_iff in E'. congruence. }
  rewrite Htest.
  assert (H52 : (2 ^ 52 == 4503599627370496)%Q) by reflexivity.
  assert (H53 : (2 ^ 53 == 9007199254740992)%Q) by reflexivity.
  assert (H54 : (2 ^ 54 == 18014398509481984)%Q) by reflexivity.
  destruct (Qle_bool (2 ^ 53) ((n # d) / 2 ^ e0)) eqn:E.
  - apply Qle_bool_iff in E.
    assert (Hhalf : ((n # d) / 2 ^ (e0 + 1) == (n # d) / 2 ^ e0 / 2)%Q).
    { rewrite pow2_succ. field. intros H0. pose proof (pow2_pos e0) as Hp.
      rewrite H0 in Hp. now apply Qlt_irrefl in Hp. }
    rewrite Hhalf. set (t := ((n # d) / 2 ^ e0)%Q) in *.
    rewrite H52, H53 in *. rewrite H54 in Hhigh.
    split; [apply Qle_shift_div_l|apply Qlt_shift_div_r]; lra.
  - split; [now apply Qlt_le_weak|]. now apply Qle_bool_false.
Qed.


Lemma round_comp (x y : Q) : (x == y)%Q -> round x = round y.
Proof.
  intros E. unfold round. now rewrite (Qred_complete x y E).
Qed.

Lemma round_scaled (x : Q) :
  (round x == inject_Z (nearest_even (Qred x / 2 ^ exponent (Qred x)))
              * 2 ^ exponent (Qred x))%Q.
Proof.
  unfold round. apply Qred_correct.
Qed.

(** Rounding moves a positive number by at most the unit roundoff, relatively. *)
Lemma round_error (x : Q) :
  (0 <= x)%Q ->
  (x * (1 - unit_roundoff) <= round x)%Q /\ (round x <= x * (1 + unit_roundoff))%Q.
Proof.
  intros Hx. rewrite round_scaled.
  pose proof (Qred_correct x) as Hy. set (y := Qred x) in *.
  destruct (Qle_lt_or_eq _ _ Hx) as [Hpos|Hzero].
  - assert (Hypos : (0 < y)%Q) by now rewrite Hy.
    destruct (exponent_spec Hypos) as (Hlow & _).
    destruct (nearest_even_error (y / 2 ^ exponent y)) as (Hm & Hm').
    pose proof (pow2_pos (exponent y)) as HE.
    set (E := (2 ^ exponent y)%Q) in *. set (t := (y / E)%Q) in *.
    set (m := inject_Z (nearest_even t)) in *.
    assert (Hx' : (x == t * E)%Q).
    { rewrite <- Hy. unfold t. field. intros H0. rewrite H0 in HE.
      now apply Qlt_irrefl in HE. }
    assert (H1 : ((t - (1 # 2)) * E <= m * E)%Q) by (apply Qmult_le_r; assumption).
    assert (H2 : (m * E <= (t + (1 # 2)) * E)%Q) by (apply Qmult_le_r; assumption).
    assert (H3 : (2 ^ 52 * E <= t * E)%Q) by (apply Qmult_le_r; assumption).
    assert (H52 : (2 ^ 52 == 4503599627370496)%Q) by reflexivity.
    rewrite H52 in H3. rewrite Hx'. unfold unit_roundoff.
    set (p := (t * E)%Q) in *. set (q := (m * E)%Q) in *.
    assert (Hd1 : ((t - (1 # 2)) * E == p - E * (1 # 2))%Q) by (unfold p; ring).
    assert (Hd2 : ((t + (1 # 2)) * E == p + E * (1 # 2))%Q) by (unfold p; ring).
    rewrite Hd1 in H1. rewrite Hd2 in H2.
    change (1 # 2 ^ 53)%Q with (1 # 9007199254740992)%Q.
    split; lra.
  - assert (Hy0 : (y == 0)%Q) by (rewrite Hy; symmetry; exact Hzero).
    assert (Hm : nearest_even (y / 2 ^ exponent y) = 0).
    { rewrite (@nearest_even_comp _ 0%Q); [reflexivity|].
      generalize (2 ^ exponent y)%Q. intros E. rewrite Hy0. unfold Qdiv. ring. }
    rewrite Hm, <- Hzero. split; ring_simplify; apply Qle_refl.
Qed.

(** Whole numbers below 2^53 are doubles. *)
Lemma round_Z (n : Z) :
  0 <= n < 2 ^ 53 -> (round (inject_Z n) == inject_Z n)%Q.
Proof.
  intros (Hn & Hn'). rewrite round_scaled.
  pose proof (Qred_correct (inject_Z n)) as Hy. set (y := Qred (inject_Z n)) in *.
  destruct (Z.eq_dec n 0) as [->|Hne].
  - assert (Hm : nearest_even (y / 2 ^ exponent y) = 0).
    { rewrite (@nearest_even_comp _ 0%Q); [reflexivity|].
      generalize (2 ^ exponent y)%Q. intros E. rewrite Hy. unfold Qdiv. ring. }
    rewrite Hm. ring.
  - assert (Hypos : (0 < y)%Q) by (rewrite Hy, <- (Zlt_Qlt 0); lia).
    destruct (exponent_spec Hypos) as (Hlow & _).
    pose proof (pow2_pos (exponent y)) as HE.
    assert (He : exponent y <= 0).
    { destruct (Z_le_gt_dec (exponent y) 0) as [|Hgt]; [assumption|exfalso].
      assert (H2 : (2 ^ 1 <= 2 ^ exponent y)%Q)
        by (apply Qpower_le_compat_l; [lia|discriminate]).
      change (2 ^ 1)%Q with 2%Q in H2.
      set (E := (2 ^ exponent y)%Q) in *.
      assert (H3 : (2 ^ 52 * E <= y / E * E)%Q) by (apply Qmult_le_r; assumption).
      assert (H4 : (y / E * E == y)%Q)
        by (field; intros H0; rewrite H0 in HE; now apply Qlt_irrefl in HE).
      assert (H5 : (inject_Z n < inject_Z (2 ^ 53))%Q) by (rewrite <- Zlt_Qlt; lia).
      rewrite H4, Hy in H3.
      assert (H52 : (2 ^ 52 == 4503599627370496)%Q) by reflexivity.
      change (inject_Z (2 ^ 53)) with 9007199254740992%Q in H5.
      rewrite H52 in H3. set (N := inject_Z n) in *. lra. }
    set (k := - exponent y).
    assert (HE' : (2 ^ exponent y == / inject_Z (2 ^ k))%Q).
    { replace (exponent y) with (- k) by (unfold k; lia).
      rewrite Qpower_opp, pow2_Z by (unfold k; lia). reflexivity. }
    assert (Hk : (0 < inject_Z (2 ^ k))%Q).
    { rewrite <- (Zlt_Qlt 0). apply Z.pow_pos_nonneg; unfold k; lia. }
    assert (Ht : (y / 2 ^ exponent y == inject_Z (n * 2 ^ k))%Q).
    { rewrite HE', Hy, inject_Z_mult. field.
      intros H0. rewrite H0 in Hk. now apply Qlt_irrefl in Hk. }
    rewrite (nearest_even_comp Ht), nearest_even_Z, HE', inject_Z_mult.
    field. intros H0. rewrite H0 in Hk. now apply Qlt_irrefl in Hk.
Qed.

End DoubleFacts.

(** ** DropoutPage.tsx: reason percentages and the peak segment *)

Section DropoutPageFacts.

Import DropoutPage.

Lemma Qlt_bool_true (x y : Q) : Qlt_bool x y = true <-> (x < y)%Q.
Proof.
  unfold Qlt_bool. rewrite negb_true_iff. apply Qle_bool_false.
Qed.

Lemma whole_count_nonneg (r : DropoutReason) :
  (exists k : Z, 0 <= k /\ (count r == inject_Z k)%Q) -> (0 <= count r)%Q.
Proof.
  intros (k & Hk & ->). rewrite <- (Zle_Qle 0). assumption.
Qed.

Lemma Qsum_counts_nonneg (l : list DropoutReason) :
  (forall r, In r l -> (0 <= count r)%Q) -> (0 <= Qsum (map count l))%Q.
Proof.
  induction l as [|r t IH]; intros Hpos; simpl; [apply Qle_refl|].
  assert (0 <= count r)%Q by (apply Hpos; now left).
  assert (0 <= Qsum (map count t))%Q by (apply IH; intros x Hx; apply Hpos; now right).
  lra.
Qed.

(** Whole counts add up without any rounding while the sum stays below
    2^53. *)
Lemma fold_left_count (l : list DropoutReason) :
  (forall r, In r l -> exists k : Z, 0 <= k /\ (count r == inject_Z k)%Q) ->
  forall (a : Q) (s : Z),
    (a == inject_Z s)%Q -> 0 <= s ->
    (a + Qsum (map count l) < inject_Z (2 ^ 53))%Q ->
    (fold_left (fun sum r => Double.add sum (count r)) l a
     == a + Qsum (map count l))%Q.
Proof.
  induction l as [|r t IH]; intros Hwhole a s Ha Hs Hsmall.
  - simpl. ring.
  - change (Qsum (map count (r :: t))) with (count r + Qsum (map count t))%Q in *.
    cbn [fold_left].
    destruct (Hwhole r (or_introl eq_refl)) as (k & Hk & Hr).
    assert (Hrest : (0 <= Qsum (map count t))%Q).
    { apply Qsum_counts_nonneg. intros x Hx. apply whole_count_nonneg.
      apply Hwhole. now right. }
    assert (Hak : (a + count r == inject_Z (s + k))%Q)
      by (rewrite inject_Z_plus, Ha, Hr; reflexivity).
    assert (Hbound : s + k < 2 ^ 53).
    { rewrite Zlt_Qlt, <- Hak. lra. }
    assert (Hstep : (Double.add a (count r) == inject_Z (s + k))%Q).
    { unfold Double.add. rewrite (round_comp Hak). apply round_Z. lia. }
    rewrite (IH (fun x Hx => Hwhole x (or_intror Hx)) _ (s + k) Hstep); [| lia |].
    + rewrite Hstep, <- Hak. ring.
    + rewrite Hstep, <- Hak. lra.
Qed.

(** [totalReasonCount] is the sum of the reasons' counts. *)
Lemma totalReasonCount_sum (l : list DropoutReason) :
  (forall r, In r l -> exists k : Z, 0 <= k /\ (count r == inject_Z k)%Q) ->
  (Qsum (map count l) < inject_Z (2 ^ 53))%Q ->
  (totalReasonCount l == Qsum (map count l))%Q.
Proof.
  intros Hwhole Hsmall. unfold totalReasonCount.
  rewrite (@fold_left_count l Hwhole 0%Q 0); [ring|reflexivity|lia|lra].
Qed.

(** A percentage goes through two roundings, of the quotient and of the
    product: it is off by at most three unit roundoffs, relatively. *)
Lemma percentage_error (c t : Q) :
  (0 <= c)%Q -> (0 < t)%Q ->
  (c / t * 100 * (1 - 3 * Double.unit_roundoff)
   <= Double.mul (Double.div c t) 100)%Q
  /\ (Double.mul (Double.div c t) 100
      <= c / t * 100 * (1 + 3 * Double.unit_roundoff))%Q.
Proof.
  intros Hc Ht. unfold Double.mul, Double.div.
  assert (Hq : (0 <= c / t)%Q) by (apply Qle_shift_div_l; [assumption|lra]).
  destruct (round_error Hq) as (Hq1 & Hq2).
  set (q := (c / t)%Q) in *. set (q' := Double.round q) in *.
  unfold Double.unit_roundoff in *.
  change (1 # 2 ^ 53)%Q with (1 # 9007199254740992)%Q in *.
  assert (Hq' : (0 <= q' * 100)%Q) by lra.
  destruct (round_error Hq') as (Hp1 & Hp2).
  unfold Double.unit_roundoff in *.
  change (1 # 2 ^ 53)%Q with (1 # 9007199254740992)%Q in *.
  set (p' := Double.round (q' * 100)) in *. split; lra.
Qed.

Lemma percentages_sum_error (t : Q) (l : list DropoutReason) :
  (0 < t)%Q -> (forall r, In r l -> (0 <= count r)%Q) ->
  (Qsum (map count l) / t * 100 * (1 - 3 * Double.unit_roundoff)
   <= Qsum (map (fun r => Double.mul (Double.div (count r) t) 100) l))%Q
  /\ (Qsum (map (fun r => Double.mul (Double.div (count r) t) 100) l)
      <= Qsum (map count l) / t * 100 * (1 + 3 * Double.unit_roundoff))%Q.
Proof.
  intros Ht. induction l as [|r tl IH]; intros Hpos; simpl.
  - split; unfold Qdiv; ring_simplify; apply Qle_refl.
  - destruct IH as (IH1 & IH2); [intros x Hx; apply Hpos; now right|].
    destruct (@percentage_error (count r) t) as (H1 & H2);
      [apply Hpos; now left|assumption|].
    assert (Hsplit : ((count r + Qsum (map count tl)) / t * 100
                      == count r / t * 100 + Qsum (map count tl) / t * 100)%Q).
    { field. intros H0. rewrite H0 in Ht. now apply Qlt_irrefl in Ht. }
    rewrite Hsplit. split; lra.
Qed.

Lemma Math_max_spec (l : list Z) :
  l <> [] ->
  exists m, Math_max l = Some m /\ In m l /\ forall x, In x l -> x <= m.
Proof.
  induction l as [|x t IH]; [congruence|]. intros _. simpl.
  destruct t as [|y t'].
  - exists x. simpl. split; [reflexivity|]. split; [now left|].
    intros z [<-|[]]. lia.
  - destruct IH as (m & -> & Hin & Hmax); [discriminate|].
    exists (Z.max x m). split; [reflexivity|]. split.
    + destruct (Z.max_spec x m) as [(_ & ->)|(_ & ->)]; [now right|now left].
    + intros z [<-|Hz]; [lia|]. specialize (Hmax z Hz). lia.
Qed.

Lemma indexOf_from_first (l : list Z) (m i : Z) :
  In m l ->
  exists k, indexOf_from i l (Some m) = i + Z.of_nat k
            /\ nth_error l k = Some m
            /\ forall j x, (j < k)%nat -> nth_error l j = Some x -> x <> m.
Proof.
  revert i. induction l as [|y t IH]; intros i Hin; [destruct Hin|].
  simpl. destruct (y =? m) eqn:E.
  - apply Z.eqb_eq in E. subst y. exists 0%nat.
    split; [lia|]. split; [reflexivity|]. intros j x Hj. lia.
  - apply Z.eqb_neq in E. destruct Hin as [Hy|Hin]; [congruence|].
    destruct (IH (i + 1) Hin) as (k & Hk & Hnth & Hfirst).
    exists (S k). split; [lia|]. split; [assumption|].
    intros [|j] x Hj; simpl.
    + intros Hx. inversion Hx. congruence.
    + apply Hfirst. lia.
Qed.

End DropoutPageFacts.

(** C7: for whole counts (with a sum below 2^53) the total is the sum of all
    the reasons' counts (not the enrollments); with a positive total the
    percentage of every reason is computed as its count over that total,
    times 100, in doubles, which is the exact percentage up to a relative
    rounding error of three unit roundoffs, so the percentages add up to 100
    up to that rounding; when the total is 0 every percentage is 0.  The
    reasons and their counts are kept as they are. *)
Theorem reason_percentages (reasons : list DropoutPage.DropoutReason)
        (Hwhole : forall r, In r reasons ->
                    exists k : Z, 0 <= k /\ (DropoutPage.count r == inject_Z k)%Q)
        (Hsmall : (DropoutPage.Qsum (map DropoutPage.count reasons)
                   < inject_Z (2 ^ 53))%Q) :
  let total := DropoutPage.totalReasonCount reasons in
  let out := DropoutPage.reasonsWithPercentage reasons in
  let exact := fun r => (DropoutPage.count r / total * 100)%Q in
  let u := Double.unit_roundoff in
  (total == DropoutPage.Qsum (map DropoutPage.count reasons))%Q
  /\ map DropoutPage.reason out = map DropoutPage.reason reasons
  /\ map DropoutPage.count out = map DropoutPage.count reasons
  /\ ((0 < total)%Q ->
      map DropoutPage.percentage out
      = map (fun r => Some (Double.mul (Double.div (DropoutPage.count r) total) 100))
            reasons
      /\ (forall r, In r reasons ->
            (exact r * (1 - 3 * u)
             <= Double.mul (Double.div (DropoutPage.count r) total) 100)%Q
            /\ (Double.mul (Double.div (DropoutPage.count r) total) 100
                <= exact r * (1 + 3 * u))%Q)
      /\ (100 * (1 - 3 * u)
          <= DropoutPage.Qsum (map DropoutPage.percentage_or_zero out))%Q
      /\ (DropoutPage.Qsum (map DropoutPage.percentage_or_zero out)
          <= 100 * (1 + 3 * u))%Q)
  /\ ((total == 0)%Q ->
      Forall (fun r => DropoutPage.percentage r = Some 0%Q) out).
Proof.
  intros total out exact u. subst out exact u.
  unfold DropoutPage.reasonsWithPercentage. fold total. rewrite !map_map. simpl.
  pose proof (@totalReasonCount_sum _ Hwhole Hsmall) as Hsum. fold total in Hsum.
  split; [exact Hsum|]. split; [reflexivity|]. split; [reflexivity|].
  assert (Hcounts : forall r, In r reasons -> (0 <= DropoutPage.count r)%Q)
    by (intros r Hr; apply whole_count_nonneg; now apply Hwhole).
  split.
  - intros Hpos. assert (E : Qlt_bool 0 total = true) by now apply Qlt_bool_true.
    rewrite E. split; [reflexivity|]. split.
    + intros r Hr. apply percentage_error; [now apply Hcounts|assumption].
    + unfold DropoutPage.percentage_or_zero. simpl.
      destruct (@percentages_sum_error total reasons Hpos Hcounts) as (H1 & H2).
      assert (Hall : (DropoutPage.Qsum (map DropoutPage.count reasons) / total * 100
                      == 100)%Q).
      { rewrite <- Hsum. field. intros H0. rewrite H0 in Hpos.
        now apply (Qlt_irrefl 0). }
      rewrite Hall in H1, H2. split; assumption.
  - intros H0. assert (E : Qlt_bool 0 total = false).
    { destruct (Qlt_bool 0 total) eqn:E; [|reflexivity].
      apply Qlt_bool_true in E. rewrite H0 in E. now apply Qlt_irrefl in E. }
    rewrite E. apply Forall_forall. intros r Hin. apply in_map_iff in Hin.
    destruct Hin as (r0 & <- & _). reflexivity.
Qed.

Lemma reason_percentages_witness :
  (100 * (1 - 3 * Double.unit_roundoff)
   <= DropoutPage.Qsum
        (map DropoutPage.percentage_or_zero
             (DropoutPage.reasonsWithPercentage Sample.reasons)))%Q
  /\ (DropoutPage.Qsum
        (map DropoutPage.percentage_or_zero
             (DropoutPage.reasonsWithPercentage Sample.reasons))
      <= 100 * (1 + 3 * Double.unit_roundoff))%Q.
Proof.
  assert (Hwhole : forall r, In r Sample.reasons ->
            exists k : Z, 0 <= k /\ (DropoutPage.count r == inject_Z k)%Q).
  { intros r [<-|[<-|[]]]; [exists 3|exists 1]; split; try lia; reflexivity. }
  assert (Hsmall : (DropoutPage.Qsum (map DropoutPage.count Sample.reasons)
                    < inject_Z (2 ^ 53))%Q) by reflexivity.
  destruct (@reason_percentages Sample.reasons Hwhole Hsmall) as (_ & _ & _ & H & _).
  apply H. reflexivity.
Defined.

(** The percentages of two reasons with counts 1 and 2 are the doubles
    33.33333333333333 and 66.66666666666666, whose sum is below 100. *)
Remark percentages_of_thirds :
  map DropoutPage.percentage_or_zero
      (DropoutPage.reasonsWithPercentage
         [MoreSamples.reason "late" 1; MoreSamples.reason "busy" 2])
  = [2345624805922133 # 70368744177664; 2345624805922133 # 35184372088832]%Q
  /\ (DropoutPage.Qsum
        (map DropoutPage.percentage_or_zero
             (DropoutPage.reasonsWithPercentage
                [MoreSamples.reason "late" 1; MoreSamples.reason "busy" 2]))
      < 100)%Q.
Proof.
  split; vm_compute; reflexivity.
Qed.

(** C8, as the code has it: once the chart data is ready, the peak segment
    the page reports is the first segment, in the order of the labels, whose
    rounded dropout rate is the largest of all rounded dropout rates; the
    dropout counts play no part in the choice. *)
Theorem peak_is_first_maximal_rounded_rate (cd : DropoutPage.ChartData) :
  DropoutPage.isChartDataReady (Some cd) = true ->
  exists (k : nat) (rate : Q),
    nth_error (DropoutPage.rawDropoutRates (Some cd)) k = Some rate
    /\ DropoutPage.peakIndex (Some cd) = Z.of_nat k
    /\ DropoutPage.peakInfo (Some cd)
       = Some (option_map DropoutPage.simpleLabel (nth_error (DropoutPage.labels cd) k),
               Some (DropoutPage.Math_round rate))
    /\ forall (j : nat) (r : Q),
         nth_error (DropoutPage.rawDropoutRates (Some cd)) j = Some r ->
         DropoutPage.Math_round r <= DropoutPage.Math_round rate
         /\ ((j < k)%nat -> DropoutPage.Math_round r < DropoutPage.Math_round rate).
Proof.
  intros Hready.
  assert (Hne : DropoutPage.dropoutRates (Some cd) <> []).
  { unfold DropoutPage.isChartDataReady in Hready.
    apply andb_true_iff in Hready. destruct Hready as (_ & Hlen).
    intros E. rewrite E in Hlen. discriminate. }
  destruct (@Math_max_spec (DropoutPage.dropoutRates (Some cd)) Hne)
    as (m & Hmax & Hin & Hle).
  destruct (@indexOf_from_first (DropoutPage.dropoutRates (Some cd)) m 0 Hin)
    as (k & Hidx & Hnth & Hfirst).
  unfold DropoutPage.dropoutRates in Hnth. rewrite nth_error_map in Hnth.
  destruct (nth_error (DropoutPage.rawDropoutRates (Some cd)) k) as [rate|] eqn:Hk;
    [|discriminate].
  simpl in Hnth. inversion Hnth as [Hm].
  assert (Hpeak : DropoutPage.peakIndex (Some cd) = Z.of_nat k).
  { unfold DropoutPage.peakIndex, DropoutPage.maxDropoutRate, DropoutPage.indexOf.
    rewrite Hready, Hmax, Hidx. lia. }
  exists k, rate. split; [exact Hk|]. split; [assumption|]. split.
  - unfold DropoutPage.peakInfo. rewrite Hready, Hpeak.
    unfold DropoutPage.maxDropoutRate. rewrite Hready, Hmax, Hm.
    unfold DropoutPage.at_index, DropoutPage.simpleLabels.
    assert (E : (Z.of_nat k <? 0) = false) by (apply Z.ltb_ge; lia).
    rewrite E, Nat2Z.id, nth_error_map. reflexivity.
  - intros j r Hj.
    assert (Hjr : nth_error (DropoutPage.dropoutRates (Some cd)) j
                  = Some (DropoutPage.Math_round r)).
    { unfold DropoutPage.dropoutRates. rewrite nth_error_map, Hj. reflexivity. }
    rewrite Hm. split.
    + apply Hle. eapply nth_error_In. exact Hjr.
    + intros Hlt. specialize (Hfirst j _ Hlt Hjr).
      assert (DropoutPage.Math_round r <= m)
        by (apply Hle; eapply nth_error_In; exact Hjr).
      lia.
Qed.

Lemma peak_is_first_maximal_rounded_rate_witness :
  exists (k : nat) (rate : Q),
    nth_error (DropoutPage.rawDropoutRates (Some Sample.chart)) k = Some rate
    /\ DropoutPage.peakIndex (Some Sample.chart) = Z.of_nat k
    /\ DropoutPage.peakInfo (Some Sample.chart)
       = Some (option_map DropoutPage.simpleLabel
                          (nth_error (DropoutPage.labels Sample.chart) k),
               Some (DropoutPage.Math_round rate))
    /\ forall (j : nat) (r : Q),
         nth_error (DropoutPage.rawDropoutRates (Some Sample.chart)) j = Some r ->
         DropoutPage.Math_round r <= DropoutPage.Math_round rate
         /\ ((j < k)%nat -> DropoutPage.Math_round r < DropoutPage.Math_round rate).
Proof.
  apply (@peak_is_first_maximal_rounded_rate Sample.chart). reflexivity.
Defined.

(** C8 as stated fails: with rates 10%, 50%, 0% and dropout counts 10, 5, 0
    the page reports the second segment ("10%", rate 50) as the peak, while
    the largest dropout count, 10, is in the first. *)
Lemma peak_follows_rate_not_count :
  DropoutPage.peakInfo (Some Sample.chart) = Some (Some "10%"%string, Some 50)
  /\ DropoutPage.peakIndex (Some Sample.chart) = 1
  /\ DropoutPage.at_index (DropoutPage.dropout_counts Sample.chart) 1 = Some 5%Q
  /\ DropoutPage.at_index (DropoutPage.dropout_counts Sample.chart) 0 = Some 10%Q
  /\ (5 < 10)%Q.
Proof.
  repeat split.
Qed.

(** ** services/api.ts: the outcomes of fetchApi *)

Section FetchApiFacts.

Variables JSON RequestInit Rejection : Type.
Variable fetch : string -> option RequestInit -> Rejection + Api.Response JSON Rejection.
Variable url : string.
Variable options : option RequestInit.

(** C10, as the code has it: when the response has ok = false the wrapper
    throws an ApiError carrying the response's status and statusText and
    returns no value; when ok = true and the body parses it returns the parsed
    JSON body; when ok = true and response.json() rejects, or when fetch itself
    rejects, that rejection is what the wrapper throws, unchanged. *)
Theorem fetchApi_outcomes :
  (forall response,
      fetch url options = inr response -> Api.ok response = false ->
      Api.fetchApi fetch url options
      = Api.Rejected (Api.ApiError
                        ("API 요청 실패: " ++ Api.statusText response)
                        (Api.status response) (Api.statusText response)))
  /\ (forall response data,
        fetch url options = inr response -> Api.ok response = true ->
        Api.json response = inr data ->
        Api.fetchApi fetch url options = Api.Fulfilled data)
  /\ (forall response e,
        fetch url options = inr response -> Api.ok response = true ->
        Api.json response = inl e ->
        Api.fetchApi fetch url options = Api.Rejected (Api.Other e))
  /\ (forall e,
        fetch url options = inl e ->
        Api.fetchApi fetch url options = Api.Rejected (Api.Other e)).
Proof.
  unfold Api.fetchApi. repeat split.
  - intros response -> Hok. simpl. now rewrite Hok.
  - intros response data -> Hok Hjson. simpl. now rewrite Hok, Hjson.
  - intros response e -> Hok Hjson. simpl. now rewrite Hok, Hjson.
  - intros e ->. reflexivity.
Qed.

End FetchApiFacts.

(** C10 as stated fails: for an ok response whose body is not JSON the
    wrapper neither returns a parsed body nor throws an ApiError; it throws
    what response.json() rejected with. *)
Lemma fetchApi_third_outcome :
  Api.fetchApi Sample.fetch_no_content "/api/analysis/courses" None
  = Api.Rejected (Api.Other "SyntaxError: Unexpected end of JSON input"%string)
  /\ (forall data : string,
        Api.fetchApi Sample.fetch_no_content "/api/analysis/courses" None
        <> Api.Fulfilled data)
  /\ (forall message status statusText,
        Api.fetchApi Sample.fetch_no_content "/api/analysis/courses" None
        <> Api.Rejected (Api.ApiError message status statusText)).
Proof.
  repeat split; intros; discriminate.
Qed.

Lemma fetchApi_outcomes_witness :
  Api.fetchApi Sample.fetch_not_found "/api/analysis/summary/7" None
  = Api.Rejected (Api.ApiError "API 요청 실패: Not Found" 404 "Not Found").
Proof.
  destruct (fetchApi_outcomes Sample.fetch_not_found "/api/analysis/summary/7" None)
    as (Hfail & _).
  exact (Hfail _ eq_refl eq_refl).
Defined.

(* ================================================================== *)
(** * Part III: further properties of the modelled code *)
(* ================================================================== *)


(** ** analyze_course_dropout: what the result depends on *)

Lemma sql_max_in (l : list Q) (m : Q) : sql_max l = Some m -> In m l.
Proof.
  revert m. induction l as [|x t IH]; intros m; simpl; [discriminate|].
  destruct (sql_max t) as [m'|].
  - destruct (Qle_bool x m'); intros E; inversion E; subst; auto.
  - intros E. inversion E. now left.
Qed.

Section LogsOfTheCourse.

Import Dropout.

Variable logs : list learning_log.
Variable p_course_id : Z.

(** A user has reached a segment exactly when one of the user's logs in the
    course is at or past the segment's start. *)
Lemma reached_iff_log (s uid : Z) :
  reached logs p_course_id s uid = true <->
  exists l, In l (course_logs logs p_course_id)
            /\ l_user_id l = uid /\ (inject_Z s <= progress_percent l)%Q.
Proof.
  unfold reached, max_progress_of. split.
  - destruct (sql_max _) as [m|] eqn:E; [|discriminate].
    intros Hle. apply Qle_bool_iff in Hle. apply sql_max_in in E.
    apply in_map_iff in E. destruct E as (l & <- & Hl).
    apply filter_In in Hl. destruct Hl as (Hl & Hu). apply Z.eqb_eq in Hu.
    now exists l.
  - intros (l & Hl & Hu & Hle).
    destruct (@sql_max_ge
                (map progress_percent
                   (filter (fun x => l_user_id x =? uid)
                           (course_logs logs p_course_id)))
                (progress_percent l)) as (m & -> & Hm).
    { apply in_map. apply filter_In. split; [assumption|]. now apply Z.eqb_eq. }
    apply Qle_bool_iff. now apply Qle_trans with (progress_percent l).
Qed.

Lemma in_reached_users (s uid : Z) :
  In uid (reached_users logs p_course_id s) <->
  exists l, In l (course_logs logs p_course_id)
            /\ l_user_id l = uid /\ (inject_Z s <= progress_percent l)%Q.
Proof.
  unfold reached_users. rewrite nodup_In, filter_In, reached_iff_log. split.
  - tauto.
  - intros (l & Hl & Hu & Hle). split; [|now exists l].
    subst uid. now apply in_map.
Qed.

Lemma in_dropout_users (s uid : Z) :
  In uid (dropout_users logs p_course_id s) <->
  exists l, In l (course_logs logs p_course_id)
            /\ l_user_id l = uid /\ dropped_in s l = true.
Proof.
  unfold dropout_users. rewrite nodup_In, in_map_iff. split.
  - intros (l & Hu & Hl). apply filter_In in Hl. exists l. tauto.
  - intros (l & Hl & Hu & Hd). exists l. split; [assumption|].
    apply filter_In. now split.
Qed.

End LogsOfTheCourse.

Lemma NoDup_same_length (l1 l2 : list Z) :
  NoDup l1 -> NoDup l2 -> (forall x, In x l1 <-> In x l2) -> length l1 = length l2.
Proof.
  intros H1 H2 H. apply Nat.le_antisymm; apply NoDup_incl_length; try assumption;
    intros x Hx; now apply H.
Qed.

(** X1: the result for a course is decided by which logs that course has:
    logs of other courses, the order of the logs and repeated logs change
    nothing. *)
Theorem analysis_depends_on_course_logs
        (logs logs' : list learning_log) (p_course_id : Z) :
  (forall l, In l (Dropout.course_logs logs p_course_id)
             <-> In l (Dropout.course_logs logs' p_course_id)) ->
  Dropout.analyze_course_dropout logs p_course_id
  = Dropout.analyze_course_dropout logs' p_course_id.
Proof.
  intros Hsame. rewrite !analyze_course_dropout_rows. f_equal.
  apply map_ext. intros s. unfold Dropout.segment_row.
  assert (Hr : length (Dropout.reached_users logs p_course_id s)
               = length (Dropout.reached_users logs' p_course_id s)).
  { apply NoDup_same_length; try apply NoDup_nodup.
    intros uid. rewrite !in_reached_users.
    split; intros (l & Hl & H); exists l; (split; [now apply Hsame|exact H]). }
  assert (Hd : length (Dropout.dropout_users logs p_course_id s)
               = length (Dropout.dropout_users logs' p_course_id s)).
  { apply NoDup_same_length; try apply NoDup_nodup.
    intros uid. rewrite !in_dropout_users.
    split; intros (l & Hl & H); exists l; (split; [now apply Hsame|exact H]). }
  now rewrite Hr, Hd.
Qed.

Lemma analysis_depends_on_course_logs_witness :
  Dropout.analyze_course_dropout Sample.one_learner 1
  = Dropout.analyze_course_dropout MoreSamples.one_learner_shuffled 1.
Proof.
  apply analysis_depends_on_course_logs.
  intros l. simpl. tauto.
Defined.

(** ** analyze_course_dropout: edge cases *)

(** X2: for a course without any log (an unknown course id included) the
    function raises nothing and still returns the ten segments, each with
    users_reached 0, dropout_count 0, a NULL dropout_rate and risk level
    low. *)
Theorem analysis_of_course_without_logs (logs : list learning_log) (p_course_id : Z) :
  (forall l, In l logs -> l_course_id l <> p_course_id) ->
  exists rows,
    Dropout.analyze_course_dropout logs p_course_id = Ok rows
    /\ map Dropout.segment_start rows = Dropout.segments
    /\ Forall (fun r => Dropout.users_reached r = 0
                        /\ Dropout.dropout_count r = 0
                        /\ Dropout.dropout_rate r = None
                        /\ Dropout.risk_level r = "low"%string) rows.
Proof.
  intros Hnone.
  assert (Hempty : Dropout.course_logs logs p_course_id = []).
  { unfold Dropout.course_logs. apply filter_none.
    intros l Hl. apply Z.eqb_neq. now apply Hnone. }
  eexists. split; [apply analyze_course_dropout_rows|]. split.
  - rewrite map_map. simpl. reflexivity.
  - apply Forall_forall. intros r Hin. apply in_map_iff in Hin.
    destruct Hin as (s & <- & _).
    unfold Dropout.segment_row, Dropout.reached_users, Dropout.dropout_users.
    rewrite Hempty. simpl. repeat split.
Qed.

Lemma analysis_of_course_without_logs_witness :
  exists rows,
    Dropout.analyze_course_dropout Sample.five_learners 99 = Ok rows
    /\ map Dropout.segment_start rows = Dropout.segments
    /\ Forall (fun r => Dropout.users_reached r = 0
                        /\ Dropout.dropout_count r = 0
                        /\ Dropout.dropout_rate r = None
                        /\ Dropout.risk_level r = "low"%string) rows.
Proof.
  apply analysis_of_course_without_logs.
  intros l Hl. simpl in Hl.
  repeat (destruct Hl as [<-|Hl]; [discriminate|]). destruct Hl.
Defined.

(** X3: when no progress is negative (the CHECK on learning_logs), the first
    segment's users_reached is the number of distinct users with a log in the
    course. *)
Theorem first_segment_counts_every_learner (logs : list learning_log) (p_course_id : Z) :
  (forall l, In l logs -> (0 <= progress_percent l)%Q) ->
  exists first rest,
    Dropout.analyze_course_dropout logs p_course_id = Ok (first :: rest)
    /\ Dropout.segment_start first = 0
    /\ Dropout.users_reached first
       = Z.of_nat (length (nodup Z.eq_dec
                             (map l_user_id (Dropout.course_logs logs p_course_id)))).
Proof.
  intros Hpos. rewrite analyze_course_dropout_rows, segments_eq. simpl map.
  eexists. eexists. split; [reflexivity|]. split; [reflexivity|].
  simpl. f_equal. apply NoDup_same_length; try apply NoDup_nodup.
  intros uid. rewrite in_reached_users, nodup_In, in_map_iff. split.
  - intros (l & Hl & Hu & _). now exists l.
  - intros (l & Hu & Hl). exists l. repeat split; try assumption.
    apply Hpos. apply in_course_logs in Hl. tauto.
Qed.

Lemma first_segment_counts_every_learner_witness :
  exists first rest,
    Dropout.analyze_course_dropout Sample.five_learners 1 = Ok (first :: rest)
    /\ Dropout.segment_start first = 0
    /\ Dropout.users_reached first
       = Z.of_nat (length (nodup Z.eq_dec
                             (map l_user_id (Dropout.course_logs Sample.five_learners 1)))).
Proof.
  apply first_segment_counts_every_learner.
  intros l Hl. simpl in Hl.
  repeat (destruct Hl as [<-|Hl]; [discriminate|]). destruct Hl.
Defined.

Lemma risk_of_zero_rate (u : Z) :
  Dropout.risk_of_rate (Dropout.exact_rate u 0) = "low"%string.
Proof.
  unfold Dropout.exact_rate. destruct (u =? 0); [reflexivity|].
  unfold Dropout.risk_of_rate, sql_ge, sql_cmp. rewrite !sql_true_Some.
  assert (E : forall k, (0 < k)%Q -> Qle_bool k (inject_Z 0 / inject_Z u * 100) = false).
  { intros k Hk. apply Qle_bool_false.
    assert (H0 : (inject_Z 0 / inject_Z u * 100 == 0)%Q).
    { unfold Qdiv. change (inject_Z 0) with 0%Q. ring. }
    now rewrite H0. }
  rewrite !E by reflexivity. reflexivity.
Qed.

(** X4: a dropout flagged at full progress is counted in no segment: when
    every dropout-flagged log of the course is at progress 100 or more, every
    segment has dropout_count 0 and risk level low, whoever dropped out. *)
Theorem dropout_at_full_progress_is_not_counted
        (logs : list learning_log) (p_course_id : Z) :
  (forall l, In l logs -> l_course_id l = p_course_id ->
             is_dropout l = Some true -> (100 <= progress_percent l)%Q) ->
  exists rows,
    Dropout.analyze_course_dropout logs p_course_id = Ok rows
    /\ Forall (fun r => Dropout.dropout_count r = 0
                        /\ Dropout.risk_level r = "low"%string) rows.
Proof.
  intros Hfull. eexists. split; [apply analyze_course_dropout_rows|].
  apply Forall_forall. intros r Hin. apply in_map_iff in Hin.
  destruct Hin as (s & <- & Hs).
  assert (Hnone : Dropout.dropout_users logs p_course_id s = []).
  { destruct (Dropout.dropout_users logs p_course_id s) as [|uid t] eqn:E;
      [reflexivity|exfalso].
    assert (Hin : In uid (Dropout.dropout_users logs p_course_id s))
      by (rewrite E; now left).
    apply in_dropout_users in Hin. destruct Hin as (l & Hl & _ & Hd).
    apply in_course_logs in Hl. destruct Hl as (Hl & Hc).
    unfold Dropout.dropped_in in Hd.
    destruct (is_dropout l) as [[|]|] eqn:Hflag; try discriminate.
    apply andb_true_iff in Hd. destruct Hd as (_ & Hlt).
    apply Qlt_bool_true in Hlt. specialize (Hfull l Hl Hc Hflag).
    assert (Hbound : (inject_Z (s + 10) <= 100)%Q).
    { change 100%Q with (inject_Z 100). rewrite <- Zle_Qle.
      rewrite segments_eq in Hs. simpl in Hs. intuition lia. }
    lra. }
  unfold Dropout.segment_row. rewrite Hnone. simpl.
  split; [reflexivity|apply risk_of_zero_rate].
Qed.

Lemma dropout_at_full_progress_is_not_counted_witness :
  exists rows,
    Dropout.analyze_course_dropout MoreSamples.dropout_at_full_progress 1 = Ok rows
    /\ Forall (fun r => Dropout.dropout_count r = 0
                        /\ Dropout.risk_level r = "low"%string) rows.
Proof.
  apply dropout_at_full_progress_is_not_counted.
  intros l Hl _ Hflag. simpl in Hl.
  destruct Hl as [<-|[<-|[]]]; [discriminate|]. simpl. discriminate.
Defined.

(** ** analyze_course_dropout: the returned rate and the risk ladder *)

Lemma round_half_away_error (x : Q) :
  (0 <= x)%Q ->
  (x - (1 # 2) <= inject_Z (round_half_away x))%Q
  /\ (inject_Z (round_half_away x) <= x + (1 # 2))%Q.
Proof.
  intros H0. unfold round_half_away.
  assert (E : Qle_bool 0 x = true) by now apply Qle_bool_iff.
  rewrite E. split.
  - pose proof (Qlt_floor (x + (1 # 2))) as Hlt.
    rewrite inject_Z_plus in Hlt. change (inject_Z 1) with 1%Q in Hlt. lra.
  - apply Qfloor_le.
Qed.

Lemma ROUND_error (x : Q) :
  (0 <= x)%Q ->
  exists q, ROUND (Some x) 2 = Some q
            /\ (x - (1 # 200) <= q)%Q /\ (q <= x + (1 # 200))%Q.
Proof.
  intros H0. unfold ROUND. simpl option_map. eexists. split; [reflexivity|].
  change (pow10 2) with 100%positive.
  destruct (@round_half_away_error (x * inject_Z 100)%Q) as (Hlo & Hhi).
  { apply Qmult_le_0_compat; [assumption|discriminate]. }
  pose proof (Qmake_Qdiv (round_half_away (x * inject_Z 100)) 100) as Hq.
  change (inject_Z (Zpos 100)) with 100%Q in Hq.
  change (inject_Z 100) with 100%Q in *.
  set (z := inject_Z (round_half_away (x * 100))) in *.
  rewrite Hq. split.
  - apply Qle_shift_div_l; [reflexivity|]. lra.
  - apply Qle_shift_div_r; [reflexivity|]. lra.
Qed.

(** X5: the dropout_rate a reached segment returns differs from the exact
    rate dropout_count / users_reached * 100 by at most 0.005. *)
Theorem returned_rate_is_exact_rate_rounded
        (logs : list learning_log) (p_course_id : Z) :
  exists rows,
    Dropout.analyze_course_dropout logs p_course_id = Ok rows
    /\ Forall (fun r =>
                 forall exact,
                   Dropout.exact_rate (Dropout.users_reached r) (Dropout.dropout_count r)
                   = Some exact ->
                   exists q, Dropout.dropout_rate r = Some q
                             /\ (exact - (1 # 200) <= q)%Q
                             /\ (q <= exact + (1 # 200))%Q) rows.
Proof.
  eexists. split; [apply analyze_course_dropout_rows|].
  apply Forall_forall. intros r Hin. apply in_map_iff in Hin.
  destruct Hin as (s & <- & _). simpl. intros exact Hexact. rewrite Hexact.
  apply ROUND_error.
  destruct (Z.of_nat (length (Dropout.reached_users logs p_course_id s)) =? 0) eqn:E.
  - unfold Dropout.exact_rate in Hexact. rewrite E in Hexact. discriminate.
  - destruct (@exact_rate_percentage
                (Z.of_nat (length (Dropout.reached_users logs p_course_id s)))
                (Z.of_nat (length (Dropout.dropout_users logs p_course_id s))))
      as (q & Hq & Hlo & _).
    + split; [lia|apply dropout_users_reached].
    + now apply Z.eqb_neq.
    + rewrite Hq in Hexact. inversion Hexact. now subst.
Qed.

(** X6: the risk level never goes down when the rate goes up: on the ladder
    low, medium, high, critical a larger rate is classified at least as high
    as a smaller one, and a NULL rate is classified lowest. *)
Theorem risk_level_is_monotone (rate rate' : Q) :
  (rate <= rate')%Q ->
  (Risk.severity (Dropout.risk_of_rate (Some rate))
   <= Risk.severity (Dropout.risk_of_rate (Some rate')))%nat
  /\ Risk.severity (Dropout.risk_of_rate None) = 0%nat.
Proof.
  intros Hle. split; [|reflexivity].
  unfold Dropout.risk_of_rate, sql_ge, sql_cmp. rewrite !sql_true_Some.
  destruct (Qle_bool 20 rate) eqn:H20; destruct (Qle_bool 15 rate) eqn:H15;
    destruct (Qle_bool 10 rate) eqn:H10;
    destruct (Qle_bool 20 rate') eqn:H20'; destruct (Qle_bool 15 rate') eqn:H15';
    destruct (Qle_bool 10 rate') eqn:H10';
    try (cbn; lia);
    exfalso;
    repeat match goal with
           | H : Qle_bool _ _ = true |- _ => apply Qle_bool_iff in H
           | H : Qle_bool _ _ = false |- _ => apply Qle_bool_false in H
           end;
    lra.
Qed.

Lemma risk_level_is_monotone_witness :
  (Risk.severity (Dropout.risk_of_rate (Some 12%Q))
   <= Risk.severity (Dropout.risk_of_rate (Some 18%Q)))%nat
  /\ Risk.severity (Dropout.risk_of_rate None) = 0%nat.
Proof.
  apply risk_level_is_monotone. discriminate.
Defined.

(** ** v_course_summary: which courses it lists, and its counts *)

Lemma summary_row_id (db : database) (c : course) :
  CourseSummary.course_id (CourseSummary.summary_row db (CourseSummary.key_of c)) = c_id c.
Proof. reflexivity. Qed.

(** X7: a course has a row in v_course_summary exactly when it is active
    (is_active TRUE); a course whose is_active is FALSE or NULL is left out,
    enrolled or not, and the view never raises. *)
Theorem summary_lists_the_active_courses (db : database) :
  exists rows,
    CourseSummary.v_course_summary db = Ok rows
    /\ forall id,
         (exists r, In r rows /\ CourseSummary.course_id r = id)
         <-> (exists c, In c (courses db) /\ c_id c = id /\ is_active c = Some true).
Proof.
  destruct (v_course_summary_rows db) as (rows & Hok & Hin).
  exists rows. split; [assumption|]. intros id. split.
  - intros (r & Hr & Hid). apply Hin in Hr. destruct Hr as (c & Hc & Ha & ->).
    exists c. rewrite summary_row_id in Hid. auto.
  - intros (c & Hc & Hid & Ha).
    exists (CourseSummary.summary_row db (CourseSummary.key_of c)).
    split; [apply Hin; now exists c|]. now rewrite summary_row_id.
Qed.

Lemma status_users_enrolled (db : database) (cid : Z) (st : string) :
  (length (CourseSummary.users_with_status db cid st)
   <= length (CourseSummary.enrolled_users db cid))%nat.
Proof.
  unfold CourseSummary.users_with_status, CourseSummary.enrolled_users.
  apply nodup_length_incl. intros uid Hin. apply in_map_iff in Hin.
  destruct Hin as (e & <- & He). apply filter_In in He. apply in_map. tauto.
Qed.

Lemma percentage_bounds (n total : Z) :
  0 <= n <= total ->
  match CourseSummary.percentage n total with
  | Some q => total <> 0 /\ (0 <= q)%Q /\ (q <= 100)%Q
  | None => total = 0
  end.
Proof.
  intros Hn. unfold CourseSummary.percentage.
  destruct (total =? 0) eqn:E; [now apply Z.eqb_eq|].
  apply Z.eqb_neq in E.
  destruct (@exact_rate_percentage total n Hn E) as (q & Hq & H0 & H100).
  unfold Dropout.exact_rate in Hq. apply Z.eqb_neq in E. rewrite E in Hq.
  inversion Hq as [Hq']. rewrite Hq'.
  destruct (ROUND_percentage H0 H100) as (q' & -> & Hb).
  apply Z.eqb_neq in E. tauto.
Qed.

(** X8: in every row of v_course_summary the two rates are either both NULL,
    when the course has no enrollment, or both numbers in [0, 100]. *)
Theorem summary_rates_are_percentages (db : database) :
  exists rows,
    CourseSummary.v_course_summary db = Ok rows
    /\ Forall (fun r =>
                 match CourseSummary.completion_rate r, CourseSummary.dropout_rate r with
                 | Some c, Some d =>
                     CourseSummary.total_enrollments r <> 0
                     /\ (0 <= c)%Q /\ (c <= 100)%Q /\ (0 <= d)%Q /\ (d <= 100)%Q
                 | None, None => CourseSummary.total_enrollments r = 0
                 | _, _ => False
                 end) rows.
Proof.
  destruct (v_course_summary_rows db) as (rows & Hok & Hin).
  exists rows. split; [assumption|].
  apply Forall_forall. intros r Hr. apply Hin in Hr.
  destruct Hr as (c & _ & _ & ->).
  unfold CourseSummary.key_of, CourseSummary.summary_row. simpl.
  pose proof (@percentage_bounds
                (Z.of_nat (length (CourseSummary.users_with_status db (c_id c) "completed")))
                (Z.of_nat (length (CourseSummary.enrolled_users db (c_id c))))) as Hc.
  pose proof (@percentage_bounds
                (Z.of_nat (length (CourseSummary.users_with_status db (c_id c) "dropped")))
                (Z.of_nat (length (CourseSummary.enrolled_users db (c_id c))))) as Hd.
  pose proof (status_users_enrolled db (c_id c) "completed").
  pose proof (status_users_enrolled db (c_id c) "dropped").
  destruct (CourseSummary.percentage
              (Z.of_nat (length (CourseSummary.users_with_status db (c_id c) "completed")))
              _);
    destruct (CourseSummary.percentage
                (Z.of_nat (length (CourseSummary.users_with_status db (c_id c) "dropped")))
                _);
    try (specialize (Hc ltac:(lia))); try (specialize (Hd ltac:(lia)));
    intuition.
Qed.

Lemma filter_three_way (A : Type) (a b c : A -> bool) (l : list A) :
  (forall x, In x l ->
             (a x = true -> b x = false /\ c x = false)
             /\ (b x = true -> c x = false)) ->
  (length (filter a l) + length (filter b l) + length (filter c l) <= length l)%nat
  /\ ((forall x, In x l -> a x = true \/ b x = true \/ c x = true) ->
      (length (filter a l) + length (filter b l) + length (filter c l))%nat = length l).
Proof.
  induction l as [|x t IH]; intros Hex; [simpl; auto|].
  destruct IH as (IHle & IHeq); [intros y Hy; apply Hex; now right|].
  destruct (Hex x (or_introl eq_refl)) as (Ha & Hb).
  simpl. split.
  - destruct (a x) eqn:Ea; destruct (b x) eqn:Eb; destruct (c x) eqn:Ec; simpl;
      try lia; intuition discriminate.
  - intros Hall.
    assert (IHeq' : (length (filter a t) + length (filter b t)
                     + length (filter c t))%nat = length t)
      by (apply IHeq; intros y Hy; apply Hall; now right).
    destruct (Hall x (or_introl eq_refl)) as [E|[E|E]];
      destruct (a x) eqn:Ea; destruct (b x) eqn:Eb; destruct (c x) eqn:Ec; simpl;
      try lia; try discriminate; intuition discriminate.
Qed.

Lemma has_status_some (st : string) (e : enrollment) :
  CourseSummary.has_status st e = true <-> status e = Some st.
Proof.
  unfold CourseSummary.has_status. destruct (status e) as [x|].
  - rewrite String.eqb_eq. split; congruence.
  - split; discriminate.
Qed.

(** X9: under the constraint unique_user_course, completions, dropouts and
    active_learners of a summary row never add up to more than
    total_enrollments, and they add up to exactly total_enrollments when every
    enrollment of the course has one of the statuses active, completed,
    dropped. *)
Theorem summary_statuses_partition (db : database) :
  unique_user_course db ->
  exists rows,
    CourseSummary.v_course_summary db = Ok rows
    /\ Forall (fun r =>
                 CourseSummary.completions r + CourseSummary.dropouts r
                 + CourseSummary.active_learners r
                 <= CourseSummary.total_enrollments r
                 /\ ((forall e,
                         In e (CourseSummary.course_enrollments
                                 db (CourseSummary.course_id r)) ->
                         status e = Some "completed"%string
                         \/ status e = Some "dropped"%string
                         \/ status e = Some "active"%string) ->
                     CourseSummary.completions r + CourseSummary.dropouts r
                     + CourseSummary.active_learners r
                     = CourseSummary.total_enrollments r)) rows.
Proof.
  intros Huniq.
  destruct (v_course_summary_rows db) as (rows & Hok & Hin).
  exists rows. split; [assumption|].
  apply Forall_forall. intros r Hr. apply Hin in Hr.
  destruct Hr as (c & _ & _ & ->).
  unfold CourseSummary.key_of, CourseSummary.summary_row. simpl.
  unfold CourseSummary.users_with_status, CourseSummary.enrolled_users.
  pose proof (unique_enrollment_users (c_id c) Huniq) as Hnd.
  rewrite !nodup_length_unique, !length_map
    by (try apply NoDup_map_filter; assumption).
  destruct (@filter_three_way _ (CourseSummary.has_status "completed")
              (CourseSummary.has_status "dropped")
              (CourseSummary.has_status "active")
              (CourseSummary.course_enrollments db (c_id c))) as (Hle & Heq).
  { intros e _. split.
    - intros H. apply has_status_some in H. split.
      + destruct (CourseSummary.has_status "dropped" e) eqn:E; [|reflexivity].
        apply has_status_some in E. rewrite H in E. discriminate.
      + destruct (CourseSummary.has_status "active" e) eqn:E; [|reflexivity].
        apply has_status_some in E. rewrite H in E. discriminate.
    - intros H. apply has_status_some in H.
      destruct (CourseSummary.has_status "active" e) eqn:E; [|reflexivity].
      apply has_status_some in E. rewrite H in E. discriminate. }
  assert (Htotal : length (nodup Z.eq_dec
                             (map e_user_id
                                  (CourseSummary.course_enrollments db (c_id c))))
                   = length (CourseSummary.course_enrollments db (c_id c)))
    by (rewrite nodup_length_unique, length_map; [reflexivity|assumption]).
  rewrite Htotal. split; [lia|]. intros Hall.
  rewrite <- Heq; [lia|].
  intros e He. rewrite !has_status_some. now apply Hall.
Qed.

Lemma summary_statuses_partition_witness :
  exists rows,
    CourseSummary.v_course_summary Sample.small_db = Ok rows
    /\ Forall (fun r =>
                 CourseSummary.completions r + CourseSummary.dropouts r
                 + CourseSummary.active_learners r
                 <= CourseSummary.total_enrollments r
                 /\ ((forall e,
                         In e (CourseSummary.course_enrollments
                                 Sample.small_db (CourseSummary.course_id r)) ->
                         status e = Some "completed"%string
                         \/ status e = Some "dropped"%string
                         \/ status e = Some "active"%string) ->
                     CourseSummary.completions r + CourseSummary.dropouts r
                     + CourseSummary.active_learners r
                     = CourseSummary.total_enrollments r)) rows.
Proof.
  apply summary_statuses_partition.
  unfold unique_user_course. simpl.
  repeat (constructor; [simpl; intuition discriminate|]). constructor.
Defined.

(** ** v_dropout_by_segment: its rows account for every joined log *)

Section SegmentViewRows.

Import SegmentView.

Variable text_leb : string -> string -> bool.
Variable db : database.

Lemma v_dropout_by_segment_ordered :
  v_dropout_by_segment text_leb db
  = Ok (order_by (row_leb text_leb)
          (map band_row (group_by key_eq_dec key_of (view_join db)))).
Proof.
  unfold v_dropout_by_segment.
  rewrite (mapM_ok select_row band_row); [reflexivity|].
  intros (k & g) Hin. now apply (@select_row_band db).
Qed.

Lemma count_dropout_le (g : list (course * learning_log)) :
  0 <= count_dropout g <= Z.of_nat (length g).
Proof.
  unfold count_dropout. split; [lia|]. apply inj_le. apply filter_length_le.
Qed.

End SegmentViewRows.

(** X10: the view divides by COUNT( * ) without a guard and yet never raises:
    every row stands for at least one log, its dropout_count lies between 0
    and total_logs, and its dropout_rate is a number (never NULL) in
    [0, 100]. *)
Theorem view_rows_are_well_formed
        (text_leb : string -> string -> bool) (db : database) :
  exists bands,
    SegmentView.v_dropout_by_segment text_leb db = Ok bands
    /\ Forall (fun b =>
                 1 <= SegmentView.total_logs b
                 /\ 0 <= SegmentView.dropout_count b <= SegmentView.total_logs b
                 /\ exists q, SegmentView.dropout_rate b = Some q
                              /\ (0 <= q)%Q /\ (q <= 100)%Q) bands.
Proof.
  eexists. split; [apply v_dropout_by_segment_ordered|].
  apply Forall_forall. intros b Hb. apply in_order_by in Hb.
  apply in_map_iff in Hb. destruct Hb as ((k & g) & <- & Hg).
  destruct (group_by_nonempty _ _ _ _ _ Hg) as (a & Ha).
  destruct k as [[code ttl] band]. unfold SegmentView.band_row. simpl.
  pose proof (count_dropout_le g) as Hc.
  assert (Hlen : 1 <= Z.of_nat (length g)) by (destruct g; [destruct Ha|simpl; lia]).
  split; [assumption|]. split; [assumption|].
  destruct (@exact_rate_percentage (Z.of_nat (length g)) (SegmentView.count_dropout g))
    as (q & Hq & H0 & H100); [assumption|lia|].
  unfold Dropout.exact_rate in Hq.
  assert (E : (Z.of_nat (length g) =? 0) = false) by (apply Z.eqb_neq; lia).
  rewrite E in Hq. inversion Hq as [Hq']. rewrite Hq'.
  apply ROUND_percentage; assumption.
Qed.

Section Partition.

Variables A K : Type.
Variable K_eq_dec : forall x y : K, {x = y} + {x <> y}.
Variable key : A -> K.

Lemma list_sum_indicator (x : K) (ks : list K) :
  NoDup ks -> In x ks ->
  list_sum (map (fun k => if K_eq_dec x k then 1 else 0)%nat ks) = 1%nat.
Proof.
  induction ks as [|k t IH]; intros Hnd Hin; [destruct Hin|].
  inversion Hnd as [|? ? Hk Ht]; subst. simpl.
  destruct (K_eq_dec x k) as [->|Hneq].
  - assert (Hzero : list_sum (map (fun k0 => if K_eq_dec k k0 then 1 else 0)%nat t) = 0%nat).
    { clear IH Ht Hnd Hin. induction t as [|y t' IHt]; [reflexivity|]. simpl.
      destruct (K_eq_dec k y) as [->|_]; [exfalso; apply Hk; now left|].
      apply IHt. intros H. apply Hk. now right. }
    now rewrite Hzero.
  - destruct Hin as [->|Hin]; [congruence|]. now rewrite IH.
Qed.

(** Groups split the rows: their sizes add up to the number of rows. *)
Lemma groups_cover_rows (ks : list K) (rows : list A) :
  NoDup ks -> (forall a, In a rows -> In (key a) ks) ->
  list_sum (map (fun k => length (filter (key_is K_eq_dec key k) rows)) ks)
  = length rows.
Proof.
  intros Hnd. induction rows as [|a t IH]; intros Hkeys.
  - simpl. clear Hnd Hkeys. induction ks as [|k ks' IHk]; [reflexivity|].
    simpl. apply IHk.
  - assert (Hsplit :
      map (fun k => length (filter (key_is K_eq_dec key k) (a :: t))) ks
      = map (fun k => ((if K_eq_dec (key a) k then 1 else 0)
                       + length (filter (key_is K_eq_dec key k) t))%nat) ks).
    { apply map_ext. intros k. simpl. unfold key_is at 1.
      destruct (K_eq_dec (key a) k); reflexivity. }
    rewrite Hsplit.
    assert (Hadd : forall (f g : K -> nat) (l : list K),
               list_sum (map (fun k => (f k + g k)%nat) l)
               = (list_sum (map f l) + list_sum (map g l))%nat).
    { intros f g l. induction l as [|k l' IHl]; simpl; [reflexivity|].
      rewrite IHl. lia. }
    rewrite Hadd, list_sum_indicator, IH; try assumption.
    + reflexivity.
    + intros b Hb. apply Hkeys. now right.
    + apply Hkeys. now left.
Qed.

End Partition.

Lemma Zsum_perm (l l' : list Z) :
  Permutation l l' -> fold_right Z.add 0 l = fold_right Z.add 0 l'.
Proof.
  induction 1; simpl; lia.
Qed.

Lemma Zsum_lengths (A : Type) (f : A -> nat) (l : list A) :
  fold_right Z.add 0 (map (fun x => Z.of_nat (f x)) l) = Z.of_nat (list_sum (map f l)).
Proof.
  induction l as [|x t IH]; simpl; [reflexivity|]. rewrite IH. lia.
Qed.

(** X11: the rows of v_dropout_by_segment count every joined log exactly
    once: their total_logs add up to the number of (course, log) pairs of the
    join, and their dropout_count to the number of those flagged as
    dropout. *)
Theorem view_counts_every_log_once
        (text_leb : string -> string -> bool) (db : database) :
  exists bands,
    SegmentView.v_dropout_by_segment text_leb db = Ok bands
    /\ fold_right Z.add 0 (map SegmentView.total_logs bands)
       = Z.of_nat (length (SegmentView.view_join db))
    /\ fold_right Z.add 0 (map SegmentView.dropout_count bands)
       = SegmentView.count_dropout (SegmentView.view_join db).
Proof.
  eexists. split; [apply v_dropout_by_segment_ordered|].
  set (groups := group_by SegmentView.key_eq_dec SegmentView.key_of
                          (SegmentView.view_join db)).
  assert (Hkeys : forall flag : course * learning_log -> bool,
    list_sum (map (fun k => length (filter (key_is SegmentView.key_eq_dec
                                                   SegmentView.key_of k)
                                           (filter flag (SegmentView.view_join db))))
                  (nodup SegmentView.key_eq_dec
                         (map SegmentView.key_of (SegmentView.view_join db))))
    = length (filter flag (SegmentView.view_join db))).
  { intros flag. apply groups_cover_rows; [apply NoDup_nodup|].
    intros a Ha. apply nodup_In. apply in_map. apply filter_In in Ha. tauto. }
  split.
  - rewrite (Zsum_perm (Permutation_map SegmentView.total_logs
                          (order_by_perm (SegmentView.row_leb text_leb)
                                         (map SegmentView.band_row groups)))).
    rewrite map_map.
    rewrite (map_ext (fun kg => SegmentView.total_logs (SegmentView.band_row kg))
                     (fun kg => Z.of_nat (length (snd kg))))
      by (intros ((? & ?) & ?); destruct p; reflexivity).
    rewrite Zsum_lengths. f_equal. unfold groups, group_by. rewrite map_map. simpl.
    apply groups_cover_rows; [apply NoDup_nodup|].
    intros a Ha. apply nodup_In. now apply in_map.
  - rewrite (Zsum_perm (Permutation_map SegmentView.dropout_count
                          (order_by_perm (SegmentView.row_leb text_leb)
                                         (map SegmentView.band_row groups)))).
    rewrite map_map.
    set (flag := fun cl : course * learning_log =>
                   sql_true (sql_eq_bool (is_dropout (snd cl)) (Some true))).
    rewrite (map_ext (fun kg => SegmentView.dropout_count (SegmentView.band_row kg))
                     (fun kg => Z.of_nat (length (filter flag (snd kg)))))
      by (intros ((? & ?) & ?); destruct p; reflexivity).
    rewrite Zsum_lengths. unfold SegmentView.count_dropout. fold flag. f_equal.
    unfold groups, group_by. rewrite map_map. simpl.
    rewrite <- (Hkeys flag). f_equal. apply map_ext. intros k. f_equal.
    clear. induction (SegmentView.view_join db) as [|a t IH]; [reflexivity|].
    simpl. destruct (key_is SegmentView.key_eq_dec SegmentView.key_of k a) eqn:Ek;
      destruct (flag a) eqn:Ef; simpl; rewrite ?Ek, ?Ef, IH; reflexivity.
Qed.

(** ** DropoutPage.tsx: the labels and the area chart *)

Section ChartLabels.

Import DropoutPage.

Lemma leading_digits_prefix (digits rest : string) :
  (forall c, In c (list_ascii_of_string digits) -> is_digit c = true) ->
  leading_digits (digits ++ rest) = (digits ++ leading_digits rest)%string.
Proof.
  induction digits as [|c t IH]; intros Hall; simpl; [reflexivity|].
  rewrite (Hall c) by now left. rewrite IH; [reflexivity|].
  intros d Hd. apply Hall. now right.
Qed.

Lemma leading_digits_closed (label : string) :
  leading_digits (leading_digits label ++ "%") = leading_digits label.
Proof.
  induction label as [|c t IH]; simpl; [reflexivity|].
  destruct (is_digit c) eqn:E; simpl; [|reflexivity].
  now rewrite E, IH.
Qed.

End ChartLabels.

(** X12: a label that begins with a number (the segment labels 0-10%,
    10-20%, ...) is shortened to that number followed by a percent sign:
    the regular expression takes every leading digit and nothing more. *)
Theorem simpleLabel_keeps_leading_number (digits rest : string)
        (Hdigits : forall c, In c (list_ascii_of_string digits) ->
                             DropoutPage.is_digit c = true)
        (Hsome : digits <> EmptyString)
        (Hrest : forall c t, rest = String c t -> DropoutPage.is_digit c = false) :
  DropoutPage.simpleLabel (digits ++ rest) = (digits ++ "%")%string.
Proof.
  unfold DropoutPage.simpleLabel. rewrite leading_digits_prefix by assumption.
  assert (Hnone : DropoutPage.leading_digits rest = EmptyString).
  { destruct rest as [|c t]; [reflexivity|]. simpl.
    now rewrite (Hrest c t eq_refl). }
  rewrite Hnone.
  assert (Hnil : forall s : string, (s ++ "")%string = s).
  { induction s as [|c t IH]; simpl; [reflexivity|now rewrite IH]. }
  rewrite Hnil. destruct digits; [congruence|reflexivity].
Qed.

Lemma simpleLabel_keeps_leading_number_witness :
  DropoutPage.simpleLabel "10-20%" = "10%"%string.
Proof.
  apply (@simpleLabel_keeps_leading_number "10" "-20%").
  - intros c [<-|[<-|[]]]; reflexivity.
  - discriminate.
  - intros c t H. inversion H. reflexivity.
Defined.

(** X13: shortening a label twice changes nothing more, and a label without a
    leading digit is left as it is. *)
Theorem simpleLabel_idempotent (label : string) :
  DropoutPage.simpleLabel (DropoutPage.simpleLabel label)
  = DropoutPage.simpleLabel label
  /\ (DropoutPage.leading_digits label = EmptyString ->
      DropoutPage.simpleLabel label = label).
Proof.
  unfold DropoutPage.simpleLabel. split.
  - destruct (DropoutPage.leading_digits label) as [|c t] eqn:E.
    + now rewrite E.
    + rewrite <- E, leading_digits_closed, E. reflexivity.
  - intros E. now rewrite E.
Qed.

Section AreaChart.

Import DropoutPage DropoutCharts.

Lemma inject_Z_nonzero (m : Z) : m <> 0 -> Qeq_bool (inject_Z m) 0 = false.
Proof.
  intros Hm. destruct (Qeq_bool (inject_Z m) 0) eqn:E; [|reflexivity].
  apply Qeq_bool_eq in E. unfold Qeq in E. simpl in E. lia.
Qed.


Lemma pointColor_of_peak (m : Z) : pointColor (Some m) m = "#dc3545"%string.
Proof.
  unfold pointColor, normalized, Js.div.
  destruct (Z.eq_dec m 0) as [->|Hm]; [reflexivity|].
  rewrite (inject_Z_nonzero Hm). simpl.
  assert (Hone : (inject_Z m / inject_Z m == 1)%Q).
  { apply Qmult_inv_r. intros E. unfold Qeq in E. simpl in E. lia. }
  assert (Hge : forall q, (q < 1)%Q -> Qlt_bool (inject_Z m / inject_Z m) q = false).
  { intros q Hq. destruct (Qlt_bool (inject_Z m / inject_Z m) q) eqn:E; [|reflexivity].
    apply Qlt_bool_true in E. rewrite Hone in E.
    exfalso. apply (Qlt_irrefl q). now apply Qlt_trans with 1%Q. }
  rewrite !Hge by reflexivity. reflexivity.
Qed.

End AreaChart.



Section AreaChartData.

Import DropoutPage DropoutCharts.

Variable chartData : option ChartData.
Hypothesis Hready : isChartDataReady chartData = true.

Lemma ready_rates_nonempty : dropoutRates chartData <> [].
Proof.
  unfold isChartDataReady in Hready. destruct chartData as [cd|]; [|discriminate].
  apply andb_true_iff in Hready. destruct Hready as (_ & Hlen).
  intros E. rewrite E in Hlen. discriminate.
Qed.

Lemma ready_maximum :
  exists m, maxDropoutRate chartData = Some m
            /\ In m (dropoutRates chartData)
            /\ forall x, In x (dropoutRates chartData) -> x <= m.
Proof.
  unfold maxDropoutRate. rewrite Hready.
  apply Math_max_spec, ready_rates_nonempty.
Qed.

Lemma ready_area_chart :
  getAreaChartData chartData
  = {| area_labels := simpleLabels chartData;
       area_datasets :=
         [ {| area_label := "이탈률";
              area_data := dropoutRates chartData;
              pointBackgroundColor :=
                map (pointColor (maxDropoutRate chartData))
                    (dropoutRates chartData) |} ] |}.
Proof.
  unfold getAreaChartData. now rewrite Hready.
Qed.

End AreaChartData.

(** X15: when the chart data is ready the area chart has one dataset, with
    one colour per rate, and the point of the peak segment (the one the page
    reports as the peak) is always drawn in red (#dc3545), whatever the
    rates are. *)
Theorem area_chart_peak_point_is_red
        (chartData : option DropoutPage.ChartData)
        (Hready : DropoutPage.isChartDataReady chartData = true) :
  exists ds,
    DropoutCharts.area_datasets (DropoutCharts.getAreaChartData chartData) = [ds]
    /\ DropoutCharts.area_labels (DropoutCharts.getAreaChartData chartData)
       = DropoutPage.simpleLabels chartData
    /\ DropoutCharts.area_data ds = DropoutPage.dropoutRates chartData
    /\ length (DropoutCharts.pointBackgroundColor ds)
       = length (DropoutCharts.area_data ds)
    /\ DropoutPage.at_index (DropoutCharts.pointBackgroundColor ds)
                            (DropoutPage.peakIndex chartData)
       = Some "#dc3545"%string.
Proof.
  rewrite (@ready_area_chart _ Hready). eexists. split; [reflexivity|]. simpl.
  split; [reflexivity|]. split; [reflexivity|]. split; [apply length_map|].
  destruct (@ready_maximum _ Hready) as (m & Hmax & Hin & _).
  unfold DropoutPage.peakIndex, DropoutPage.indexOf. rewrite Hmax.
  destruct (@indexOf_from_first _ m 0 Hin) as (k & Hk & Hnth & _).
  rewrite Hk. unfold DropoutPage.at_index.
  assert (E : (0 + Z.of_nat k <? 0) = false) by (apply Z.ltb_ge; lia).
  rewrite E. replace (Z.to_nat (0 + Z.of_nat k)) with k by lia.
  rewrite nth_error_map, Hnth. simpl. now rewrite pointColor_of_peak.
Qed.

Lemma area_chart_peak_point_is_red_witness :
  exists ds,
    DropoutCharts.area_datasets
      (DropoutCharts.getAreaChartData (Some Sample.chart)) = [ds]
    /\ DropoutCharts.area_labels
         (DropoutCharts.getAreaChartData (Some Sample.chart))
       = DropoutPage.simpleLabels (Some Sample.chart)
    /\ DropoutCharts.area_data ds = DropoutPage.dropoutRates (Some Sample.chart)
    /\ length (DropoutCharts.pointBackgroundColor ds)
       = length (DropoutCharts.area_data ds)
    /\ DropoutPage.at_index (DropoutCharts.pointBackgroundColor ds)
                            (DropoutPage.peakIndex (Some Sample.chart))
       = Some "#dc3545"%string.
Proof.
  apply (@area_chart_peak_point_is_red (Some Sample.chart)). reflexivity.
Defined.

(** X16: when the chart data is ready and every rounded rate is 0 (nobody
    drops out), every point of the area chart is drawn in red: 0 / 0 is NaN,
    which is below none of the thresholds. *)
Theorem area_chart_without_dropout_is_red
        (chartData : option DropoutPage.ChartData)
        (Hready : DropoutPage.isChartDataReady chartData = true)
        (Hcalm : forall rate, In rate (DropoutPage.dropoutRates chartData) -> rate = 0) :
  forall ds colour,
    In ds (DropoutCharts.area_datasets (DropoutCharts.getAreaChartData chartData)) ->
    In colour (DropoutCharts.pointBackgroundColor ds) ->
    colour = "#dc3545"%string.
Proof.
  intros ds colour Hds Hcolour. rewrite (@ready_area_chart _ Hready) in Hds.
  simpl in Hds. destruct Hds as [<-|[]]. simpl in Hcolour.
  apply in_map_iff in Hcolour. destruct Hcolour as (rate & <- & Hrate).
  destruct (@ready_maximum _ Hready) as (m & Hmax & Hin & _).
  rewrite Hmax, (Hcalm _ Hrate), (Hcalm _ Hin). apply pointColor_of_peak.
Qed.

Lemma area_chart_without_dropout_is_red_witness :
  DropoutPage.isChartDataReady (Some MoreSamples.calm_chart) = true
  /\ forall ds colour,
       In ds (DropoutCharts.area_datasets
                (DropoutCharts.getAreaChartData (Some MoreSamples.calm_chart))) ->
       In colour (DropoutCharts.pointBackgroundColor ds) ->
       colour = "#dc3545"%string.
Proof.
  split; [reflexivity|].
  apply (@area_chart_without_dropout_is_red (Some MoreSamples.calm_chart)).
  - reflexivity.
  - intros rate Hin. vm_compute in Hin. destruct Hin as [<-|[<-|[]]]; reflexivity.
Defined.

(** ** DropoutPage.tsx: the doughnut chart and its legend *)

Section Doughnut.

Import DropoutPage DropoutCharts.








End Doughnut.

(** X17: the doughnut chart shows the first six reasons of the list, in the
    order of the list: their names as labels and their counts (not their
    percentages) as data, never more slices than there are colours; the
    legend names the same reasons. *)
Theorem doughnut_shows_first_six (reasons : list DropoutPage.DropoutReason) :
  DropoutCharts.doughnut_labels (DropoutCharts.getDoughnutData reasons)
  = map DropoutPage.reason (firstn 6 reasons)
  /\ DropoutCharts.doughnut_data (DropoutCharts.getDoughnutData reasons)
     = map DropoutPage.count (firstn 6 reasons)
  /\ length (DropoutCharts.doughnut_data (DropoutCharts.getDoughnutData reasons))
     = Nat.min 6 (length reasons)
  /\ (length (DropoutCharts.doughnut_data (DropoutCharts.getDoughnutData reasons))
      <= length (DropoutCharts.doughnut_backgroundColor
                   (DropoutCharts.getDoughnutData reasons)))%nat
  /\ map fst (DropoutCharts.doughnutLegend reasons)
     = DropoutCharts.doughnut_labels (DropoutCharts.getDoughnutData reasons).
Proof.
  unfold DropoutCharts.getDoughnutData, DropoutCharts.doughnutLegend,
    DropoutCharts.slice0, DropoutPage.reasonsWithPercentage.
  cbn [DropoutCharts.doughnut_labels DropoutCharts.doughnut_data
       DropoutCharts.doughnut_backgroundColor].
  rewrite firstn_map, !map_map. cbn [DropoutPage.reason DropoutPage.count fst].
  assert (Hlen : length (map DropoutPage.count (firstn 6 reasons))
                 = Nat.min 6 (length reasons))
    by (rewrite length_map; apply length_firstn).
  repeat split; try reflexivity; try assumption.
  rewrite length_map, length_firstn. unfold DropoutCharts.doughnutColors.
  simpl length. lia.
Qed.



(** ** DropoutPage.tsx: the bars of the danger zones *)

Section DangerBars.

Import DropoutCharts.


Lemma Qeq_bool_positive (m : Q) : (0 < m)%Q -> Qeq_bool m 0 = false.
Proof.
  intros Hm. destruct (Qeq_bool m 0) eqn:E; [|reflexivity].
  apply Qeq_bool_eq in E. rewrite E in Hm. now apply Qlt_irrefl in Hm.
Qed.

End DangerBars.



(** ** LevelTestPage: the checkboxes of the known concepts *)

Section Checkboxes.

Import LevelTestPage.

Lemma includes_false (l : list string) (concept : string) :
  includes l concept = false ->
  filter (fun c => negb (String.eqb c concept)) l = l.
Proof.
  unfold includes. induction l as [|c t IH]; intros H; simpl in *; [reflexivity|].
  apply orb_false_iff in H. destruct H as (Hc & Ht).
  rewrite String.eqb_sym, Hc. simpl. now rewrite IH.
Qed.

Lemma includes_filter (l : list string) (concept c : string) :
  includes (filter (fun x => negb (String.eqb x concept)) l) c
  = if String.eqb c concept then false else includes l c.
Proof.
  unfold includes. induction l as [|x t IH]; simpl.
  - now destruct (String.eqb c concept).
  - destruct (String.eqb x concept) eqn:Ex; simpl.
    + rewrite IH. apply String.eqb_eq in Ex. subst x.
      destruct (String.eqb c concept); reflexivity.
    + rewrite IH. destruct (String.eqb c concept) eqn:Ec; [|reflexivity].
      apply String.eqb_eq in Ec. subst c. rewrite String.eqb_sym, Ex. reflexivity.
Qed.

Lemma includes_app (l : list string) (concept c : string) :
  includes (l ++ [concept]) c = includes l c || String.eqb c concept.
Proof.
  unfold includes. rewrite existsb_app. simpl. now rewrite orb_false_r.
Qed.

End Checkboxes.

(** X20: after a checkbox changes, the list of known concepts holds the
    concept exactly when the box is checked, every other concept is in the
    list exactly when it was before, and no other field of the form
    changes. *)
Theorem checkbox_state_follows_the_change
        (concept : string) (checked : bool)
        (prev : LevelTestPage.LevelTestRequest) :
  let next := LevelTestPage.handleConceptChange concept checked prev in
  LevelTestPage.includes (LevelTestPage.known_concepts next) concept = checked
  /\ (forall c, c <> concept ->
        LevelTestPage.includes (LevelTestPage.known_concepts next) c
        = LevelTestPage.includes (LevelTestPage.known_concepts prev) c)
  /\ LevelTestPage.education next = LevelTestPage.education prev
  /\ LevelTestPage.daily_study_hours next = LevelTestPage.daily_study_hours prev
  /\ LevelTestPage.desired_role next = LevelTestPage.desired_role prev
  /\ LevelTestPage.has_project_experience next
     = LevelTestPage.has_project_experience prev
  /\ LevelTestPage.coding_months next = LevelTestPage.coding_months prev.
Proof.
  intros next. unfold next, LevelTestPage.handleConceptChange. simpl.
  split; [|split; [|repeat split]].
  - destruct checked.
    + rewrite includes_app, String.eqb_refl. apply orb_true_r.
    + rewrite includes_filter, String.eqb_refl. reflexivity.
  - intros c Hc. apply String.eqb_neq in Hc. destruct checked.
    + rewrite includes_app, Hc. apply orb_false_r.
    + rewrite includes_filter, Hc. reflexivity.
Qed.

(** X21: checking a concept that was not in the list and then unchecking it
    gives back the form as it was; unchecking removes every occurrence. *)
Theorem uncheck_undoes_check
        (concept : string) (prev : LevelTestPage.LevelTestRequest)
        (Hnew : LevelTestPage.includes (LevelTestPage.known_concepts prev) concept
                = false) :
  LevelTestPage.handleConceptChange concept false
    (LevelTestPage.handleConceptChange concept true prev) = prev.
Proof.
  destruct prev as [edu hours known role project months]. simpl in Hnew.
  unfold LevelTestPage.handleConceptChange. simpl. f_equal.
  rewrite filter_app, (includes_false _ _ Hnew). simpl.
  rewrite String.eqb_refl. simpl. apply app_nil_r.
Qed.

Lemma uncheck_undoes_check_witness :
  LevelTestPage.handleConceptChange "git" false
    (LevelTestPage.handleConceptChange "git" true MoreSamples.form)
  = MoreSamples.form.
Proof.
  apply (@uncheck_undoes_check "git" MoreSamples.form). reflexivity.
Defined.

(** ** services/api.ts: what a result of fetchApi says about the response *)

Section FetchApiResults.

Variables JSON RequestInit Rejection : Type.
Variable fetch : string -> option RequestInit -> Rejection + Api.Response JSON Rejection.
Variable url : string.
Variable options : option RequestInit.

(** X22: the wrapper returns a value only for a response with ok = true
    whose body parsed to that value, and it throws an ApiError only for a
    response with ok = false, whose status and statusText the error carries;
    what the wrapper does with a response with ok = false does not depend on
    the body of that response. *)
Theorem fetchApi_result_tells_the_response :
  (forall data,
      Api.fetchApi fetch url options = Api.Fulfilled data
      <-> exists response,
            fetch url options = inr response
            /\ Api.ok response = true /\ Api.json response = inr data)
  /\ (forall message status statusText,
        Api.fetchApi fetch url options
        = Api.Rejected (Api.ApiError message status statusText)
        <-> exists response,
              fetch url options = inr response
              /\ Api.ok response = false
              /\ status = Api.status response
              /\ statusText = Api.statusText response
              /\ message = ("API 요청 실패: " ++ statusText)%string)
  /\ (forall response body,
        fetch url options = inr response -> Api.ok response = false ->
        Api.fetchApi
          (fun _ _ => inr {| Api.ok := Api.ok response;
                             Api.status := Api.status response;
                             Api.statusText := Api.statusText response;
                             Api.json := body |})
          url options
        = Api.fetchApi fetch url options).
Proof.
  unfold Api.fetchApi. split; [|split].
  - intros data. split.
    + destruct (fetch url options) as [e|response]; simpl; [discriminate|].
      destruct (Api.ok response) eqn:Hok; simpl; [|discriminate].
      destruct (Api.json response) as [e|body] eqn:Hjson; simpl; [discriminate|].
      intros H. inversion H. subst body. now exists response.
    + intros (response & -> & Hok & Hjson). simpl. now rewrite Hok, Hjson.
  - intros message status statusText. split.
    + destruct (fetch url options) as [e|response]; simpl; [discriminate|].
      destruct (Api.ok response) eqn:Hok; simpl.
      * destruct (Api.json response) as [e|body]; simpl; discriminate.
      * intros H. inversion H. subst. exists response.
        split; [reflexivity|]. split; [assumption|]. repeat split.
    + intros (response & -> & Hok & -> & -> & ->). simpl. now rewrite Hok.
  - intros response body -> Hok. simpl. now rewrite Hok.
Qed.

End FetchApiResults.

(** ** CoursesPage.tsx: the funnel and the mini doughnuts *)

Section CoursesPageFacts.

Import CoursesPage.

Lemma funnelMax_nonzero (funnel_data : option (list FunnelStep)) :
  Qeq_bool (funnelMax funnel_data) 0 = false.
Proof.
  unfold funnelMax. destruct funnel_data as [[|step rest]|]; try reflexivity.
  destruct (Qeq_bool (count step) 0) eqn:E; [reflexivity|assumption].
Qed.

Lemma widthPercents_finite (funnel_data : list FunnelStep) :
  widthPercents funnel_data
  = map (fun step => Js.Finite (count step / funnelMax (Some funnel_data) * 100))
        funnel_data.
Proof.
  unfold widthPercents. apply map_ext. intros step.
  unfold Js.div. now rewrite funnelMax_nonzero.
Qed.

End CoursesPageFacts.


(** X24: when the first step of the funnel has a positive count and no step
    has a negative count or more than the first, the first bar fills the
    track and every bar has a width between 0 and 100. *)
Theorem funnel_widths_within_the_track
        (first : CoursesPage.FunnelStep) (rest : list CoursesPage.FunnelStep)
        (Hfirst : (0 < CoursesPage.count first)%Q)
        (Hrest : forall step, In step rest ->
                   (0 <= CoursesPage.count step)%Q
                   /\ (CoursesPage.count step <= CoursesPage.count first)%Q) :
  exists w ws,
    CoursesPage.widthPercents (first :: rest) = Js.Finite w :: map Js.Finite ws
    /\ (w == 100)%Q
    /\ forall q, In q ws -> (0 <= q)%Q /\ (q <= 100)%Q.
Proof.
  rewrite widthPercents_finite.
  assert (Hmax : CoursesPage.funnelMax (Some (first :: rest)) = CoursesPage.count first).
  { unfold CoursesPage.funnelMax. now rewrite Qeq_bool_positive. }
  rewrite Hmax. simpl.
  exists (CoursesPage.count first / CoursesPage.count first * 100)%Q.
  exists (map (fun step => CoursesPage.count step / CoursesPage.count first * 100)%Q rest).
  split; [now rewrite map_map|]. split.
  - field. intros H0. rewrite H0 in Hfirst. now apply Qlt_irrefl in Hfirst.
  - intros q Hq. apply in_map_iff in Hq. destruct Hq as (step & <- & Hstep).
    destruct (Hrest step Hstep) as (Hlow & Hhigh).
    assert (H0 : (0 <= CoursesPage.count step / CoursesPage.count first)%Q).
    { apply Qle_shift_div_l; [assumption|]. lra. }
    assert (H1 : (CoursesPage.count step / CoursesPage.count first <= 1)%Q).
    { apply Qle_shift_div_r; [assumption|]. lra. }
    split; lra.
Qed.

Lemma funnel_widths_within_the_track_witness :
  exists w ws,
    CoursesPage.widthPercents MoreSamples.funnel = Js.Finite w :: map Js.Finite ws
    /\ (w == 100)%Q
    /\ forall q, In q ws -> (0 <= q)%Q /\ (q <= 100)%Q.
Proof.
  unfold MoreSamples.funnel. apply funnel_widths_within_the_track.
  - vm_compute. reflexivity.
  - intros step Hstep. simpl in Hstep.
    repeat (destruct Hstep as [<-|Hstep];
            [split; vm_compute; discriminate|]).
    destruct Hstep.
Defined.

(** X25: a mini doughnut is guarded against a total of 0 (it is then drawn
    in the red pair of colours), but the label printed beside it is not: with
    a total of 0 the label is NaN or an infinity, never a number. *)
Theorem mini_doughnut_label_is_not_guarded (value total : Q)
        (Hzero : (total == 0)%Q) :
  CoursesPage.mini_backgroundColor (CoursesPage.createMiniDoughnutData value total)
  = ["#dc3545"; "rgba(220, 53, 69, 0.2)"]%string
  /\ forall q, CoursesPage.miniDoughnutLabel value total <> Js.Finite q.
Proof.
  split.
  - unfold CoursesPage.createMiniDoughnutData.
    assert (E : Qlt_bool 0 total = false).
    { destruct (Qlt_bool 0 total) eqn:E; [|reflexivity].
      apply Qlt_bool_true in E. rewrite Hzero in E. now apply Qlt_irrefl in E. }
    rewrite E. reflexivity.
  - intros q. unfold CoursesPage.miniDoughnutLabel, Js.divide, Js.times, Js.div.
    assert (E : Qeq_bool total 0 = true) by now apply Qeq_bool_iff.
    rewrite E.
    destruct (Qeq_bool value 0); [discriminate|].
    destruct (Qlt_bool 0 value); discriminate.
Qed.

Lemma mini_doughnut_label_is_not_guarded_witness :
  CoursesPage.mini_backgroundColor (CoursesPage.createMiniDoughnutData 0 0)
  = ["#dc3545"; "rgba(220, 53, 69, 0.2)"]%string
  /\ forall q, CoursesPage.miniDoughnutLabel 0 0 <> Js.Finite q.
Proof.
  apply (@mini_doughnut_label_is_not_guarded 0 0). reflexivity.
Defined.


(** 23 of 40 is 57.5%, which the page shows as 57: the product computed in
    doubles is 57.49999999999999. *)
Remark mini_doughnut_label_of_23_in_40 :
  CoursesPage.miniDoughnutLabel 23 40 = Js.Finite 57
  /\ DropoutPage.Math_round (23 / 40 * 100) = 58.
Proof.
  split; vm_compute; reflexivity.
Qed.


